(** * oc_client_provider/app/routes.py: the HTTP routing layer

    A shallow embedding of the response encoders, of the argument
    normaliser and of the route handlers of [routes.py], followed by the
    properties of the specification that concern them.

    Python values are first-order data here: a [str] is its sequence of
    Unicode code points, a [dict] is its sequence of bindings in insertion
    order, the collaborators ([ClientGetter], [ClientTF]) are records of
    state transformers over an abstract backend. *)

From Stdlib Require Import List NArith ZArith Lia Bool String Ascii.
From Stdlib Require Import Permutation Sorted DecimalZ.
Import ListNotations.

Set Implicit Arguments.
Local Open Scope N_scope.

(** ** Python strings *)

(** A code point; a Python [str] is a sequence of them. *)
Abbreviation char := N (only parsing).
Abbreviation pystr := (list N) (only parsing).

(** The [str] denoted by a source literal (literals of [routes.py] are
    ASCII). *)
Definition lit (s : string) : pystr :=
  map N_of_ascii (list_ascii_of_string s).

Definition pystr_eqb (a b : pystr) : bool :=
  if list_eq_dec N.eq_dec a b then true else false.

Definition c_tab : char := 9.
Definition c_lf : char := 10.
Definition c_cr : char := 13.
Definition c_space : char := 32.
Definition c_dquote : char := 34.
Definition c_squote : char := 39.
Definition c_comma : char := 44.
Definition c_underscore : char := 95.

(** A text between double quotes. *)
Definition quoted (s : pystr) : pystr := c_dquote :: s ++ [c_dquote].

(** [Py_UNICODE_ISSPACE]: the code points [str.strip()] removes. *)
Definition py_isspace (c : char) : bool :=
  ((9 <=? c) && (c <=? 13)) || ((28 <=? c) && (c <=? 32))
  || (c =? 133) || (c =? 160) || (c =? 5760)
  || ((8192 <=? c) && (c <=? 8202))
  || (c =? 8232) || (c =? 8233) || (c =? 8239) || (c =? 8287)
  || (c =? 12288).

(** [s.lstrip()], [s.rstrip()], [s.strip()]. *)
Fixpoint py_lstrip (s : pystr) : pystr :=
  match s with
  | [] => []
  | c :: t => if py_isspace c then py_lstrip t else s
  end.

Definition py_rstrip (s : pystr) : pystr := rev (py_lstrip (rev s)).

Definition py_strip (s : pystr) : pystr := py_rstrip (py_lstrip s).

(** [s.replace(a, b)] for one-character [a] and [b]. *)
Definition py_replace1 (a b : char) (s : pystr) : pystr :=
  map (fun c => if c =? a then b else c) s.

(** [s.lower()] on the ASCII letters (HTTP method names and the [csv]
    flag words are ASCII; other code points are left as they are). *)
Definition py_lower (s : pystr) : pystr :=
  map (fun c => if (65 <=? c) && (c <=? 90) then c + 32 else c) s.

Fixpoint py_startswith (p s : pystr) : bool :=
  match p, s with
  | [], _ => true
  | _ :: _, [] => false
  | a :: p', b :: s' => (a =? b) && py_startswith p' s'
  end.

(** [p in s] for strings. *)
Fixpoint py_contains (p s : pystr) : bool :=
  py_startswith p s ||
  match s with
  | [] => false
  | _ :: s' => py_contains p s'
  end.

(** [a < b] and [a <= b] on strings: lexicographic on code points. *)
Fixpoint pystr_compare (a b : pystr) : comparison :=
  match a, b with
  | [], [] => Eq
  | [], _ :: _ => Lt
  | _ :: _, [] => Gt
  | x :: a', y :: b' =>
      match x ?= y with
      | Eq => pystr_compare a' b'
      | r => r
      end
  end.

Definition pystr_leb (a b : pystr) : bool :=
  match pystr_compare a b with Gt => false | _ => true end.

(** ** Python values *)

(** The values that travel through the module: what [request.json] and
    the collaborators hold.  A [dict] has [str] keys (JSON objects, query
    strings and keyword arguments all do) and keeps insertion order. *)
Unset Elimination Schemes.
Inductive PyVal : Type :=
| PNone
| PBool (b : bool)
| PInt (z : Z)
| PStr (s : pystr)
| PList (l : list PyVal)
| PDict (m : list (pystr * PyVal)).
Set Elimination Schemes.

Definition dict := list (pystr * PyVal).

(** [bool(v)]. *)
Definition py_truthy (v : PyVal) : bool :=
  match v with
  | PNone => false
  | PBool b => b
  | PInt z => negb (Z.eqb z 0)
  | PStr s => match s with [] => false | _ => true end
  | PList l => match l with [] => false | _ => true end
  | PDict m => match m with [] => false | _ => true end
  end.

(** [isinstance(v, str)]. *)
Definition is_str (v : PyVal) : bool :=
  match v with PStr _ => true | _ => false end.

(** [type(v).__name__]. *)
Definition py_type_name (v : PyVal) : pystr :=
  match v with
  | PNone => lit "NoneType"
  | PBool _ => lit "bool"
  | PInt _ => lit "int"
  | PStr _ => lit "str"
  | PList _ => lit "list"
  | PDict _ => lit "dict"
  end.

(** *** Dictionaries *)

Definition dict_keys (m : dict) : list pystr := map fst m.

(** [m.get(k)] as an option; [dict_get_or] is [m.get(k, d)]. *)
Fixpoint dict_get (k : pystr) (m : dict) : option PyVal :=
  match m with
  | [] => None
  | (k', v) :: m' => if pystr_eqb k k' then Some v else dict_get k m'
  end.

Definition dict_get_or (k : pystr) (d : PyVal) (m : dict) : PyVal :=
  match dict_get k m with Some v => v | None => d end.

Definition dict_mem (k : pystr) (m : dict) : bool :=
  match dict_get k m with Some _ => true | None => false end.

(** [m[k] = v]: an existing key keeps its place, a new one goes last. *)
Fixpoint dict_set (k : pystr) (v : PyVal) (m : dict) : dict :=
  match m with
  | [] => [(k, v)]
  | (k', v') :: m' =>
      if pystr_eqb k k' then (k', v) :: m' else (k', v') :: dict_set k v m'
  end.

(** [del m[k]]; [None] is the [KeyError] of an absent key. *)
Fixpoint dict_del (k : pystr) (m : dict) : option dict :=
  match m with
  | [] => None
  | (k', v') :: m' =>
      if pystr_eqb k k' then Some m'
      else match dict_del k m' with
           | Some r => Some ((k', v') :: r)
           | None => None
           end
  end.

(** The invariant of a Python [dict]: no key twice. *)
Definition dict_wf (m : dict) : Prop := NoDup (dict_keys m).

(** ** Text of integers *)

Fixpoint uint_digits (u : Decimal.uint) : pystr :=
  match u with
  | Decimal.Nil => []
  | Decimal.D0 u' => 48 :: uint_digits u'
  | Decimal.D1 u' => 49 :: uint_digits u'
  | Decimal.D2 u' => 50 :: uint_digits u'
  | Decimal.D3 u' => 51 :: uint_digits u'
  | Decimal.D4 u' => 52 :: uint_digits u'
  | Decimal.D5 u' => 53 :: uint_digits u'
  | Decimal.D6 u' => 54 :: uint_digits u'
  | Decimal.D7 u' => 55 :: uint_digits u'
  | Decimal.D8 u' => 56 :: uint_digits u'
  | Decimal.D9 u' => 57 :: uint_digits u'
  end.

(** [str(z)] for an [int]. *)
Definition int_text (z : Z) : pystr :=
  match Z.to_int z with
  | Decimal.Pos u => uint_digits u
  | Decimal.Neg u => 45 :: uint_digits u
  end.

(** ** json.dumps *)

Definition hex_digit (n : N) : char :=
  if n <? 10 then 48 + n else 87 + n.

(** ['\\u{0:04x}'.format(n)]. *)
Definition u_escape (n : N) : pystr :=
  [92; 117; hex_digit (N.shiftr n 12 mod 16); hex_digit (N.shiftr n 8 mod 16);
   hex_digit (N.shiftr n 4 mod 16); hex_digit (n mod 16)].

(** One character of a string under [ensure_ascii=True]. *)
Definition json_escape_char (c : char) : pystr :=
  if c =? 34 then [92; 34]
  else if c =? 92 then [92; 92]
  else if c =? 10 then [92; 110]
  else if c =? 13 then [92; 114]
  else if c =? 9 then [92; 116]
  else if c =? 8 then [92; 98]
  else if c =? 12 then [92; 102]
  else if (32 <=? c) && (c <=? 126) then [c]
  else if c <? 65536 then u_escape c
  else
    let n := c - 65536 in
    u_escape (N.lor 55296 (N.land (N.shiftr n 10) 1023))
    ++ u_escape (N.lor 56320 (N.land n 1023)).

Definition json_string (s : pystr) : pystr :=
  c_dquote :: flat_map json_escape_char s ++ [c_dquote].

(** [", ".join(parts)]. *)
Fixpoint join_comma_space (parts : list pystr) : pystr :=
  match parts with
  | [] => []
  | [p] => p
  | p :: rest => p ++ [c_comma; c_space] ++ join_comma_space rest
  end.

(** [json.dumps(v)] with the default separators. *)
Fixpoint json_dumps (v : PyVal) : pystr :=
  match v with
  | PNone => lit "null"
  | PBool true => lit "true"
  | PBool false => lit "false"
  | PInt z => int_text z
  | PStr s => json_string s
  | PList l => [91] ++ join_comma_space (map json_dumps l) ++ [93]
  | PDict m =>
      [123]
      ++ join_comma_space
           (map (fun kv => json_string (fst kv) ++ [58; c_space]
                           ++ json_dumps (snd kv)) m)
      ++ [125]
  end.

(** ** json.loads

    The decoder of the standard library (the C scanner, strict), on the
    values modelled: a number with a fraction or an exponent, [NaN] and
    [Infinity] are floats and get no value here, as a malformed text gets
    none.  The interpreter's recursion limit is not modelled. *)

Definition is_ws (c : char) : bool :=
  (c =? 32) || (c =? 9) || (c =? 10) || (c =? 13).

Fixpoint skip_ws (s : pystr) : pystr :=
  match s with
  | [] => []
  | c :: t => if is_ws c then skip_ws t else s
  end.

Definition is_digit (c : char) : bool := (48 <=? c) && (c <=? 57).

Definition hex_value (c : char) : option N :=
  if (48 <=? c) && (c <=? 57) then Some (c - 48)
  else if (97 <=? c) && (c <=? 102) then Some (c - 87)
  else if (65 <=? c) && (c <=? 70) then Some (c - 55)
  else None.

(** Four hexadecimal digits. *)
Definition read_hex4 (s : pystr) : option (N * pystr) :=
  match s with
  | a :: b :: c :: d :: rest =>
      match hex_value a, hex_value b, hex_value c, hex_value d with
      | Some a, Some b, Some c, Some d =>
          Some (N.lor (N.shiftl (N.lor (N.shiftl (N.lor (N.shiftl a 4) b) 4) c) 4) d,
                rest)
      | _, _, _, _ => None
      end
  | _ => None
  end.

Definition is_high_surrogate (c : char) : bool := (55296 <=? c) && (c <=? 56319).
Definition is_low_surrogate (c : char) : bool := (56320 <=? c) && (c <=? 57343).

(** [Py_UNICODE_JOIN_SURROGATES]. *)
Definition join_surrogates (hi lo : char) : char :=
  65536 + N.lor (N.shiftl (N.land hi 1023) 10) (N.land lo 1023).

(** The character of an escape, from the text after its backslash.  A
    high surrogate followed by the escape of a low one makes one
    character with it. *)
Definition scan_escape (s : pystr) : option (char * pystr) :=
  match s with
  | [] => None
  | c :: rest =>
      if c =? 117 then
        match read_hex4 rest with
        | None => None
        | Some (n, rest1) =>
            if is_high_surrogate n then
              match rest1 with
              | b :: u :: rest2 =>
                  if (b =? 92) && (u =? 117) then
                    match read_hex4 rest2 with
                    | None => None
                    | Some (n2, rest3) =>
                        if is_low_surrogate n2
                        then Some (join_surrogates n n2, rest3)
                        else Some (n, rest1)
                    end
                  else Some (n, rest1)
              | _ => Some (n, rest1)
              end
            else Some (n, rest1)
        end
      else if c =? 34 then Some (34, rest)
      else if c =? 92 then Some (92, rest)
      else if c =? 47 then Some (47, rest)
      else if c =? 98 then Some (8, rest)
      else if c =? 102 then Some (12, rest)
      else if c =? 110 then Some (10, rest)
      else if c =? 114 then Some (13, rest)
      else if c =? 116 then Some (9, rest)
      else None
  end.

(** [scanstring], from the text after the opening quote: the string and
    the text after the closing quote.  Every step uses up a character, so
    the length of the text is fuel enough. *)
Fixpoint scan_string (fuel : nat) (s : pystr) : option (pystr * pystr) :=
  match fuel with
  | O => None
  | S fuel' =>
      match s with
      | [] => None
      | c :: rest =>
          if c =? 34 then Some ([], rest)
          else if c =? 92 then
            match scan_escape rest with
            | None => None
            | Some (ch, rest') =>
                match scan_string fuel' rest' with
                | None => None
                | Some (str, r) => Some (ch :: str, r)
                end
            end
          else if c <? 32 then None
          else
            match scan_string fuel' rest with
            | None => None
            | Some (str, r) => Some (c :: str, r)
            end
      end
  end.

(** The longest run of digits at the head of the text. *)
Fixpoint scan_digits (s : pystr) : Decimal.uint * pystr :=
  match s with
  | [] => (Decimal.Nil, [])
  | c :: rest =>
      let (u, r) := scan_digits rest in
      if c =? 48 then (Decimal.D0 u, r)
      else if c =? 49 then (Decimal.D1 u, r)
      else if c =? 50 then (Decimal.D2 u, r)
      else if c =? 51 then (Decimal.D3 u, r)
      else if c =? 52 then (Decimal.D4 u, r)
      else if c =? 53 then (Decimal.D5 u, r)
      else if c =? 54 then (Decimal.D6 u, r)
      else if c =? 55 then (Decimal.D7 u, r)
      else if c =? 56 then (Decimal.D8 u, r)
      else if c =? 57 then (Decimal.D9 u, r)
      else (Decimal.Nil, s)
  end.

(** An integer: an optional minus, then a lone zero or digits that do
    not start with zero.  What goes on with a point or an exponent is a
    float or an error. *)
Definition scan_number (s : pystr) : option (Z * pystr) :=
  let (negative, s1) :=
    match s with
    | c :: r => if c =? 45 then (true, r) else (false, s)
    | [] => (false, s)
    end in
  match s1 with
  | [] => None
  | c :: r =>
      if is_digit c then
        let (u, rest) :=
          if c =? 48 then (Decimal.D0 Decimal.Nil, r) else scan_digits s1 in
        match rest with
        | d :: _ =>
            if (d =? 46) || (d =? 101) || (d =? 69) then None
            else Some (if negative then Z.opp (Z.of_uint u) else Z.of_uint u,
                       rest)
        | [] => Some (if negative then Z.opp (Z.of_uint u) else Z.of_uint u,
                      rest)
        end
      else None
  end.

(** [dict(pairs)]: a key met again keeps its place and takes the new
    value. *)
Definition dict_of_pairs (pairs : list (pystr * PyVal)) : dict :=
  fold_left (fun m kv => dict_set (fst kv) (snd kv) m) pairs [].

(** [scan_once] and the loops of the array and of the object. *)
Fixpoint parse_value (fuel : nat) (s : pystr) {struct fuel}
  : option (PyVal * pystr) :=
  match fuel with
  | O => None
  | S fuel' =>
      match s with
      | [] => None
      | c :: rest =>
          if c =? 34 then
            match scan_string (List.length rest) rest with
            | Some (str, r) => Some (PStr str, r)
            | None => None
            end
          else if c =? 123 then
            match skip_ws rest with
            | [] => None
            | c1 :: r1 =>
                if c1 =? 125 then Some (PDict [], r1)
                else
                  match parse_members fuel' (c1 :: r1) with
                  | Some (pairs, r) => Some (PDict (dict_of_pairs pairs), r)
                  | None => None
                  end
            end
          else if c =? 91 then
            match skip_ws rest with
            | [] => None
            | c1 :: r1 =>
                if c1 =? 93 then Some (PList [], r1)
                else
                  match parse_elems fuel' (c1 :: r1) with
                  | Some (vs, r) => Some (PList vs, r)
                  | None => None
                  end
            end
          else if py_startswith (lit "null") s
          then Some (PNone, skipn 4 s)
          else if py_startswith (lit "true") s
          then Some (PBool true, skipn 4 s)
          else if py_startswith (lit "false") s
          then Some (PBool false, skipn 5 s)
          else
            match scan_number s with
            | Some (z, r) => Some (PInt z, r)
            | None => None
            end
      end
  end

with parse_elems (fuel : nat) (s : pystr) {struct fuel}
  : option (list PyVal * pystr) :=
  match fuel with
  | O => None
  | S fuel' =>
      match parse_value fuel' s with
      | None => None
      | Some (v, s1) =>
          match skip_ws s1 with
          | [] => None
          | c :: r =>
              if c =? 93 then Some ([v], r)
              else if c =? 44 then
                match parse_elems fuel' (skip_ws r) with
                | Some (vs, r') => Some (v :: vs, r')
                | None => None
                end
              else None
          end
      end
  end

with parse_members (fuel : nat) (s : pystr) {struct fuel}
  : option (list (pystr * PyVal) * pystr) :=
  match fuel with
  | O => None
  | S fuel' =>
      match s with
      | [] => None
      | q :: r0 =>
          if q =? 34 then
            match scan_string (List.length r0) r0 with
            | None => None
            | Some (key, s1) =>
                match skip_ws s1 with
                | [] => None
                | c2 :: r2 =>
                    if c2 =? 58 then
                      match parse_value fuel' (skip_ws r2) with
                      | None => None
                      | Some (v, s4) =>
                          match skip_ws s4 with
                          | [] => None
                          | c5 :: r5 =>
                              if c5 =? 125 then Some ([(key, v)], r5)
                              else if c5 =? 44 then
                                match parse_members fuel' (skip_ws r5) with
                                | Some (kvs, r') => Some ((key, v) :: kvs, r')
                                | None => None
                                end
                              else None
                          end
                      end
                    else None
                end
            end
          else None
      end
  end.

(** [json.loads(s)]: one value between white space, and nothing else. *)
Definition json_loads (s : pystr) : option PyVal :=
  let s0 := skip_ws s in
  match parse_value (2 * List.length s0 + 1) s0 with
  | None => None
  | Some (v, r) =>
      match skip_ws r with
      | [] => Some v
      | _ :: _ => None
      end
  end.

(** ** Exceptions and outcomes *)

(** Exceptions the interpreter or the standard library raise inside this
    module. *)
Inductive builtin_error : Type :=
| NoAttribute (type_name attr : pystr)
    (* AttributeError: an object of that type has no attribute attr *)
| KeyError (k : pystr)
| KwargsNotMapping (callee : pystr) (v : PyVal)
    (* TypeError: the operand of ** is not a mapping *)
| CsvExtraFields (row : dict).
    (* ValueError of csv.DictWriter: dict contains fields not in fieldnames *)

(** An exception object (an instance of [Exception], which [except
    Exception] catches): one of the above, or one raised by a collaborator,
    of which the module only uses [str(e)] and [repr(e)]. *)
Inductive exn : Type :=
| Builtin (e : builtin_error)
| Collaborator (e_str e_repr : pystr).

(** The result of running a piece of code: a value or a raised exception. *)
Inductive outcome (A : Type) : Type :=
| Ok (a : A)
| Raise (e : exn).
Arguments Ok {A} a.
Arguments Raise {A} e.

(** ** flask.Response *)

(** The arguments [Response(...)] is built from. *)
Record Response : Type := mkResponse {
  status : Z;
  content_type : option pystr;
  mimetype : option pystr;
  response : pystr
}.

(** [response_json(code, data)]: a [str] is sent as it is, anything else
    goes through [json.dumps]. *)
Definition response_json (code : Z) (data : PyVal) : Response :=
  let data :=
    match data with
    | PStr s => s
    | _ => json_dumps data
    end in
  {| status := code;
     content_type := Some (lit "application/json");
     mimetype := Some (lit "application/json");
     response := data |}.

(** ** The csv module *)

Section Csv.

(** [repr(v)] of a [list] or a [dict] (the text depends on the Unicode
    database through the [repr] of the strings inside). *)
Variable py_repr : PyVal -> pystr.

(** [str(v)]. *)
Definition py_str (v : PyVal) : pystr :=
  match v with
  | PNone => lit "None"
  | PBool true => lit "True"
  | PBool false => lit "False"
  | PInt z => int_text z
  | PStr s => s
  | PList _ | PDict _ => py_repr v
  end.

(** The text the writer joins for one field: [None] is the empty field,
    a [str] is itself, anything else is its [str()]. *)
Definition csv_field_text (v : PyVal) : pystr :=
  match v with
  | PNone => []
  | PStr s => s
  | _ => py_str v
  end.

(** A character that forces quoting in the excel dialect: the delimiter,
    the quote character, or one of the line terminator. *)
Definition csv_special (c : char) : bool :=
  (c =? c_comma) || (c =? c_dquote) || (c =? c_cr) || (c =? c_lf).

(** One field under QUOTE_MINIMAL with doublequote. *)
Definition csv_field (s : pystr) : pystr :=
  let doubled := flat_map (fun c => if c =? c_dquote then [c; c] else [c]) s in
  if existsb csv_special s then c_dquote :: doubled ++ [c_dquote] else doubled.

Fixpoint join_comma (parts : list pystr) : pystr :=
  match parts with
  | [] => []
  | [p] => p
  | p :: rest => p ++ [c_comma] ++ join_comma rest
  end.

(** [writer.writerow(fields)]: the record, with the lone empty field
    written quoted, then the line terminator. *)
Definition csv_writerow (fields : list PyVal) : pystr :=
  let rec := join_comma (map (fun v => csv_field (csv_field_text v)) fields) in
  let rec :=
    match fields, rec with
    | _ :: _, [] => [c_dquote; c_dquote]
    | _, _ => rec
    end in
  rec ++ [c_cr; c_lf].

(** [DictWriter._dict_to_list(rowdict)] with [extrasaction='raise'] and
    [restval=''].  A row that is no mapping has no [keys]. *)
Definition dict_to_list (fieldnames : list pystr) (row : PyVal)
  : outcome (list PyVal) :=
  match row with
  | PDict m =>
      if forallb (fun k => existsb (pystr_eqb k) fieldnames) (dict_keys m)
      then Ok (map (fun k => dict_get_or k (PStr []) m) fieldnames)
      else Raise (Builtin (CsvExtraFields m))
  | _ => Raise (Builtin (NoAttribute (py_type_name row) (lit "keys")))
  end.

(** [DictWriter.writerows(rows)]: the text written, or the exception of
    the first bad row. *)
Fixpoint csv_writerows (fieldnames : list pystr) (rows : list PyVal)
  : outcome pystr :=
  match rows with
  | [] => Ok []
  | r :: rest =>
      match dict_to_list fieldnames r with
      | Raise e => Raise e
      | Ok fields =>
          match csv_writerows fieldnames rest with
          | Raise e => Raise e
          | Ok text => Ok (csv_writerow fields ++ text)
          end
      end
  end.

(** [DictWriter.writeheader()]: the row of the field names. *)
Definition csv_writeheader (fieldnames : list pystr) : pystr :=
  csv_writerow (map PStr fieldnames).

(** [response_csv(code, data)]. *)
Definition response_csv (code : Z) (data : PyVal) : outcome Response :=
  (* if not data: data = list() *)
  let data := if py_truthy data then data else PList [] in
  (* if not isinstance(data, list): data = [data] *)
  let data := match data with PList l => l | _ => [data] end in
  let body :=
    match data with
    | [] => Ok []
    | first :: _ =>
        match first with
        | PDict m0 =>
            let headers := dict_keys m0 in
            match csv_writerows headers data with
            | Raise e => Raise e
            | Ok rows => Ok (csv_writeheader headers ++ rows)
            end
        | _ => Raise (Builtin (NoAttribute (py_type_name first) (lit "keys")))
        end
    end in
  match body with
  | Raise e => Raise e
  | Ok text =>
      Ok {| status := code;
            content_type := None;
            mimetype := Some (lit "text/csv");
            response := text |}
  end.

End Csv.

(** ** The argument normaliser *)

(** [v.strip().replace("\t", " ").replace(" ", "_")]. *)
Definition adjust_value (s : pystr) : pystr :=
  py_replace1 c_space c_underscore (py_replace1 c_tab c_space (py_strip s)).

(** The body of the [for] loop of [_adjust_arguments] for the key [k], on
    the current contents of [args]. *)
Definition adjust_step (k : pystr) (args : dict) : outcome dict :=
  match dict_get_or k PNone args with
  | PStr s =>
      match adjust_value s with
      | [] =>
          match dict_del k args with
          | Some args' => Ok args'
          | None => Raise (Builtin (KeyError k))
          end
      | v => Ok (dict_set k (PStr v) args)
      end
  | _ => Ok args
  end.

(** The loop over the snapshot [list(args.keys())]. *)
Fixpoint adjust_loop (keys : list pystr) (args : dict) : outcome dict :=
  match keys with
  | [] => Ok args
  | k :: rest =>
      match adjust_step k args with
      | Ok args' => adjust_loop rest args'
      | Raise e => Raise e
      end
  end.

(** [_adjust_arguments(args)]: the mapping is updated in place and
    returned, so the result stands for the one object. *)
Definition _adjust_arguments (args : PyVal) : outcome PyVal :=
  if negb (py_truthy args) then Ok args
  else
    match args with
    | PDict m =>
        match adjust_loop (dict_keys m) m with
        | Ok m' => Ok (PDict m')
        | Raise e => Raise e
        end
    | _ => Raise (Builtin (NoAttribute (py_type_name args) (lit "keys")))
    end.

(** ** list.sort on strings *)

Fixpoint sort_insert (x : pystr) (l : list pystr) : list pystr :=
  match l with
  | [] => [x]
  | y :: l' => if pystr_leb x y then x :: l else y :: sort_insert x l'
  end.

(** [l.sort()]: the ascending rearrangement of [l] (strings that compare
    equal are the same string, so it is the only one). *)
Fixpoint list_sort (l : list pystr) : list pystr :=
  match l with
  | [] => []
  | x :: l' => sort_insert x (list_sort l')
  end.

(** ** Collaborators and the handler monad *)

(** A call a handler makes to a collaborator, with its arguments. *)
Inductive call : Type :=
| Call_get_clients
| Call_get_deliveries (client search_params timezone : PyVal)
| Call_get_deliveries_v2 (client search_params timezone : PyVal)
| Call_client_tf (name : pystr) (kwargs : dict).

Section Routes.

(** The state of the backend the collaborators read and write. *)
Variable St : Type.

(** [str(e)] and [repr(e)] of the interpreter's own exceptions (their
    wording varies with the interpreter version). *)
Variables builtin_str builtin_repr : builtin_error -> pystr.

Variable py_repr : PyVal -> pystr.

(** Modelled from the spec: [client_getter.py] is not part of the
    sources.  [get_clients() -> list] of client identifiers;
    [get_deliveries(client, search_params, timezone) -> (list, error|None)]
    with a data-layer error string, and [get_deliveries_v2] of the same
    shape.  Each call may raise and may change the backend. *)
Record ClientGetter : Type := {
  get_clients : St -> outcome (list pystr) * St;
  get_deliveries :
    PyVal -> PyVal -> PyVal -> St -> outcome (list PyVal * option pystr) * St;
  get_deliveries_v2 :
    PyVal -> PyVal -> PyVal -> St -> outcome (list PyVal * option pystr) * St
}.

(** Modelled from the spec: [client_tf.py] is not part of the sources.
    [get_client], [put_client] and [delete_client] take keyword arguments;
    [get_client] returns a mapping. *)
Record ClientTF : Type := {
  get_client : dict -> St -> outcome PyVal * St;
  put_client : dict -> St -> outcome PyVal * St;
  delete_client : dict -> St -> outcome PyVal * St
}.

Variable client_getter : ClientGetter.
Variable client_tf : ClientTF.

(** What a handler runs in: the backend and the calls made so far. *)
Record world : Type := mkWorld {
  backend : St;
  calls : list call
}.

(** A computation that returns or raises, and updates the world. *)
Definition M (A : Type) : Type := world -> outcome A * world.

Definition ret {A} (a : A) : M A := fun w => (Ok a, w).

Definition raise {A} (e : exn) : M A := fun w => (Raise e, w).

Definition bind {A B} (c : M A) (k : A -> M B) : M B :=
  fun w =>
    match c w with
    | (Ok a, w') => k a w'
    | (Raise e, w') => (Raise e, w')
    end.

(** [try: c  except Exception as e: h(e)]. *)
Definition try_except {A} (c : M A) (h : exn -> M A) : M A :=
  fun w =>
    match c w with
    | (Ok a, w') => (Ok a, w')
    | (Raise e, w') => h e w'
    end.

Definition lift {A} (o : outcome A) : M A := fun w => (o, w).

(** A call to a collaborator: recorded, then run on the backend. *)
Definition invoke {A} (c : call) (f : St -> outcome A * St) : M A :=
  fun w =>
    let (r, s) := f (backend w) in
    (r, {| backend := s; calls := calls w ++ [c] |}).

Notation "x <- c ;; k" := (bind c (fun x => k))
  (at level 61, c at next level, right associativity).

Definition exn_str (e : exn) : pystr :=
  match e with
  | Builtin b => builtin_str b
  | Collaborator s _ => s
  end.

Definition exn_repr (e : exn) : pystr :=
  match e with
  | Builtin b => builtin_repr b
  | Collaborator _ r => r
  end.

(** ** The request *)

(** What the handlers read of [flask.request]; [request.json] is the body
    once parsed. *)
Record Request : Type := mkRequest {
  rq_rule : pystr;                     (* request.url_rule.rule *)
  rq_method : pystr;                   (* request.method *)
  rq_args : list (pystr * pystr);      (* request.args.to_dict() *)
  rq_json : PyVal                      (* request.json *)
}.

(** [request.args.to_dict()]: query values are strings. *)
Definition args_to_dict (r : Request) : PyVal :=
  PDict (map (fun kv => (fst kv, PStr (snd kv))) (rq_args r)).

(** [request.json.get(k, d)]; only a mapping has [get]. *)
Definition json_get (r : Request) (k : pystr) (d : PyVal) : M PyVal :=
  match rq_json r with
  | PDict m => ret (dict_get_or k d m)
  | v => raise (Builtin (NoAttribute (py_type_name v) (lit "get")))
  end.

(** [{"result": text}]. *)
Definition result_body (text : pystr) : PyVal :=
  PDict [(lit "result", PStr text)].

(** ** /clients and /rundeck/clients *)

Definition get_client_list (r : Request) : M Response :=
  attempt <- try_except
    (client_list <- invoke Call_get_clients (get_clients client_getter) ;;
     ret (inl client_list))
    (fun _e => ret (inr (response_json 500 (result_body (exn_str _e))))) ;;
  match attempt with
  | inr resp => ret resp
  | inl client_list =>
      let rundeck := py_contains (lit "rundeck") (rq_rule r) in
      (* if not client_list: *)
      if match client_list with [] => true | _ => false end
           && negb rundeck
      then ret (response_json 404 (result_body (lit "Client not found")))
      else
        let client_list :=
          match client_list with [] => [] | _ => client_list end in
        let client_list :=
          if rundeck then list_sort client_list else client_list in
        ret (response_json 200 (PList (map PStr client_list)))
  end.

(** ** /deliveries and /v2/deliveries *)

(** [a or b]. *)
Definition py_or (a b : PyVal) : PyVal := if py_truthy a then a else b.

(** ["No deliveries found for client %s" % client]. *)
Definition no_deliveries (client : PyVal) : pystr :=
  lit "No deliveries found for client " ++ py_str py_repr client.

(** The part of both handlers after the collaborator has answered, up to
    the choice of the encoding of a success. *)
Definition deliveries_reply (client : PyVal)
    (answer : list PyVal * option pystr)
    (success : PyVal -> M Response) : M Response :=
  let (delivery_list, error) := answer in
  let delivery_list := PList delivery_list in
  let error := match error with Some e => PStr e | None => PNone end in
  if negb (py_truthy delivery_list) && negb (py_truthy error)
  then ret (response_json 404 (result_body (no_deliveries client)))
  else if py_truthy error
  then ret (response_json 500 (PDict [(lit "result", error)]))
  else success delivery_list.

Definition get_client_deliveries (r : Request) : M Response :=
  tz <- json_get r (lit "timezone") PNone ;;
  let timezone := py_or tz (PStr (lit "Etc/UTC")) in
  need_csv <- json_get r (lit "csv") (PBool true) ;;
  let need_csv :=
    match need_csv with
    | PStr s =>
        PBool (existsb (pystr_eqb (py_lower (py_strip s)))
                 [lit ""; lit "yes"; lit "true"])
    | _ => need_csv
    end in
  client <- json_get r (lit "client") PNone ;;
  if negb (py_truthy client)
  then ret (response_json 400 (result_body (lit "Client code must be specified")))
  else
    sp <- json_get r (lit "search_params") PNone ;;
    let search_params := py_or sp (PDict []) in
    answer <- invoke (Call_get_deliveries client search_params timezone)
                (get_deliveries client_getter client search_params timezone) ;;
    deliveries_reply client answer
      (fun delivery_list =>
         if py_truthy need_csv
         then lift (response_csv py_repr 201 delivery_list)
         else ret (response_json 201 delivery_list)).

(** The literal ['{"result": "Client code must be specified"}'], a string
    the encoder sends as it is. *)
Definition client_required_json : pystr :=
  lit "{" ++ quoted (lit "result") ++ lit ": "
  ++ quoted (lit "Client code must be specified") ++ lit "}".

Definition get_client_deliveries_v2 (r : Request) : M Response :=
  tz <- json_get r (lit "timezone") PNone ;;
  let timezone := py_or tz (PStr (lit "Etc/UTC")) in
  client <- json_get r (lit "client") PNone ;;
  if negb (py_truthy client)
  then ret (response_json 400 (PStr client_required_json))
  else
    sp <- json_get r (lit "search_params") PNone ;;
    let search_params := py_or sp (PDict []) in
    answer <- invoke (Call_get_deliveries_v2 client search_params timezone)
                (get_deliveries_v2 client_getter client search_params timezone) ;;
    deliveries_reply client answer
      (fun delivery_list => ret (response_json 201 delivery_list)).

(** ** /sync_customer_tf *)

(** [getattr(_client_tf, name)]. *)
Definition getattr_client_tf (name : pystr)
  : M (dict -> St -> outcome PyVal * St) :=
  if pystr_eqb name (lit "get_client") then ret (get_client client_tf)
  else if pystr_eqb name (lit "put_client") then ret (put_client client_tf)
  else if pystr_eqb name (lit "delete_client")
  then ret (delete_client client_tf)
  else raise (Builtin (NoAttribute (lit "ClientTF") name)).

(** The call of the method [name] of the collaborator with [kw] expanded
    as keyword arguments: the operand of the double star has to be a
    mapping. *)
Definition call_kwargs (name : pystr) (f : dict -> St -> outcome PyVal * St)
    (kw : PyVal) : M PyVal :=
  match kw with
  | PDict m => invoke (Call_client_tf name m) (f m)
  | _ => raise (Builtin (KwargsNotMapping name kw))
  end.

Definition sync_customer_tf (r : Request) : M Response :=
  _rq_args <- lift (_adjust_arguments (args_to_dict r)) ;;
  let mutating :=
    existsb (pystr_eqb (rq_method r)) [lit "PUT"; lit "DELETE"] in
  failed <-
    (if mutating
     then
       _rq_json <- lift (_adjust_arguments (rq_json r)) ;;
       try_except
         (let name := py_lower (rq_method r) ++ lit "_client" in
          f <- getattr_client_tf name ;;
          _ <- call_kwargs name f _rq_json ;;
          ret None)
         (fun _e => ret (Some (response_json 400 (result_body (exn_repr _e)))))
     else ret None) ;;
  match failed with
  | Some resp => ret resp
  | None =>
      found <- call_kwargs (lit "get_client") (get_client client_tf) _rq_args ;;
      ret (response_json
             (if pystr_eqb (rq_method r) (lit "PUT") then 201 else 200)
             found)
  end.

End Routes.

(** ** Test doubles

    Small collaborators to run the handlers on. *)

Module Demo.

(** A [ClientGetter] that answers the same thing whatever it is asked. *)
Definition getter (clients : outcome (list pystr))
    (deliveries : outcome (list PyVal * option pystr)) : ClientGetter unit :=
  {| get_clients := fun s => (clients, s);
     get_deliveries := fun _ _ _ s => (deliveries, s);
     get_deliveries_v2 := fun _ _ _ s => (deliveries, s) |}.

Definition missing_code : exn :=
  Collaborator (lit "code is required") (lit "ValueError('code is required')").

(** A [ClientTF] over a table of records keyed by their [code]:
    [put_client] and [delete_client] want a [code], [get_client] returns
    the record of the [code], or the whole table when there is none. *)
Definition tf : ClientTF dict :=
  {| get_client := fun kw s =>
       match dict_get (lit "code") kw with
       | Some (PStr c) => (Ok (dict_get_or c (PDict []) s), s)
       | _ => (Ok (PDict s), s)
       end;
     put_client := fun kw s =>
       match dict_get (lit "code") kw with
       | Some (PStr c) => (Ok PNone, dict_set c (PDict kw) s)
       | _ => (Raise missing_code, s)
       end;
     delete_client := fun kw s =>
       match dict_get (lit "code") kw with
       | Some (PStr c) =>
           match dict_del c s with
           | Some s' => (Ok PNone, s')
           | None => (Ok PNone, s)
           end
       | _ => (Raise missing_code, s)
       end |}.

(** Stand-ins for the texts of the interpreter's exceptions and for the
    [repr] of containers: the class name, and an ellipsis. *)
Definition builtin_text (e : builtin_error) : pystr :=
  match e with
  | NoAttribute _ _ => lit "AttributeError"
  | KeyError _ => lit "KeyError"
  | KwargsNotMapping _ _ => lit "TypeError"
  | CsvExtraFields _ => lit "ValueError"
  end.

Definition repr (v : PyVal) : pystr := lit "...".

(** [PUT /sync_customer_tf?code=ABC] with the body [{"name": " Acme  Ltd "}]. *)
Definition put_without_code : Request :=
  {| rq_rule := lit "/sync_customer_tf";
     rq_method := lit "PUT";
     rq_args := [(lit "code", lit "ABC")];
     rq_json := PDict [(lit "name", PStr (lit " Acme  Ltd "))] |}.

(** The same with [code] in the body. *)
Definition put_with_code : Request :=
  {| rq_rule := lit "/sync_customer_tf";
     rq_method := lit "PUT";
     rq_args := [(lit "code", lit "ABC")];
     rq_json := PDict [(lit "code", PStr (lit "ABC"));
                       (lit "name", PStr (lit " Acme  Ltd "))] |}.

(** A mapping with a string to tidy, a blank string and a number. *)
Definition untidy : dict :=
  [(lit "name", PStr (lit "  Acme" ++ [c_tab] ++ lit "Ltd "));
   (lit "note", PStr (lit "   "));
   (lit "id", PInt 7)].

(** Getters for an empty and for an unsorted client list. *)
Definition no_clients : ClientGetter unit := getter (Ok []) (Ok ([], None)).

Definition three_clients : list pystr := [lit "zeta"; lit "Beta"; lit "alpha"].

Definition some_clients : ClientGetter unit :=
  getter (Ok three_clients) (Ok ([], None)).

(** [GET rule]. *)
Definition get_at (rule : pystr) : Request :=
  {| rq_rule := rule; rq_method := lit "GET"; rq_args := [];
     rq_json := PNone |}.

(** [POST rule] with the given body. *)
Definition post_at (rule : pystr) (body : PyVal) : Request :=
  {| rq_rule := rule; rq_method := lit "POST"; rq_args := [];
     rq_json := body |}.

(** A value with every kind of value in it; [128512] is beyond the
    basic plane and is written as two escapes. *)
Definition assorted : PyVal :=
  PDict [(lit "result", PStr (lit "Client not found"));
         (lit "rows",
          PList [PInt (-12); PInt 0; PNone; PBool true; PList []; PDict [];
                 PStr [233; 128512; c_lf; c_dquote; 92]])].

(** One delivery record. *)
Definition parcel : PyVal :=
  PDict [(lit "id", PInt 1); (lit "state", PStr (lit "sent"))].

Definition fresh {St} (s : St) : world St := {| backend := s; calls := [] |}.

End Demo.

(** ** /client_lang, /get_client_data and /client_counterparty *)

(** A call one of these three handlers makes to a collaborator. *)
Inductive lookup : Type :=
| Lookup_client_lang_list (client_list : PyVal)
| Lookup_client_data (client_id : Z)
| Lookup_client_counterparty (client_code : pystr).

Module Collaborator.

(** Modelled from the spec: [client_getter.py] is not part of the
    sources.  [get_client_lang_list(list) -> mapping] and
    [get_client_data(id) -> mapping|None]; each call may raise and may
    change the backend. *)
Record Getter (St : Type) : Type := {
  get_client_lang_list : PyVal -> St -> outcome PyVal * St;
  get_client_data : Z -> St -> outcome PyVal * St
}.

(** Modelled from the spec: [client_counterparty.py] is not part of the
    sources.  [client_counterparty(code) -> value]. *)
Record Counterparty (St : Type) : Type := {
  client_counterparty : pystr -> St -> outcome PyVal * St
}.

End Collaborator.

Section Lookups.

Variable St : Type.

Variable builtin_str : builtin_error -> pystr.

Variable getter : Collaborator.Getter St.
Variable counterparty : Collaborator.Counterparty St.

(** What these handlers run in: the backend and the lookups made so far. *)
Record desk : Type := mkDesk {
  store : St;
  lookups : list lookup
}.

Definition L (A : Type) : Type := desk -> outcome A * desk.

Definition l_ret {A} (a : A) : L A := fun d => (Ok a, d).

Definition l_bind {A B} (c : L A) (k : A -> L B) : L B :=
  fun d =>
    match c d with
    | (Ok a, d') => k a d'
    | (Raise e, d') => (Raise e, d')
    end.

(** [try: c  except Exception as e: h(e)]. *)
Definition l_try {A} (c : L A) (h : exn -> L A) : L A :=
  fun d =>
    match c d with
    | (Ok a, d') => (Ok a, d')
    | (Raise e, d') => h e d'
    end.

(** A call to a collaborator: recorded, then run on the backend. *)
Definition l_invoke {A} (c : lookup) (f : St -> outcome A * St) : L A :=
  fun d =>
    let (r, s) := f (store d) in
    (r, {| store := s; lookups := lookups d ++ [c] |}).

Notation "x <- c ;; k" := (l_bind c (fun x => k))
  (at level 61, c at next level, right associativity).

(** /client_lang: the body is handed to the collaborator as it is. *)
Definition get_client_lang_list (r : Request) : L Response :=
  attempt <- l_try
    (let client_list := rq_json r in
     client_lang_dict <-
       l_invoke (Lookup_client_lang_list client_list)
         (Collaborator.get_client_lang_list getter client_list) ;;
     l_ret (inl client_lang_dict))
    (fun _e =>
       l_ret (inr (response_json 500 (result_body (exn_str builtin_str _e))))) ;;
  match attempt with
  | inr resp => l_ret resp
  | inl client_lang_dict =>
      if negb (py_truthy client_lang_dict)
      then l_ret (response_json 404 (result_body (lit "Client not found")))
      else l_ret (response_json 200 client_lang_dict)
  end.

(** ["Client not found (id=[%d])" % client_id]. *)
Definition client_data_missing (client_id : Z) : pystr :=
  lit "Client not found (id=[" ++ int_text client_id ++ lit "])".

(** /get_client_data/<int:client_id>. *)
Definition get_client_data (client_id : Z) : L Response :=
  attempt <- l_try
    (client_data <-
       l_invoke (Lookup_client_data client_id)
         (Collaborator.get_client_data getter client_id) ;;
     l_ret (inl client_data))
    (fun _e =>
       l_ret (inr (response_json 500 (result_body (exn_str builtin_str _e))))) ;;
  match attempt with
  | inr resp => l_ret resp
  | inl client_data =>
      if negb (py_truthy client_data)
      then l_ret (response_json 404 (result_body (client_data_missing client_id)))
      else l_ret (response_json 200 client_data)
  end.

(** /client_counterparty/<string:client_code>: no [try] here. *)
Definition get_counterparty (client_code : pystr) : L Response :=
  value <-
    l_invoke (Lookup_client_counterparty client_code)
      (Collaborator.client_counterparty counterparty client_code) ;;
  l_ret (response_json 200 (PDict [(client_code, value)])).

End Lookups.

(** Collaborators for these handlers: a table from client to language,
    the clients by number, and the counterparty of a client. *)
Module DemoLookups.

Definition languages : dict :=
  [(lit "ABC", PStr (lit "en")); (lit "XYZ", PStr (lit "lv"))].

Definition out_of_reach : exn :=
  Collaborator (lit "database is down") (lit "OSError('database is down')").

(** [get_client_lang_list] keeps the clients of the list that have a
    language, and raises on a body that is no list; [get_client_data]
    knows the client 1. *)
Definition getter : Collaborator.Getter unit :=
  {| Collaborator.get_client_lang_list := fun client_list s =>
       match client_list with
       | PList l =>
           (Ok (PDict
                  (flat_map
                     (fun c =>
                        match c with
                        | PStr k =>
                            match dict_get k languages with
                            | Some v => [(k, v)]
                            | None => []
                            end
                        | _ => []
                        end) l)), s)
       | _ => (Raise out_of_reach, s)
       end;
     Collaborator.get_client_data := fun client_id s =>
       if Z.eqb client_id 1
       then (Ok (PDict [(lit "code", PStr (lit "ABC"))]), s)
       else (Ok PNone, s) |}.

Definition counterparty : Collaborator.Counterparty unit :=
  {| Collaborator.client_counterparty := fun code s =>
       if pystr_eqb code (lit "ABC") then (Ok (PStr (lit "Acme Ltd")), s)
       else if pystr_eqb code (lit "???") then (Raise out_of_reach, s)
       else (Ok PNone, s) |}.

Definition fresh : desk unit := {| store := tt; lookups := [] |}.

End DemoLookups.

(** * Vocabulary of the statements *)

Unset Implicit Arguments.

(** ** The normaliser *)

(** A string that [lstrip] leaves alone: empty, or starting with a
    character that is no white space. *)
Definition hd_nonspace (s : pystr) : Prop :=
  match s with
  | [] => True
  | c :: _ => py_isspace c = false
  end.

(** A string with no white space at either end. *)
Definition trimmed (s : pystr) : Prop := hd_nonspace s /\ hd_nonspace (rev s).

(** The two replacements of [adjust_value], on one character. *)
Definition adjust_char (c : char) : char :=
  if (if c =? c_tab then c_space else c) =? c_space then c_underscore
  else (if c =? c_tab then c_space else c).

(** What becomes of one binding. *)
Definition adjust_entry (kv : pystr * PyVal) : dict :=
  match snd kv with
  | PStr s =>
      match adjust_value s with
      | [] => []
      | v => [(fst kv, PStr v)]
      end
  | _ => [kv]
  end.

(** The normaliser as one pass over the bindings: what the loop makes of
    a mapping. *)
Definition adjust_spec (m : dict) : dict := flat_map adjust_entry m.

(** ** Responses and the order of strings *)

(** The response of the CSV encoder with a given body. *)
Definition csv_response (code : Z) (body : pystr) : Response :=
  {| status := code; content_type := None;
     mimetype := Some (lit "text/csv"); response := body |}.

(** [a <= b] on strings. *)
Definition pystr_le (a b : pystr) : Prop := pystr_leb a b = true.

(** The response of the JSON encoder with a given body. *)
Definition json_response (code : Z) (body : pystr) : Response :=
  {| status := code;
     content_type := Some (lit "application/json");
     mimetype := Some (lit "application/json");
     response := body |}.

(** The text [{"result": "msg"}], for a [msg] that needs no escape. *)
Definition result_text (msg : pystr) : pystr :=
  lit "{" ++ quoted (lit "result") ++ lit ": " ++ quoted msg ++ lit "}".

(** The body of the response a handler gave, empty when it raised. *)
Definition response_of (o : outcome Response) : pystr :=
  match o with
  | Ok resp => response resp
  | Raise _ => []
  end.

(** An [error] that is [None] or the empty string: false in a test. *)
Definition error_void (error : option pystr) : Prop :=
  error = None \/ error = Some [].

(** ** Values and their encoding *)

(** Induction on values, through lists and dictionaries. *)
Section PyVal_induction.

Variable P : PyVal -> Prop.
Hypothesis HNone : P PNone.
Hypothesis HBool : forall b, P (PBool b).
Hypothesis HInt : forall z, P (PInt z).
Hypothesis HStr : forall s, P (PStr s).
Hypothesis HList : forall l, Forall P l -> P (PList l).
Hypothesis HDict : forall m, Forall (fun kv => P (snd kv)) m -> P (PDict m).

Fixpoint PyVal_ind (v : PyVal) : P v :=
  match v with
  | PNone => HNone
  | PBool b => HBool b
  | PInt z => HInt z
  | PStr s => HStr s
  | PList l =>
      HList l ((fix go (l : list PyVal) : Forall P l :=
                match l with
                | [] => Forall_nil _
                | x :: t => Forall_cons x (PyVal_ind x) (go t)
                end) l)
  | PDict m =>
      HDict m ((fix go (m : list (pystr * PyVal))
                : Forall (fun kv => P (snd kv)) m :=
                match m with
                | [] => Forall_nil _
                | kv :: t => Forall_cons kv (PyVal_ind (snd kv)) (go t)
                end) m)
  end.

End PyVal_induction.

(** A string the decoder reads back as it was: code points of Unicode,
    and no high surrogate right before a low one (their two escapes would
    be read as one character). *)
Fixpoint str_ok (s : pystr) : bool :=
  match s with
  | [] => true
  | c :: t =>
      (c <? 1114112)
      && negb (is_high_surrogate c
               && match t with d :: _ => is_low_surrogate d | [] => false end)
      && str_ok t
  end.

Fixpoint keys_distinct (ks : list pystr) : bool :=
  match ks with
  | [] => true
  | k :: t => negb (existsb (pystr_eqb k) t) && keys_distinct t
  end.

(** A value of such strings, whose dictionaries have no key twice. *)
Fixpoint val_ok (v : PyVal) : bool :=
  match v with
  | PStr s => str_ok s
  | PList l => forallb val_ok l
  | PDict m =>
      keys_distinct (map fst m)
      && forallb (fun kv => str_ok (fst kv) && val_ok (snd kv)) m
  | _ => true
  end.

(** The four digits [u_escape] writes. *)
Definition hex4 (n : N) : pystr :=
  [hex_digit (N.shiftr n 12 mod 16); hex_digit (N.shiftr n 8 mod 16);
   hex_digit (N.shiftr n 4 mod 16); hex_digit (n mod 16)].

(** The text goes on with the escape of a low surrogate. *)
Definition low_escape_ahead (rest : pystr) : bool :=
  match rest with
  | b :: u :: rest2 =>
      (b =? 92) && (u =? 117)
      && match read_hex4 rest2 with
         | Some (n2, _) => is_low_surrogate n2
         | None => true
         end
  | _ => false
  end.

(** The two halves [json_escape_char] writes for a character beyond the
    basic plane. *)
Definition high_half (c : char) : N :=
  N.lor 55296 (N.land (N.shiftr (c - 65536) 10) 1023).

Definition low_half (c : char) : N :=
  N.lor 56320 (N.land (c - 65536) 1023).

(** The text does not go on with a digit. *)
Definition no_digit_ahead (rest : pystr) : Prop :=
  match rest with
  | [] => True
  | c :: _ => is_digit c = false
  end.

(** The text does not go on as a number would. *)
Definition number_ends (rest : pystr) : Prop :=
  match rest with
  | [] => True
  | c :: _ => is_digit c = false /\ c <> 46 /\ c <> 101 /\ c <> 69
  end.

(** The text of one member of an object. *)
Definition member_text (kv : pystr * PyVal) : pystr :=
  json_string (fst kv) ++ [58; c_space] ++ json_dumps (snd kv).

(** What the round trip asks of the decoder at one value. *)
Definition reads_back (v : PyVal) : Prop :=
  val_ok v = true ->
  forall (rest : pystr) (fuel : nat),
    number_ends rest ->
    (2 * List.length (json_dumps v ++ rest) + 1 <= fuel)%nat ->
    parse_value fuel (json_dumps v ++ rest) = Some (v, rest).

(** ** Bindings, records and flags *)

(** A binding the normaliser keeps: its value is no string, or a string
    that is not blank. *)
Definition kept_binding (kv : pystr * PyVal) : bool :=
  match snd kv with
  | PStr s => match py_strip s with [] => false | _ :: _ => true end
  | _ => true
  end.

(** A tab or a space turned into an underscore. *)
Definition underscore (c : char) : char :=
  if (c =? c_tab) || (c =? c_space) then c_underscore else c.

(** A record that fits a header: a mapping whose keys are all among the
    field names. *)
Definition row_fits (fieldnames : list pystr) (row : PyVal) : bool :=
  match row with
  | PDict m =>
      forallb (fun k => existsb (pystr_eqb k) fieldnames) (dict_keys m)
  | _ => false
  end.

(** The fields of a record under a header, an absent one empty. *)
Definition row_fields (fieldnames : list pystr) (row : PyVal) : list PyVal :=
  match row with
  | PDict m => map (fun k => dict_get_or k (PStr []) m) fieldnames
  | _ => []
  end.

(** Two records with the same bindings, in whatever order. *)
Definition same_record (a b : PyVal) : Prop :=
  exists m1 m2,
    a = PDict m1 /\ b = PDict m2 /\ dict_wf m1 /\ Permutation m1 m2.

(** A character the JSON encoder writes: printable ASCII. *)
Definition printable_ascii (c : char) : Prop := 32 <= c <= 126.

(** A character a JSON string holds as it is. *)
Definition plain_char (c : char) : bool :=
  (32 <=? c) && (c <=? 126) && negb (c =? 34) && negb (c =? 92).

(** The word of a [csv] flag given as a string. *)
Definition csv_word (s : pystr) : pystr := py_lower (py_strip s).

(** The [need_csv] of /deliveries for the body [m]: the value of [csv],
    true when there is none, and for a string whether its word is empty,
    [yes] or [true]. *)
Definition need_csv_of (m : dict) : PyVal :=
  let need_csv := dict_get_or (lit "csv") (PBool true) m in
  match need_csv with
  | PStr s =>
      PBool (existsb (pystr_eqb (py_lower (py_strip s)))
               [lit ""; lit "yes"; lit "true"])
  | _ => need_csv
  end.

(** A method that makes /sync_customer_tf mutate. *)
Definition mutating_method (method : pystr) : Prop :=
  method = lit "PUT" \/ method = lit "DELETE".

(** * Properties *)

(** ** Strings and dictionaries *)

Lemma pystr_eqb_eq (a b : pystr) : pystr_eqb a b = true <-> a = b.
Proof.
  unfold pystr_eqb. destruct (list_eq_dec N.eq_dec a b); split; congruence.
Qed.

Lemma pystr_eqb_refl (a : pystr) : pystr_eqb a a = true.
Proof. now apply pystr_eqb_eq. Qed.

Lemma pystr_eqb_neq (a b : pystr) : a <> b -> pystr_eqb a b = false.
Proof.
  intros H. destruct (pystr_eqb a b) eqn:E; [|reflexivity].
  apply pystr_eqb_eq in E. contradiction.
Qed.

Lemma lstrip_hd (s : pystr) : hd_nonspace (py_lstrip s).
Proof.
  induction s as [|c t IH]; simpl; [exact I|].
  destruct (py_isspace c) eqn:E; [exact IH | exact E].
Qed.

Lemma lstrip_fix (s : pystr) : hd_nonspace s -> py_lstrip s = s.
Proof. destruct s as [|c t]; simpl; [reflexivity|]. now intros ->. Qed.

Lemma lstrip_suffix (s : pystr) : exists p, s = p ++ py_lstrip s.
Proof.
  induction s as [|c t [p Hp]]; simpl.
  - now exists [].
  - destruct (py_isspace c).
    + exists (c :: p). simpl. now f_equal.
    + now exists [].
Qed.

Lemma hd_nonspace_prefix (u v : pystr) :
  hd_nonspace (u ++ v) -> u <> [] -> hd_nonspace u.
Proof. destruct u; simpl; [congruence | easy]. Qed.

Lemma strip_trimmed (s : pystr) : trimmed (py_strip s).
Proof.
  unfold trimmed, py_strip, py_rstrip. rewrite rev_involutive.
  split; [|apply lstrip_hd].
  destruct (lstrip_suffix (rev (py_lstrip s))) as [p Hp].
  remember (py_lstrip (rev (py_lstrip s))) as w.
  destruct w as [|c w']; [exact I|].
  apply hd_nonspace_prefix with (v := rev p).
  - rewrite <- rev_app_distr, <- Hp, rev_involutive. apply lstrip_hd.
  - intros H. apply (f_equal (@rev _)) in H. rewrite rev_involutive in H.
    discriminate H.
Qed.

Lemma trimmed_strip (s : pystr) : trimmed s -> py_strip s = s.
Proof.
  intros [H1 H2]. unfold py_strip, py_rstrip.
  rewrite (lstrip_fix _ H1), (lstrip_fix _ H2). apply rev_involutive.
Qed.

Lemma adjust_value_map (s : pystr) :
  adjust_value s = map adjust_char (py_strip s).
Proof. unfold adjust_value, py_replace1. now rewrite map_map. Qed.

Lemma adjust_char_nonspace (c : char) :
  py_isspace c = false -> adjust_char c = c.
Proof.
  intros H. unfold adjust_char, c_tab, c_space.
  destruct (N.eqb_spec c 9) as [->|H9]; [discriminate H|].
  destruct (N.eqb_spec c 32) as [->|H32]; [discriminate H|reflexivity].
Qed.

Lemma adjust_char_clean (c : char) :
  adjust_char c <> c_tab /\ adjust_char c <> c_space.
Proof.
  unfold adjust_char, c_tab, c_space, c_underscore.
  destruct (N.eqb_spec c 9) as [->|H9]; simpl; [split; discriminate|].
  destruct (N.eqb_spec c 32) as [->|H32]; [split; discriminate|].
  split; assumption.
Qed.

Lemma adjust_char_idem (c : char) : adjust_char (adjust_char c) = adjust_char c.
Proof.
  destruct (adjust_char_clean c) as [H1 H2].
  unfold adjust_char at 1.
  destruct (N.eqb_spec (adjust_char c) c_tab) as [E|_]; [contradiction|].
  destruct (N.eqb_spec (adjust_char c) c_space) as [E|_]; [contradiction|].
  reflexivity.
Qed.

Lemma hd_nonspace_map (s : pystr) :
  hd_nonspace s -> hd_nonspace (map adjust_char s).
Proof.
  destruct s as [|c t]; simpl; [easy|].
  intros H. now rewrite (adjust_char_nonspace _ H).
Qed.

Lemma trimmed_map (s : pystr) : trimmed s -> trimmed (map adjust_char s).
Proof.
  intros [H1 H2]. split; [now apply hd_nonspace_map|].
  rewrite <- map_rev. now apply hd_nonspace_map.
Qed.

Lemma adjust_value_trimmed (s : pystr) : trimmed (adjust_value s).
Proof. rewrite adjust_value_map. apply trimmed_map, strip_trimmed. Qed.

Lemma adjust_value_idem (s : pystr) :
  adjust_value (adjust_value s) = adjust_value s.
Proof.
  rewrite (adjust_value_map (adjust_value s)).
  rewrite (trimmed_strip _ (adjust_value_trimmed s)).
  rewrite adjust_value_map, map_map.
  apply map_ext. intros c. apply adjust_char_idem.
Qed.

Lemma adjust_value_clean (s : pystr) :
  ~ In c_tab (adjust_value s) /\ ~ In c_space (adjust_value s).
Proof.
  rewrite adjust_value_map.
  split; intros H; apply in_map_iff in H; destruct H as [c [E _]];
    destruct (adjust_char_clean c); contradiction.
Qed.

Lemma adjust_value_nil (s : pystr) : adjust_value s = [] <-> py_strip s = [].
Proof.
  rewrite adjust_value_map. split.
  - apply map_eq_nil.
  - now intros ->.
Qed.

(** The check of distinct keys decides the invariant of a [dict]. *)
Lemma keys_distinct_nodup (ks : list pystr) :
  keys_distinct ks = true -> NoDup ks.
Proof.
  induction ks as [|k t IH]; simpl; [constructor|].
  intros H. apply andb_true_iff in H. destruct H as [H1 H2].
  constructor; [|now apply IH].
  intros Hin. apply negb_true_iff in H1.
  assert (existsb (pystr_eqb k) t = true); [|congruence].
  apply existsb_exists. exists k. split; [exact Hin|apply pystr_eqb_refl].
Qed.

Lemma dict_get_notin (k : pystr) (m : dict) :
  ~ In k (dict_keys m) -> dict_get k m = None.
Proof.
  induction m as [|[k' v] m IH]; simpl; [reflexivity|].
  intros H. rewrite pystr_eqb_neq by (intros ->; apply H; now left).
  apply IH. intros Hin. apply H. now right.
Qed.

Lemma dict_get_in (k : pystr) (v : PyVal) (m : dict) :
  dict_get k m = Some v -> In (k, v) m.
Proof.
  induction m as [|[k' v'] m IH]; simpl; [discriminate|].
  destruct (pystr_eqb k k') eqn:E.
  - apply pystr_eqb_eq in E. intros [= ->]. left. now subst.
  - intros H. right. now apply IH.
Qed.

Lemma dict_get_app (k : pystr) (m1 m2 : dict) :
  ~ In k (dict_keys m1) -> dict_get k (m1 ++ m2) = dict_get k m2.
Proof.
  induction m1 as [|[k' v] m1 IH]; simpl; [reflexivity|].
  intros H. rewrite pystr_eqb_neq by (intros ->; apply H; now left).
  apply IH. intros Hin. apply H. now right.
Qed.

Lemma dict_set_app (k : pystr) (v v0 : PyVal) (m1 m2 : dict) :
  ~ In k (dict_keys m1) ->
  dict_set k v (m1 ++ (k, v0) :: m2) = m1 ++ (k, v) :: m2.
Proof.
  induction m1 as [|[k' v'] m1 IH]; simpl.
  - now rewrite pystr_eqb_refl.
  - intros H. rewrite pystr_eqb_neq by (intros ->; apply H; now left).
    f_equal. apply IH. intros Hin. apply H. now right.
Qed.

Lemma dict_del_app (k : pystr) (v0 : PyVal) (m1 m2 : dict) :
  ~ In k (dict_keys m1) ->
  dict_del k (m1 ++ (k, v0) :: m2) = Some (m1 ++ m2).
Proof.
  induction m1 as [|[k' v'] m1 IH]; simpl.
  - now rewrite pystr_eqb_refl.
  - intros H. rewrite pystr_eqb_neq by (intros ->; apply H; now left).
    rewrite IH; [reflexivity|]. intros Hin. apply H. now right.
Qed.

(** ** The normaliser as a map over the bindings *)

Lemma adjust_entry_keys (kv : pystr * PyVal) :
  dict_keys (adjust_entry kv) = [] \/ dict_keys (adjust_entry kv) = [fst kv].
Proof.
  destruct kv as [k v]. unfold adjust_entry. simpl.
  destruct v; simpl; auto. destruct (adjust_value s); simpl; auto.
Qed.

Lemma adjust_spec_keys_incl (m : dict) (k : pystr) :
  In k (dict_keys (adjust_spec m)) -> In k (dict_keys m).
Proof.
  induction m as [|kv m IH]; simpl; [easy|].
  unfold dict_keys in *. rewrite map_app, in_app_iff.
  intros [H|H]; [|right; now apply IH].
  destruct (adjust_entry_keys kv) as [E|E]; unfold dict_keys in E;
    rewrite E in H; simpl in H; [easy|]. destruct H as [H|[]]. now left.
Qed.

Lemma adjust_spec_wf (m : dict) : dict_wf m -> dict_wf (adjust_spec m).
Proof.
  unfold dict_wf. induction m as [|kv m IH]; simpl; [easy|].
  intros H. inversion H as [|? ? Hnotin Hnd]; subst.
  unfold dict_keys in *. rewrite map_app.
  destruct (adjust_entry_keys kv) as [E|E]; unfold dict_keys in E; rewrite E;
    simpl; [now apply IH|].
  constructor; [|now apply IH].
  intros Hin. apply Hnotin. now apply adjust_spec_keys_incl.
Qed.

Lemma adjust_loop_spec (m2 m1 : dict) :
  dict_wf (m1 ++ m2) ->
  adjust_loop (dict_keys m2) (m1 ++ m2) = Ok (m1 ++ adjust_spec m2).
Proof.
  revert m1. induction m2 as [|[k v] m2 IH]; intros m1 Hwf; simpl.
  - reflexivity.
  - assert (Hk : ~ In k (dict_keys m1)).
    { unfold dict_wf, dict_keys in Hwf. rewrite map_app in Hwf. simpl in Hwf.
      apply NoDup_remove_2 in Hwf. intros Hin. apply Hwf.
      apply in_or_app. now left. }
    assert (Hwf' : forall x, dict_wf ((m1 ++ [(k, x)]) ++ m2)).
    { intros x. unfold dict_wf, dict_keys in *.
      rewrite <- app_assoc. simpl. rewrite map_app in *. exact Hwf. }
    assert (Hdel : dict_wf (m1 ++ m2)).
    { unfold dict_wf, dict_keys in *. rewrite map_app in *. simpl in Hwf.
      now apply NoDup_remove_1 in Hwf. }
    unfold adjust_step, dict_get_or.
    rewrite dict_get_app by exact Hk. simpl. rewrite pystr_eqb_refl.
    unfold adjust_entry. simpl.
    destruct v as [| b | z | s | l | m];
      try (match goal with
           | |- context [(k, ?x) :: m2] =>
               specialize (IH _ (Hwf' x)); rewrite <- !app_assoc in IH;
               simpl in IH; exact IH
           end).
    destruct (adjust_value s) as [|c t] eqn:E.
    + rewrite dict_del_app by exact Hk. simpl. now apply IH.
    + rewrite dict_set_app by exact Hk.
      specialize (IH _ (Hwf' (PStr (c :: t)))).
      rewrite <- !app_assoc in IH. simpl in IH. exact IH.
Qed.

Lemma adjust_arguments_spec (m : dict) :
  dict_wf m -> _adjust_arguments (PDict m) = Ok (PDict (adjust_spec m)).
Proof.
  intros Hwf. unfold _adjust_arguments.
  destruct m as [|kv m]; [reflexivity|].
  cbn [py_truthy negb].
  pose proof (adjust_loop_spec (kv :: m) [] Hwf) as H.
  cbn [app] in H. now rewrite H.
Qed.

Lemma adjust_spec_get (m : dict) (k : pystr) :
  dict_wf m ->
  dict_get k (adjust_spec m) =
  match dict_get k m with
  | Some (PStr s) =>
      match adjust_value s with
      | [] => None
      | v => Some (PStr v)
      end
  | r => r
  end.
Proof.
  unfold dict_wf. induction m as [|[k' v] m IH]; simpl; [reflexivity|].
  intros H. inversion H as [|? ? Hnotin Hnd]; subst.
  destruct (pystr_eqb k k') eqn:E.
  - apply pystr_eqb_eq in E. subst k'.
    unfold adjust_entry. simpl.
    destruct v; simpl; rewrite ?pystr_eqb_refl; try reflexivity.
    destruct (adjust_value s) eqn:Ev; simpl.
    + apply dict_get_notin. intros Hin. apply Hnotin.
      now apply adjust_spec_keys_incl.
    + now rewrite pystr_eqb_refl.
  - rewrite dict_get_app; [now apply IH|].
    destruct (adjust_entry_keys (k', v)) as [Ek|Ek]; rewrite Ek; simpl;
      [easy|].
    intros [->|[]]. rewrite pystr_eqb_refl in E. discriminate.
Qed.

Lemma adjust_spec_in (m : dict) (k : pystr) (s : pystr) :
  In (k, PStr s) (adjust_spec m) ->
  exists s0, s = adjust_value s0 /\ s <> [].
Proof.
  unfold adjust_spec. rewrite in_flat_map.
  intros [[k0 v0] [_ H]]. unfold adjust_entry in H. simpl in H.
  destruct v0; simpl in H; try (destruct H as [H|[]]; discriminate H).
  destruct (adjust_value s0) eqn:E; simpl in H; [easy|].
  destruct H as [[= <- <-]|[]]. exists s0. split; [now symmetry|discriminate].
Qed.

Lemma adjust_entry_idem (kv : pystr * PyVal) :
  adjust_spec (adjust_entry kv) = adjust_entry kv.
Proof.
  destruct kv as [k v]. unfold adjust_entry at 2. simpl.
  destruct v as [| b | z | s | l | m];
    try reflexivity.
  unfold adjust_spec, adjust_entry. cbn [snd fst].
  destruct (adjust_value s) as [|c t] eqn:E; [reflexivity|].
  cbn [flat_map snd fst]. rewrite <- E, adjust_value_idem, E. reflexivity.
Qed.

Lemma adjust_spec_idem (m : dict) : adjust_spec (adjust_spec m) = adjust_spec m.
Proof.
  induction m as [|kv m IH]; simpl; [reflexivity|].
  unfold adjust_spec in *. rewrite flat_map_app, IH. f_equal.
  apply adjust_entry_idem.
Qed.

(** ** The argument normaliser *)

(** C7: on a mapping the normaliser returns (it raises nothing), and in
    the mapping it returns no string value holds a tab or starts or ends
    with a space; a key whose string is empty once stripped is gone; a key
    whose string is not keeps its normalised string; and a binding whose
    value is no string is as it was. *)
Theorem adjust_arguments_normalises (m : dict) :
  dict_wf m ->
  exists m',
    _adjust_arguments (PDict m) = Ok (PDict m') /\
    (forall k s, In (k, PStr s) m' ->
       ~ In c_tab s /\
       (forall t, s <> c_space :: t) /\ (forall t, s <> t ++ [c_space])) /\
    (forall k s, dict_get k m = Some (PStr s) -> py_strip s = [] ->
       ~ In k (dict_keys m')) /\
    (forall k s, dict_get k m = Some (PStr s) -> py_strip s <> [] ->
       dict_get k m' = Some (PStr (adjust_value s))) /\
    (forall k v, dict_get k m = Some v -> is_str v = false ->
       dict_get k m' = Some v).
Proof.
  intros Hwf. exists (adjust_spec m).
  split; [now apply adjust_arguments_spec|].
  split; [|split; [|split]].
  - intros k s Hin. apply adjust_spec_in in Hin. destruct Hin as [s0 [-> _]].
    destruct (adjust_value_clean s0) as [Htab Hsp].
    split; [exact Htab|]. split; intros t E; apply Hsp; rewrite E.
    + now left.
    + apply in_or_app. right. now left.
  - intros k s Hget Hnil Hin.
    pose proof (adjust_spec_get m k Hwf) as H. rewrite Hget in H.
    apply adjust_value_nil in Hnil. rewrite Hnil in H.
    apply in_map_iff in Hin. destruct Hin as [[k' v] [E Hin]].
    simpl in E. subst k'.
    assert (Hd : dict_get k (adjust_spec m) <> None).
    { clear H. induction (adjust_spec m) as [|[k1 v1] l IH]; [easy|].
      simpl. destruct (pystr_eqb k k1) eqn:Ek; [discriminate|].
      destruct Hin as [[= -> ->]|Hin]; [|now apply IH].
      now rewrite pystr_eqb_refl in Ek. }
    contradiction.
  - intros k s Hget Hne.
    rewrite (adjust_spec_get m k Hwf), Hget.
    destruct (adjust_value s) eqn:E; [|reflexivity].
    apply adjust_value_nil in E. contradiction.
  - intros k v Hget Hstr.
    rewrite (adjust_spec_get m k Hwf), Hget.
    destruct v; try reflexivity. discriminate Hstr.
Qed.

(** C8: normalising the mapping the normaliser returned gives that
    mapping again. *)
Theorem adjust_arguments_idempotent (m : dict) :
  dict_wf m ->
  exists r,
    _adjust_arguments (PDict m) = Ok r /\ _adjust_arguments r = Ok r.
Proof.
  intros Hwf. exists (PDict (adjust_spec m)). split.
  - now apply adjust_arguments_spec.
  - rewrite adjust_arguments_spec by now apply adjust_spec_wf.
    now rewrite adjust_spec_idem.
Qed.

Ltac wf_by_computation :=
  unfold dict_wf; apply keys_distinct_nodup; reflexivity.

Lemma adjust_arguments_normalises_witness :
  dict_wf Demo.untidy /\
  exists m',
    _adjust_arguments (PDict Demo.untidy) = Ok (PDict m') /\
    (forall k s, In (k, PStr s) m' ->
       ~ In c_tab s /\
       (forall t, s <> c_space :: t) /\ (forall t, s <> t ++ [c_space])) /\
    (forall k s, dict_get k Demo.untidy = Some (PStr s) -> py_strip s = [] ->
       ~ In k (dict_keys m')) /\
    (forall k s, dict_get k Demo.untidy = Some (PStr s) -> py_strip s <> [] ->
       dict_get k m' = Some (PStr (adjust_value s))) /\
    (forall k v, dict_get k Demo.untidy = Some v -> is_str v = false ->
       dict_get k m' = Some v).
Proof.
  assert (H : dict_wf Demo.untidy) by wf_by_computation.
  split; [exact H | exact (adjust_arguments_normalises Demo.untidy H)].
Defined.

Lemma adjust_arguments_idempotent_witness :
  dict_wf Demo.untidy /\
  exists r,
    _adjust_arguments (PDict Demo.untidy) = Ok r /\ _adjust_arguments r = Ok r.
Proof.
  assert (H : dict_wf Demo.untidy) by wf_by_computation.
  split; [exact H | exact (adjust_arguments_idempotent Demo.untidy H)].
Defined.

(** The normaliser at work on [Demo.untidy]. *)
Example adjust_arguments_untidy :
  _adjust_arguments (PDict Demo.untidy)
  = Ok (PDict [(lit "name", PStr (lit "Acme_Ltd")); (lit "id", PInt 7)]).
Proof. reflexivity. Qed.

(** ** The CSV encoder *)


Lemma forallb_keys_self (m : dict) (l : list pystr) :
  incl l (dict_keys m) ->
  forallb (fun k => existsb (pystr_eqb k) (dict_keys m)) l = true.
Proof.
  intros H. apply forallb_forall. intros k Hin.
  apply existsb_exists. exists k. split; [now apply H|apply pystr_eqb_refl].
Qed.



(** ** Sorting *)

Lemma pystr_compare_antisym (a b : pystr) :
  pystr_compare b a = CompOpp (pystr_compare a b).
Proof.
  revert b. induction a as [|x a IH]; intros [|y b]; simpl; try reflexivity.
  rewrite (N.compare_antisym x y).
  destruct (x ?= y); simpl; [apply IH | reflexivity | reflexivity].
Qed.

Lemma pystr_leb_total (a b : pystr) :
  pystr_leb a b = false -> pystr_leb b a = true.
Proof.
  unfold pystr_leb. rewrite (pystr_compare_antisym a b).
  destruct (pystr_compare a b); simpl; congruence.
Qed.

Lemma pystr_compare_eq (a b : pystr) : pystr_compare a b = Eq -> a = b.
Proof.
  revert b. induction a as [|x a IH]; intros [|y b]; simpl; try easy.
  destruct (N.compare_spec x y) as [Hxy|Hxy|Hxy]; try easy.
  intros H. subst. f_equal. auto.
Qed.

Lemma pystr_compare_lt_trans (a b c : pystr) :
  pystr_compare a b = Lt -> pystr_compare b c = Lt -> pystr_compare a c = Lt.
Proof.
  revert b c. induction a as [|x a IH]; intros [|y b] [|z c]; simpl; try easy.
  destruct (N.compare_spec x y) as [Hxy|Hxy|Hxy];
    destruct (N.compare_spec y z) as [Hyz|Hyz|Hyz]; try easy; subst.
  - rewrite N.compare_refl. apply IH.
  - intros _ _. now apply N.compare_lt_iff in Hyz as ->.
  - intros _ _. now apply N.compare_lt_iff in Hxy as ->.
  - intros _ _. assert (Hxz : (x < z)%N) by lia.
    now apply N.compare_lt_iff in Hxz as ->.
Qed.

Lemma pystr_compare_refl (a : pystr) : pystr_compare a a = Eq.
Proof.
  induction a as [|x a IH]; simpl; [reflexivity|].
  now rewrite N.compare_refl.
Qed.

Lemma pystr_le_trans (a b c : pystr) :
  pystr_le a b -> pystr_le b c -> pystr_le a c.
Proof.
  unfold pystr_le, pystr_leb.
  destruct (pystr_compare a b) eqn:Eab; try easy;
    destruct (pystr_compare b c) eqn:Ebc; try easy; intros _ _.
  - apply pystr_compare_eq in Eab, Ebc. subst.
    now rewrite pystr_compare_refl.
  - apply pystr_compare_eq in Eab. subst. now rewrite Ebc.
  - apply pystr_compare_eq in Ebc. subst. now rewrite Eab.
  - now rewrite (pystr_compare_lt_trans a b c Eab Ebc).
Qed.

Lemma sort_insert_perm (x : pystr) (l : list pystr) :
  Permutation (x :: l) (sort_insert x l).
Proof.
  induction l as [|y l IH]; simpl; [reflexivity|].
  destruct (pystr_leb x y); [reflexivity|].
  rewrite perm_swap. now constructor.
Qed.

Lemma list_sort_perm (l : list pystr) : Permutation l (list_sort l).
Proof.
  induction l as [|x l IH]; simpl; [constructor|].
  rewrite <- sort_insert_perm. now constructor.
Qed.

Lemma sort_insert_sorted (x : pystr) (l : list pystr) :
  StronglySorted pystr_le l -> StronglySorted pystr_le (sort_insert x l).
Proof.
  induction 1 as [|y l Hs IH Hall]; simpl.
  - repeat constructor.
  - destruct (pystr_leb x y) eqn:E.
    + constructor; [now constructor|].
      constructor; [exact E|].
      eapply Forall_impl; [|exact Hall].
      intros z Hz. now apply pystr_le_trans with y.
    + constructor; [exact IH|].
      apply (Permutation_Forall (sort_insert_perm x l)).
      constructor; [now apply pystr_leb_total | exact Hall].
Qed.

Lemma list_sort_sorted (l : list pystr) : StronglySorted pystr_le (list_sort l).
Proof.
  induction l as [|x l IH]; simpl; [constructor|].
  now apply sort_insert_sorted.
Qed.

(** ** /clients and /rundeck/clients *)

Ltac run_handler :=
  unfold get_client_list, get_client_deliveries, get_client_deliveries_v2,
    sync_customer_tf, deliveries_reply, call_kwargs, getattr_client_tf,
    json_get, bind, try_except, invoke, lift, ret, raise.

(** C4: when the collaborator returns the empty list, /clients answers
    404 with [{"result": "Client not found"}] and /rundeck/clients answers
    200 with the empty JSON array. *)
Theorem empty_client_list
    (St : Type) (builtin_str : builtin_error -> pystr)
    (cg : ClientGetter St) (r : Request) (w : world St) (s' : St) :
  get_clients cg (backend w) = (Ok [], s') ->
  (rq_rule r = lit "/clients" ->
   fst (get_client_list builtin_str cg r w)
   = Ok (json_response 404 (result_text (lit "Client not found"))))
  /\
  (rq_rule r = lit "/rundeck/clients" ->
   fst (get_client_list builtin_str cg r w) = Ok (json_response 200 (lit "[]"))).
Proof.
  intros Hcall. split; intros Hrule; run_handler; rewrite Hcall, Hrule;
    reflexivity.
Qed.

Lemma empty_client_list_witness :
  fst (get_client_list Demo.builtin_text Demo.no_clients
         (Demo.get_at (lit "/clients")) (Demo.fresh tt))
  = Ok (json_response 404 (result_text (lit "Client not found")))
  /\
  fst (get_client_list Demo.builtin_text Demo.no_clients
         (Demo.get_at (lit "/rundeck/clients")) (Demo.fresh tt))
  = Ok (json_response 200 (lit "[]")).
Proof.
  split.
  - exact (proj1 (empty_client_list unit Demo.builtin_text Demo.no_clients
                    (Demo.get_at (lit "/clients")) (Demo.fresh tt) tt eq_refl)
             eq_refl).
  - exact (proj2 (empty_client_list unit Demo.builtin_text Demo.no_clients
                    (Demo.get_at (lit "/rundeck/clients")) (Demo.fresh tt) tt
                    eq_refl)
             eq_refl).
Defined.

(** C10: when the collaborator returns a list that is not empty,
    /rundeck/clients answers 200 with its ascending rearrangement and
    /clients answers 200 with the list as it came. *)
Theorem client_list_order
    (St : Type) (builtin_str : builtin_error -> pystr)
    (cg : ClientGetter St) (r : Request) (w : world St)
    (l : list pystr) (s' : St) :
  get_clients cg (backend w) = (Ok l, s') ->
  l <> [] ->
  (rq_rule r = lit "/rundeck/clients" ->
   exists sorted,
     fst (get_client_list builtin_str cg r w)
     = Ok (response_json 200 (PList (map PStr sorted)))
     /\ Permutation l sorted
     /\ StronglySorted pystr_le sorted)
  /\
  (rq_rule r = lit "/clients" ->
   fst (get_client_list builtin_str cg r w)
   = Ok (response_json 200 (PList (map PStr l)))).
Proof.
  intros Hcall Hne. destruct l as [|x l]; [contradiction|].
  split; intros Hrule.
  - exists (list_sort (x :: l)).
    split; [|split; [apply list_sort_perm | apply list_sort_sorted]].
    run_handler. rewrite Hcall, Hrule. reflexivity.
  - run_handler. rewrite Hcall, Hrule. reflexivity.
Qed.

Lemma client_list_order_witness :
  (exists sorted,
     fst (get_client_list Demo.builtin_text Demo.some_clients
            (Demo.get_at (lit "/rundeck/clients")) (Demo.fresh tt))
     = Ok (response_json 200 (PList (map PStr sorted)))
     /\ Permutation Demo.three_clients sorted
     /\ StronglySorted pystr_le sorted)
  /\
  fst (get_client_list Demo.builtin_text Demo.some_clients
         (Demo.get_at (lit "/clients")) (Demo.fresh tt))
  = Ok (response_json 200 (PList (map PStr Demo.three_clients))).
Proof.
  assert (Hne : Demo.three_clients <> []) by discriminate.
  split.
  - exact (proj1 (client_list_order unit Demo.builtin_text Demo.some_clients
                    (Demo.get_at (lit "/rundeck/clients")) (Demo.fresh tt)
                    Demo.three_clients tt eq_refl Hne)
             eq_refl).
  - exact (proj2 (client_list_order unit Demo.builtin_text Demo.some_clients
                    (Demo.get_at (lit "/clients")) (Demo.fresh tt)
                    Demo.three_clients tt eq_refl Hne)
             eq_refl).
Defined.

(** The two answers for the list [zeta, Beta, alpha]: capitals sort
    before small letters. *)
Example client_list_order_run :
  response_of (fst (get_client_list Demo.builtin_text Demo.some_clients
                      (Demo.get_at (lit "/rundeck/clients")) (Demo.fresh tt)))
  = lit "[" ++ quoted (lit "Beta") ++ lit ", " ++ quoted (lit "alpha")
    ++ lit ", " ++ quoted (lit "zeta") ++ lit "]"
  /\
  response_of (fst (get_client_list Demo.builtin_text Demo.some_clients
                      (Demo.get_at (lit "/clients")) (Demo.fresh tt)))
  = lit "[" ++ quoted (lit "zeta") ++ lit ", " ++ quoted (lit "Beta")
    ++ lit ", " ++ quoted (lit "alpha") ++ lit "]".
Proof. split; reflexivity. Qed.

(** ** /deliveries and /v2/deliveries *)

(** C9: a body without [client], or with a client that is false (null,
    empty), is answered 400 with [{"result": "Client code must be
    specified"}] whatever else it holds, and the world is as it was: no
    collaborator has been called. *)
Theorem deliveries_client_required
    (St : Type) (py_repr : PyVal -> pystr) (cg : ClientGetter St)
    (r : Request) (w : world St) (m : dict) :
  rq_json r = PDict m ->
  py_truthy (dict_get_or (lit "client") PNone m) = false ->
  get_client_deliveries py_repr cg r w
  = (Ok (json_response 400 (result_text (lit "Client code must be specified"))),
     w).
Proof.
  intros Hjson Hclient. run_handler. rewrite Hjson, Hclient. reflexivity.
Qed.

Lemma deliveries_client_required_witness :
  get_client_deliveries Demo.repr Demo.some_clients
    (Demo.post_at (lit "/deliveries")
       (PDict [(lit "timezone", PStr (lit "Europe/Riga"));
               (lit "csv", PBool false)]))
    (Demo.fresh tt)
  = (Ok (json_response 400 (result_text (lit "Client code must be specified"))),
     Demo.fresh tt).
Proof.
  exact (deliveries_client_required unit Demo.repr Demo.some_clients
           (Demo.post_at (lit "/deliveries")
              (PDict [(lit "timezone", PStr (lit "Europe/Riga"));
                      (lit "csv", PBool false)]))
           (Demo.fresh tt) _ eq_refl eq_refl).
Defined.

Lemma deliveries_reply_error
    (St : Type) (py_repr : PyVal -> pystr) (client : PyVal)
    (l : list PyVal) (e : pystr) (success : PyVal -> M St Response)
    (w : world St) :
  e <> [] ->
  deliveries_reply py_repr client (l, Some e) success w
  = (Ok (response_json 500 (result_body e)), w).
Proof.
  intros He. unfold deliveries_reply, ret.
  destruct e as [|c e]; [contradiction|].
  cbn [py_truthy negb]. rewrite andb_false_r. reflexivity.
Qed.

Lemma deliveries_reply_void
    (St : Type) (py_repr : PyVal -> pystr) (client : PyVal)
    (l : list PyVal) (err : option pystr) (success : PyVal -> M St Response)
    (w : world St) :
  error_void err ->
  deliveries_reply py_repr client (l, err) success w
  = match l with
    | [] => (Ok (response_json 404 (result_body (no_deliveries py_repr client))),
             w)
    | _ :: _ => success (PList l) w
    end.
Proof.
  intros [-> | ->]; unfold deliveries_reply, ret; destruct l; reflexivity.
Qed.

Lemma error_void_dec (err : option pystr) :
  error_void err \/ exists e, err = Some e /\ e <> [].
Proof.
  destruct err as [[|c e]|].
  - left. now right.
  - right. exists (c :: e). split; [reflexivity|discriminate].
  - left. now left.
Qed.

Lemma response_csv_status
    (py_repr : PyVal -> pystr) (code : Z) (data : PyVal) (resp : Response) :
  response_csv py_repr code data = Ok resp -> status resp = code.
Proof.
  unfold response_csv.
  destruct (if py_truthy data then data else PList []) as [| | | |[|first l]|];
    cbn [py_truthy];
    repeat match goal with
           | |- context [match ?x with _ => _ end] => destruct x
           end;
    try discriminate; now intros [= <-].
Qed.

(** The reply to an answered /deliveries or /v2/deliveries, for a success
    that answers 201 when it answers. *)
Lemma deliveries_reply_status
    (St : Type) (py_repr : PyVal -> pystr) (client : PyVal)
    (l : list PyVal) (err : option pystr) (success : PyVal -> M St Response)
    (w : world St) :
  (forall v w' resp, fst (success v w') = Ok resp -> status resp = 201%Z) ->
  (forall e, err = Some e -> e <> [] ->
     fst (deliveries_reply py_repr client (l, err) success w)
     = Ok (response_json 500 (result_body e)))
  /\
  (forall resp,
     fst (deliveries_reply py_repr client (l, err) success w) = Ok resp ->
     status resp = 404%Z -> l = [] /\ error_void err)
  /\
  (l = [] -> error_void err ->
   fst (deliveries_reply py_repr client (l, err) success w)
   = Ok (response_json 404 (result_body (no_deliveries py_repr client)))).
Proof.
  intros Hsucc. split; [|split].
  - intros e -> He. now rewrite deliveries_reply_error.
  - intros resp Hrun Hstatus.
    destruct (error_void_dec err) as [Hvoid | [e [-> He]]].
    + rewrite deliveries_reply_void in Hrun by exact Hvoid.
      destruct l as [|x l]; [now split|].
      apply Hsucc in Hrun. rewrite Hrun in Hstatus. discriminate.
    + rewrite deliveries_reply_error in Hrun by exact He.
      simpl in Hrun. injection Hrun as <-. discriminate Hstatus.
  - intros -> Hvoid. now rewrite deliveries_reply_void.
Qed.

(** C3, as stated, fails for the error that is the empty string: it is
    not null, yet with no deliveries the answer is 404, and with
    deliveries it is 201, not 500. *)
Lemma deliveries_empty_error_string :
  fst (get_client_deliveries Demo.repr
         (Demo.getter (Ok []) (Ok ([], Some [])))
         (Demo.post_at (lit "/deliveries")
            (PDict [(lit "client", PStr (lit "ABC"))]))
         (Demo.fresh tt))
  = Ok (json_response 404
          (result_text (lit "No deliveries found for client ABC")))
  /\
  fst (get_client_deliveries_v2 Demo.repr
         (Demo.getter (Ok []) (Ok ([Demo.parcel], Some [])))
         (Demo.post_at (lit "/v2/deliveries")
            (PDict [(lit "client", PStr (lit "ABC"))]))
         (Demo.fresh tt))
  = Ok (response_json 201 (PList [Demo.parcel])).
Proof. split; reflexivity. Qed.

(** C3, amended: for a body with a client, when the collaborator returns
    [(delivery_list, error)], an error that is a string and not empty is
    answered 500 with [{"result": error}] whatever the list; 404 is
    answered only when the list is empty and the error is null or the
    empty string, and then it is. *)
Theorem deliveries_error_reply
    (St : Type) (py_repr : PyVal -> pystr) (cg : ClientGetter St)
    (r : Request) (w : world St) (m : dict)
    (l : list PyVal) (err : option pystr) (s' : St) :
  let client := dict_get_or (lit "client") PNone m in
  let search_params :=
    py_or (dict_get_or (lit "search_params") PNone m) (PDict []) in
  let timezone :=
    py_or (dict_get_or (lit "timezone") PNone m) (PStr (lit "Etc/UTC")) in
  rq_json r = PDict m ->
  py_truthy client = true ->
  (get_deliveries cg client search_params timezone (backend w)
   = (Ok (l, err), s') ->
   (forall e, err = Some e -> e <> [] ->
      fst (get_client_deliveries py_repr cg r w)
      = Ok (response_json 500 (result_body e)))
   /\ (forall resp,
         fst (get_client_deliveries py_repr cg r w) = Ok resp ->
         status resp = 404%Z -> l = [] /\ error_void err)
   /\ (l = [] -> error_void err ->
       fst (get_client_deliveries py_repr cg r w)
       = Ok (response_json 404 (result_body (no_deliveries py_repr client)))))
  /\
  (get_deliveries_v2 cg client search_params timezone (backend w)
   = (Ok (l, err), s') ->
   (forall e, err = Some e -> e <> [] ->
      fst (get_client_deliveries_v2 py_repr cg r w)
      = Ok (response_json 500 (result_body e)))
   /\ (forall resp,
         fst (get_client_deliveries_v2 py_repr cg r w) = Ok resp ->
         status resp = 404%Z -> l = [] /\ error_void err)
   /\ (l = [] -> error_void err ->
       fst (get_client_deliveries_v2 py_repr cg r w)
       = Ok (response_json 404 (result_body (no_deliveries py_repr client))))).
Proof.
  intros client search_params timezone Hjson Hclient.
  split; intros Hcall.
  - unfold get_client_deliveries, json_get, bind, invoke, ret.
    rewrite Hjson. fold client search_params timezone.
    rewrite Hclient. cbn [negb]. rewrite Hcall.
    apply deliveries_reply_status.
    intros v w' resp. unfold lift, ret.
    match goal with
    | |- context [if ?b then _ else _] => destruct b
    end; simpl.
    + apply response_csv_status.
    + now intros [= <-].
  - unfold get_client_deliveries_v2, json_get, bind, invoke, ret.
    rewrite Hjson. fold client search_params timezone.
    rewrite Hclient. cbn [negb]. rewrite Hcall.
    apply deliveries_reply_status.
    intros v w' resp. simpl. now intros [= <-].
Qed.

Lemma deliveries_error_reply_witness :
  fst (get_client_deliveries Demo.repr
         (Demo.getter (Ok []) (Ok ([Demo.parcel], Some (lit "database is down"))))
         (Demo.post_at (lit "/deliveries")
            (PDict [(lit "client", PStr (lit "ABC"))]))
         (Demo.fresh tt))
  = Ok (response_json 500 (result_body (lit "database is down")))
  /\
  fst (get_client_deliveries_v2 Demo.repr
         (Demo.getter (Ok []) (Ok ([Demo.parcel], Some (lit "database is down"))))
         (Demo.post_at (lit "/v2/deliveries")
            (PDict [(lit "client", PStr (lit "ABC"))]))
         (Demo.fresh tt))
  = Ok (response_json 500 (result_body (lit "database is down"))).
Proof.
  assert (He : lit "database is down" <> []) by discriminate.
  split.
  - exact (proj1 (proj1 (deliveries_error_reply unit Demo.repr
                           (Demo.getter (Ok [])
                              (Ok ([Demo.parcel], Some (lit "database is down"))))
                           (Demo.post_at (lit "/deliveries")
                              (PDict [(lit "client", PStr (lit "ABC"))]))
                           (Demo.fresh tt) _ _ _ tt eq_refl eq_refl)
                    eq_refl)
             _ eq_refl He).
  - exact (proj1 (proj2 (deliveries_error_reply unit Demo.repr
                           (Demo.getter (Ok [])
                              (Ok ([Demo.parcel], Some (lit "database is down"))))
                           (Demo.post_at (lit "/v2/deliveries")
                              (PDict [(lit "client", PStr (lit "ABC"))]))
                           (Demo.fresh tt) _ _ _ tt eq_refl eq_refl)
                    eq_refl)
             _ eq_refl He).
Defined.

(** ** /sync_customer_tf *)

Lemma dict_del_some (k : pystr) (v : PyVal) (m : dict) :
  dict_get k m = Some v -> exists m', dict_del k m = Some m'.
Proof.
  induction m as [|[k' v'] m IH]; simpl; [discriminate|].
  destruct (pystr_eqb k k'); [now eexists|].
  intros H. destruct (IH H) as [m' ->]. now eexists.
Qed.

(** The loop of the normaliser raises nothing, on any bindings. *)
Lemma adjust_loop_total (keys : list pystr) (m : dict) :
  exists m', adjust_loop keys m = Ok m'.
Proof.
  revert m. induction keys as [|k keys IH]; intros m; simpl; [now eexists|].
  assert (H : exists m1, adjust_step k m = Ok m1).
  { unfold adjust_step, dict_get_or.
    destruct (dict_get k m) as [v|] eqn:E; [|now eexists].
    destruct v as [| b | z | s | l | d]; try now eexists.
    destruct (adjust_value s); [|now eexists].
    destruct (dict_del_some k _ m E) as [m' ->]. now eexists. }
  destruct H as [m1 ->]. apply IH.
Qed.

Lemma adjust_arguments_total (m : dict) :
  exists m', _adjust_arguments (PDict m) = Ok (PDict m').
Proof.
  unfold _adjust_arguments. destruct m as [|kv m]; [now eexists|].
  cbn [py_truthy negb].
  destruct (adjust_loop_total (dict_keys (kv :: m)) (kv :: m)) as [m' ->].
  now eexists.
Qed.

(** C2: under PUT or DELETE, when the method picked by the lower-cased
    method name raises on the normalised body, the answer is 400 with
    [{"result": repr(e)}], and the only collaborator call made is that
    one: [get_client] is not called. *)
Theorem sync_mutation_failure
    (St : Type) (builtin_repr : builtin_error -> pystr) (tf : ClientTF St)
    (r : Request) (w : world St)
    (name : pystr) (f : dict -> St -> outcome PyVal * St)
    (kw : dict) (e : exn) (s' : St) :
  (rq_method r = lit "PUT" /\ name = lit "put_client" /\ f = put_client tf)
  \/ (rq_method r = lit "DELETE" /\ name = lit "delete_client"
      /\ f = delete_client tf) ->
  _adjust_arguments (rq_json r) = Ok (PDict kw) ->
  f kw (backend w) = (Raise e, s') ->
  sync_customer_tf builtin_repr tf r w
  = (Ok (response_json 400 (result_body (exn_repr builtin_repr e))),
     {| backend := s'; calls := calls w ++ [Call_client_tf name kw] |})
  /\ name <> lit "get_client".
Proof.
  intros Hmethod Hjson Hraise.
  destruct (adjust_arguments_total
              (map (fun kv => (fst kv, PStr (snd kv))) (rq_args r)))
    as [qa Hqa].
  split.
  - unfold sync_customer_tf, args_to_dict, bind, lift.
    rewrite Hqa, Hjson.
    destruct Hmethod as [[-> [-> ->]] | [-> [-> ->]]];
      cbv beta iota;
      unfold try_except, bind, getattr_client_tf, call_kwargs, invoke, ret;
      simpl; rewrite Hraise; reflexivity.
  - destruct Hmethod as [[_ [-> _]] | [_ [-> _]]]; discriminate.
Qed.

Lemma sync_mutation_failure_witness :
  sync_customer_tf Demo.builtin_text Demo.tf Demo.put_without_code
    (Demo.fresh [])
  = (Ok (response_json 400 (result_body (lit "ValueError('code is required')"))),
     {| backend := [];
        calls := [Call_client_tf (lit "put_client")
                    [(lit "name", PStr (lit "Acme__Ltd"))]] |}).
Proof.
  exact (proj1 (sync_mutation_failure dict Demo.builtin_text Demo.tf
                  Demo.put_without_code (Demo.fresh [])
                  (lit "put_client") (put_client Demo.tf)
                  [(lit "name", PStr (lit "Acme__Ltd"))]
                  Demo.missing_code []
                  (or_introl (conj eq_refl (conj eq_refl eq_refl)))
                  eq_refl eq_refl)).
Defined.

(** C1, as stated, fails when the mutation raises: the PUT below is
    answered 400 and the only call made is [put_client]. *)
Lemma sync_put_failure_skips_lookup :
  fst (sync_customer_tf Demo.builtin_text Demo.tf Demo.put_without_code
         (Demo.fresh []))
  = Ok (json_response 400
          (result_text (lit "ValueError('code is required')")))
  /\
  calls (snd (sync_customer_tf Demo.builtin_text Demo.tf
                Demo.put_without_code (Demo.fresh [])))
  = [Call_client_tf (lit "put_client") [(lit "name", PStr (lit "Acme__Ltd"))]].
Proof. split; reflexivity. Qed.

(** C1, amended: with [qa] the normalised query arguments, a request that
    is neither PUT nor DELETE (GET is) calls [get_client] with [qa] and
    answers 200 with what it returned; a PUT, or a DELETE, whose body
    normalises to the mapping [kw] first calls [put_client], or
    [delete_client], with [kw], and when that call returns, calls
    [get_client] with [qa] on the backend the mutation left and answers
    201, or 200, with what it returned. *)
Theorem sync_reads_back
    (St : Type) (builtin_repr : builtin_error -> pystr) (tf : ClientTF St)
    (r : Request) (w : world St) (qa : dict) :
  _adjust_arguments (args_to_dict r) = Ok (PDict qa) ->
  (rq_method r <> lit "PUT" -> rq_method r <> lit "DELETE" ->
   forall v s',
     get_client tf qa (backend w) = (Ok v, s') ->
     sync_customer_tf builtin_repr tf r w
     = (Ok (response_json 200 v),
        {| backend := s';
           calls := calls w ++ [Call_client_tf (lit "get_client") qa] |}))
  /\
  (rq_method r = lit "PUT" ->
   forall kw x s1 v s2,
     _adjust_arguments (rq_json r) = Ok (PDict kw) ->
     put_client tf kw (backend w) = (Ok x, s1) ->
     get_client tf qa s1 = (Ok v, s2) ->
     sync_customer_tf builtin_repr tf r w
     = (Ok (response_json 201 v),
        {| backend := s2;
           calls := calls w ++ [Call_client_tf (lit "put_client") kw;
                                Call_client_tf (lit "get_client") qa] |}))
  /\
  (rq_method r = lit "DELETE" ->
   forall kw x s1 v s2,
     _adjust_arguments (rq_json r) = Ok (PDict kw) ->
     delete_client tf kw (backend w) = (Ok x, s1) ->
     get_client tf qa s1 = (Ok v, s2) ->
     sync_customer_tf builtin_repr tf r w
     = (Ok (response_json 200 v),
        {| backend := s2;
           calls := calls w ++ [Call_client_tf (lit "delete_client") kw;
                                Call_client_tf (lit "get_client") qa] |})).
Proof.
  intros Hqa. split; [|split].
  - intros Hput Hdel v s' Hget.
    unfold sync_customer_tf, bind, lift. rewrite Hqa.
    cbn [existsb]. rewrite !(pystr_eqb_neq _ _ Hput), (pystr_eqb_neq _ _ Hdel).
    unfold call_kwargs, invoke, ret. simpl. rewrite Hget. reflexivity.
  - intros Hm kw x s1 v s2 Hjson Hmut Hget.
    unfold sync_customer_tf, bind, lift. rewrite Hqa, Hjson, Hm.
    cbv beta iota.
    unfold try_except, bind, getattr_client_tf, call_kwargs, invoke, ret.
    simpl. rewrite Hmut. simpl. rewrite Hget. rewrite <- app_assoc.
    reflexivity.
  - intros Hm kw x s1 v s2 Hjson Hmut Hget.
    unfold sync_customer_tf, bind, lift. rewrite Hqa, Hjson, Hm.
    cbv beta iota.
    unfold try_except, bind, getattr_client_tf, call_kwargs, invoke, ret.
    simpl. rewrite Hmut. simpl. rewrite Hget. rewrite <- app_assoc.
    reflexivity.
Qed.

Lemma sync_reads_back_witness :
  sync_customer_tf Demo.builtin_text Demo.tf Demo.put_with_code (Demo.fresh [])
  = (Ok (response_json 201
           (PDict [(lit "code", PStr (lit "ABC"));
                   (lit "name", PStr (lit "Acme__Ltd"))])),
     {| backend :=
          [(lit "ABC", PDict [(lit "code", PStr (lit "ABC"));
                              (lit "name", PStr (lit "Acme__Ltd"))])];
        calls :=
          [Call_client_tf (lit "put_client")
             [(lit "code", PStr (lit "ABC"));
              (lit "name", PStr (lit "Acme__Ltd"))];
           Call_client_tf (lit "get_client")
             [(lit "code", PStr (lit "ABC"))]] |}).
Proof.
  exact (proj1 (proj2 (sync_reads_back dict Demo.builtin_text Demo.tf
                         Demo.put_with_code (Demo.fresh [])
                         [(lit "code", PStr (lit "ABC"))] eq_refl))
           eq_refl _ PNone _ _ _ eq_refl eq_refl eq_refl).
Defined.

(** ** The JSON encoder and decoder *)

Lemma lor_shiftl_add (a b k : N) :
  b < 2 ^ k -> N.lor (N.shiftl a k) b = a * 2 ^ k + b.
Proof.
  intros Hb.
  assert (Hland : N.land (N.shiftl a k) b = 0).
  { apply N.bits_inj. intros i. rewrite N.land_spec, N.bits_0.
    destruct (N.lt_ge_cases i k) as [Hlt|Hge].
    - now rewrite N.shiftl_spec_low.
    - rewrite <- (N.mod_small b (2 ^ k)) by exact Hb.
      rewrite N.mod_pow2_bits_high by exact Hge. apply andb_false_r. }
  rewrite <- N.lxor_lor, <- N.add_nocarry_lxor by exact Hland.
  now rewrite N.shiftl_mul_pow2.
Qed.

Ltac euclid := zify; Z.to_euclidean_division_equations; lia.

Lemma hex_value_digit (x : N) : x < 16 -> hex_value (hex_digit x) = Some x.
Proof.
  intros H. unfold hex_value, hex_digit.
  destruct (N.ltb_spec x 10).
  - replace ((48 <=? 48 + x) && (48 + x <=? 57)) with true.
    + f_equal. lia.
    + symmetry. apply andb_true_iff. split; apply N.leb_le; lia.
  - replace ((48 <=? 87 + x) && (87 + x <=? 57)) with false.
    + replace ((97 <=? 87 + x) && (87 + x <=? 102)) with true.
      * f_equal. lia.
      * symmetry. apply andb_true_iff. split; apply N.leb_le; lia.
    + symmetry. apply andb_false_iff. right. apply N.leb_gt. lia.
Qed.

Lemma u_escape_hex4 (n : N) : u_escape n = 92 :: 117 :: hex4 n.
Proof. reflexivity. Qed.

Lemma read_hex4_hex4 (n : N) (rest : pystr) :
  n < 65536 -> read_hex4 (hex4 n ++ rest) = Some (n, rest).
Proof.
  intros Hn. unfold hex4, read_hex4. cbn [app].
  rewrite !hex_value_digit by (apply N.mod_lt; discriminate).
  f_equal. f_equal.
  rewrite !N.shiftr_div_pow2.
  change (2 ^ 12) with 4096. change (2 ^ 8) with 256. change (2 ^ 4) with 16.
  rewrite (lor_shiftl_add (n / 4096 mod 16) (n / 256 mod 16) 4)
    by (apply N.mod_lt; discriminate).
  change (2 ^ 4) with 16.
  rewrite (lor_shiftl_add _ (n / 16 mod 16) 4)
    by (apply N.mod_lt; discriminate).
  change (2 ^ 4) with 16.
  rewrite (lor_shiftl_add _ (n mod 16) 4) by (apply N.mod_lt; discriminate).
  change (2 ^ 4) with 16.
  euclid.
Qed.

Lemma scan_escape_bmp (n : N) (rest : pystr) :
  n < 65536 ->
  is_high_surrogate n && low_escape_ahead rest = false ->
  scan_escape (117 :: hex4 n ++ rest) = Some (n, rest).
Proof.
  intros Hn Hlow. unfold scan_escape.
  change (117 =? 117) with true. cbv iota.
  rewrite read_hex4_hex4 by exact Hn.
  destruct (is_high_surrogate n); [|reflexivity].
  simpl in Hlow. unfold low_escape_ahead in Hlow.
  destruct rest as [|b [|u rest2]]; try reflexivity.
  destruct ((b =? 92) && (u =? 117)); [|reflexivity].
  simpl in Hlow. destruct (read_hex4 rest2) as [[n2 rest3]|]; [|discriminate].
  now rewrite Hlow.
Qed.

Lemma high_half_eq (c : char) :
  high_half c = 55296 + ((c - 65536) / 1024) mod 1024.
Proof.
  unfold high_half. change 1023 with (N.ones 10).
  rewrite N.land_ones, N.shiftr_div_pow2. change (2 ^ 10) with 1024.
  change 55296 with (N.shiftl 54 10).
  rewrite lor_shiftl_add by (apply N.mod_lt; discriminate). reflexivity.
Qed.

Lemma low_half_eq (c : char) : low_half c = 56320 + (c - 65536) mod 1024.
Proof.
  unfold low_half. change 1023 with (N.ones 10).
  rewrite N.land_ones. change (2 ^ 10) with 1024.
  change 56320 with (N.shiftl 55 10).
  rewrite lor_shiftl_add by (apply N.mod_lt; discriminate). reflexivity.
Qed.

Lemma halves_join (c : char) :
  65536 <= c < 1114112 ->
  high_half c < 65536 /\ low_half c < 65536
  /\ is_high_surrogate (high_half c) = true
  /\ is_low_surrogate (high_half c) = false
  /\ is_low_surrogate (low_half c) = true
  /\ join_surrogates (high_half c) (low_half c) = c.
Proof.
  intros Hc. unfold join_surrogates, is_high_surrogate, is_low_surrogate.
  change 1023 with (N.ones 10). rewrite !N.land_ones.
  change (2 ^ 10) with 1024.
  rewrite lor_shiftl_add by (apply N.mod_lt; discriminate).
  change (2 ^ 10) with 1024.
  rewrite high_half_eq, low_half_eq.
  repeat split.
  - euclid.
  - euclid.
  - apply andb_true_iff. split; apply N.leb_le; euclid.
  - apply andb_false_iff. left. apply N.leb_gt. euclid.
  - apply andb_true_iff. split; apply N.leb_le; euclid.
  - euclid.
Qed.

Lemma scan_escape_pair (c : char) (rest : pystr) :
  65536 <= c < 1114112 ->
  scan_escape (117 :: hex4 (high_half c) ++ u_escape (low_half c) ++ rest)
  = Some (c, rest).
Proof.
  intros Hc.
  destruct (halves_join c Hc) as [Hh [Hl [Hhigh [_ [Hlow Hjoin]]]]].
  unfold scan_escape. change (117 =? 117) with true. cbv iota.
  rewrite read_hex4_hex4 by exact Hh. rewrite Hhigh.
  rewrite u_escape_hex4. cbn [app].
  change ((92 =? 92) && (117 =? 117)) with true. cbv iota.
  rewrite read_hex4_hex4 by exact Hl. now rewrite Hlow, Hjoin.
Qed.

Ltac short_escape x :=
  left; exists x;
  split; [reflexivity
         |split; [discriminate|split; [intros; reflexivity|reflexivity]]].

Lemma json_escape_char_cases (c : char) :
  (exists x, json_escape_char c = [92; x] /\ x <> 117
             /\ (forall tail, scan_escape (x :: tail) = Some (c, tail))
             /\ is_low_surrogate c = false)
  \/ (json_escape_char c = [c] /\ 32 <= c <= 126 /\ c <> 34 /\ c <> 92)
  \/ (json_escape_char c = u_escape c /\ c < 65536)
  \/ (json_escape_char c = u_escape (high_half c) ++ u_escape (low_half c)
      /\ 65536 <= c).
Proof.
  unfold json_escape_char.
  destruct (N.eqb_spec c 34) as [->|H34]; [short_escape 34|].
  destruct (N.eqb_spec c 92) as [->|H92]; [short_escape 92|].
  destruct (N.eqb_spec c 10) as [->|H10]; [short_escape 110|].
  destruct (N.eqb_spec c 13) as [->|H13]; [short_escape 114|].
  destruct (N.eqb_spec c 9) as [->|H9]; [short_escape 116|].
  destruct (N.eqb_spec c 8) as [->|H8]; [short_escape 98|].
  destruct (N.eqb_spec c 12) as [->|H12]; [short_escape 102|].
  destruct (N.leb_spec 32 c); destruct (N.leb_spec c 126); cbn [andb];
    try (right; left; repeat split; assumption);
    (destruct (N.ltb_spec c 65536);
     [right; right; left; split; [reflexivity|assumption]
     |right; right; right; split; [reflexivity|assumption]]).
Qed.

Lemma scan_string_escape (fuel : nat) (rest : pystr) :
  scan_string (S fuel) (92 :: rest)
  = match scan_escape rest with
    | None => None
    | Some (ch, rest') =>
        match scan_string fuel rest' with
        | None => None
        | Some (str, r) => Some (ch :: str, r)
        end
    end.
Proof. reflexivity. Qed.

Lemma low_escape_ahead_quote (rest : pystr) :
  low_escape_ahead (34 :: rest) = false.
Proof. destruct rest; reflexivity. Qed.

Lemma low_escape_ahead_char (d : char) (tail : pystr) :
  d < 1114112 ->
  low_escape_ahead (json_escape_char d ++ tail) = is_low_surrogate d.
Proof.
  intros Hd.
  destruct (json_escape_char_cases d)
    as [[x [-> [Hx [_ Hlow]]]] | [[-> [Hr [_ H92]]] | [[-> Hlt] | [-> Hge]]]].
  - rewrite Hlow. cbn [app low_escape_ahead].
    destruct (N.eqb_spec x 117); [contradiction|].
    now rewrite andb_false_r.
  - cbn [app low_escape_ahead].
    replace (is_low_surrogate d) with false
      by (symmetry; apply andb_false_iff; left; apply N.leb_gt; lia).
    destruct tail; [reflexivity|].
    destruct (N.eqb_spec d 92); [contradiction|reflexivity].
  - rewrite u_escape_hex4. cbn [app low_escape_ahead].
    now rewrite read_hex4_hex4.
  - destruct (halves_join d (conj Hge Hd)) as [Hh [_ [_ [Hnl _]]]].
    rewrite u_escape_hex4, <- app_assoc. cbn [app low_escape_ahead].
    rewrite read_hex4_hex4 by exact Hh.
    rewrite Hnl. symmetry. apply andb_false_iff. right. apply N.leb_gt. lia.
Qed.

(** One character of an encoded string, read back. *)
Lemma scan_string_char (c : char) (tail : pystr) (fuel : nat) :
  c < 1114112 ->
  is_high_surrogate c && low_escape_ahead tail = false ->
  scan_string (S fuel) (json_escape_char c ++ tail)
  = match scan_string fuel tail with
    | None => None
    | Some (str, r) => Some (c :: str, r)
    end.
Proof.
  intros Hc Hlow.
  destruct (json_escape_char_cases c)
    as [[x [-> [_ [Hx _]]]] | [[-> [Hr [H34 H92]]] | [[-> Hlt] | [-> Hge]]]].
  - cbn [app]. now rewrite scan_string_escape, Hx.
  - cbn [app scan_string].
    destruct (N.eqb_spec c 34); [contradiction|].
    destruct (N.eqb_spec c 92); [contradiction|].
    destruct (N.ltb_spec c 32); [lia|reflexivity].
  - rewrite u_escape_hex4. cbn [app].
    now rewrite scan_string_escape, scan_escape_bmp.
  - rewrite (u_escape_hex4 (high_half c)), <- app_assoc. cbn [app].
    now rewrite scan_string_escape, scan_escape_pair.
Qed.

Lemma json_escape_char_length (c : char) :
  (1 <= List.length (json_escape_char c))%nat.
Proof.
  destruct (json_escape_char_cases c)
    as [[x [-> _]] | [[-> _] | [[-> _] | [-> _]]]]; simpl; lia.
Qed.

(** An encoded string, read back from after its opening quote. *)
Lemma scan_string_encoded (s : pystr) :
  str_ok s = true ->
  forall (rest : pystr) (fuel : nat),
    (List.length (flat_map json_escape_char s) < fuel)%nat ->
    scan_string fuel (flat_map json_escape_char s ++ 34 :: rest)
    = Some (s, rest).
Proof.
  induction s as [|c t IH]; intros Hok rest fuel Hfuel.
  - destruct fuel; [inversion Hfuel|reflexivity].
  - cbn [str_ok] in Hok.
    apply andb_true_iff in Hok. destruct Hok as [Hok Ht].
    apply andb_true_iff in Hok. destruct Hok as [Hc Hpair].
    apply N.ltb_lt in Hc. apply negb_true_iff in Hpair.
    cbn [flat_map] in *. rewrite length_app in Hfuel.
    pose proof (json_escape_char_length c) as Hlen.
    destruct fuel as [|fuel]; [lia|].
    rewrite <- app_assoc, scan_string_char.
    + rewrite IH; [reflexivity|exact Ht|lia].
    + exact Hc.
    + destruct t as [|d t'].
      * cbn [flat_map app]. rewrite low_escape_ahead_quote. apply andb_false_r.
      * cbn [flat_map]. rewrite <- app_assoc, low_escape_ahead_char.
        -- exact Hpair.
        -- cbn [str_ok] in Ht. apply andb_true_iff in Ht.
           destruct Ht as [Ht _]. apply andb_true_iff in Ht.
           destruct Ht as [Ht _]. now apply N.ltb_lt in Ht.
Qed.

Lemma scan_digits_stop (rest : pystr) :
  no_digit_ahead rest -> scan_digits rest = (Decimal.Nil, rest).
Proof.
  destruct rest as [|c r]; [reflexivity|]. simpl. intros H.
  destruct (scan_digits r) as [u r'].
  unfold is_digit in H. apply andb_false_iff in H.
  repeat match goal with
         | |- context [?c =? ?k] =>
             destruct (N.eqb_spec c k);
             [subst; destruct H as [H|H]; discriminate H|]
         end.
  reflexivity.
Qed.

Lemma scan_digits_text (u : Decimal.uint) (rest : pystr) :
  no_digit_ahead rest -> scan_digits (uint_digits u ++ rest) = (u, rest).
Proof.
  intros H. induction u as [|u IH|u IH|u IH|u IH|u IH|u IH|u IH|u IH|u IH|u IH];
    [now apply scan_digits_stop| ..];
    cbn [uint_digits app scan_digits]; rewrite IH; reflexivity.
Qed.

Lemma nzhead_not_D0 (u u' : Decimal.uint) :
  Decimal.nzhead u <> Decimal.D0 u'.
Proof. induction u; simpl; try discriminate. exact IHu. Qed.

(** The decimal writing of a positive number does not start with zero. *)
Lemma to_uint_head (p : positive) :
  Pos.to_uint p <> Decimal.Nil /\ forall u', Pos.to_uint p <> Decimal.D0 u'.
Proof.
  split; [apply DecimalPos.Unsigned.to_uint_nonnil|].
  intros u' E.
  pose proof (DecimalPos.Unsigned.to_of (Pos.to_uint p)) as H.
  rewrite DecimalPos.Unsigned.of_to in H. simpl in H.
  rewrite E in H at 1. unfold Decimal.unorm in H.
  destruct (Decimal.nzhead (Pos.to_uint p)) eqn:En;
    try discriminate H.
  - injection H as ->. apply (DecimalPos.Unsigned.to_uint_nonzero p).
    exact E.
  - apply (nzhead_not_D0 (Pos.to_uint p) u). exact En.
Qed.

Lemma scan_number_digits (u : Decimal.uint) (rest : pystr) (negative : bool) :
  u <> Decimal.Nil -> (forall u', u <> Decimal.D0 u') ->
  number_ends rest ->
  exists c t,
    uint_digits u ++ rest = c :: t /\ c <> 45 /\
    match c :: t with
    | [] => None
    | c :: r =>
        if is_digit c then
          let (u, rest) :=
            if c =? 48 then (Decimal.D0 Decimal.Nil, r)
            else scan_digits (c :: t) in
          match rest with
          | d :: _ =>
              if (d =? 46) || (d =? 101) || (d =? 69) then None
              else Some (if negative then Z.opp (Z.of_uint u) else Z.of_uint u,
                         rest)
          | [] => Some (if negative then Z.opp (Z.of_uint u) else Z.of_uint u,
                        rest)
          end
        else None
    end
    = Some (if negative then Z.opp (Z.of_uint u) else Z.of_uint u, rest).
Proof.
  intros Hnil Hzero Hends.
  assert (Hnd : no_digit_ahead rest).
  { destruct rest; [exact I|]. exact (proj1 Hends). }
  pose proof (scan_digits_text u rest Hnd) as Hscan.
  assert (Hfin :
    match rest with
    | d :: _ =>
        if (d =? 46) || (d =? 101) || (d =? 69) then None
        else Some (if negative then Z.opp (Z.of_uint u) else Z.of_uint u, rest)
    | [] => Some (if negative then Z.opp (Z.of_uint u) else Z.of_uint u, rest)
    end = Some (if negative then Z.opp (Z.of_uint u) else Z.of_uint u, rest)).
  { destruct rest as [|d r]; [reflexivity|].
    destruct Hends as [_ [H1 [H2 H3]]].
    destruct (N.eqb_spec d 46); [contradiction|].
    destruct (N.eqb_spec d 101); [contradiction|].
    destruct (N.eqb_spec d 69); [contradiction|reflexivity]. }
  destruct u; try (now elim Hnil); try (now elim (Hzero u));
    cbn [uint_digits app] in *;
    (eexists; eexists; split; [reflexivity|split; [discriminate|]]);
    cbn [is_digit N.leb N.compare Pos.compare Pos.compare_cont andb N.eqb
         Pos.eqb];
    rewrite Hscan; exact Hfin.
Qed.

(** The text of an integer, read back. *)
Lemma scan_number_text (z : Z) (rest : pystr) :
  number_ends rest -> scan_number (int_text z ++ rest) = Some (z, rest).
Proof.
  intros Hends. unfold int_text, scan_number.
  destruct z as [|p|p]; cbn [Z.to_int].
  - cbn [uint_digits app].
    change (48 =? 45) with false. cbv iota.
    change (is_digit 48) with true. change (48 =? 48) with true. cbv iota.
    destruct rest as [|d r]; [reflexivity|].
    destruct Hends as [_ [H1 [H2 H3]]].
    destruct (N.eqb_spec d 46); [contradiction|].
    destruct (N.eqb_spec d 101); [contradiction|].
    destruct (N.eqb_spec d 69); [contradiction|reflexivity].
  - destruct (to_uint_head p) as [Hnil Hzero].
    destruct (scan_number_digits _ rest false Hnil Hzero Hends)
      as [c [t [E [H45 Hres]]]].
    rewrite E. destruct (N.eqb_spec c 45); [contradiction|].
    transitivity (Some (Z.of_uint (Pos.to_uint p), rest)); [exact Hres|].
    unfold Z.of_uint. now rewrite DecimalPos.Unsigned.of_to.
  - destruct (to_uint_head p) as [Hnil Hzero].
    destruct (scan_number_digits _ rest true Hnil Hzero Hends)
      as [c [t [E [H45 Hres]]]].
    cbn [app]. change (45 =? 45) with true. cbv iota.
    rewrite E.
    transitivity (Some (Z.opp (Z.of_uint (Pos.to_uint p)), rest));
      [exact Hres|].
    unfold Z.of_uint. now rewrite DecimalPos.Unsigned.of_to.
Qed.

(** The first character of an encoded value: no white space, and none of
    the closing brackets. *)
Lemma json_dumps_head (v : PyVal) :
  exists c t,
    json_dumps v = c :: t /\ is_ws c = false /\ c <> 93 /\ c <> 125.
Proof.
  destruct v as [| [|] | z | s | l | m];
    try (eexists; eexists; split; [reflexivity|];
         split; [reflexivity|split; discriminate]).
  unfold json_dumps, int_text.
  destruct z as [|p|p]; cbn [Z.to_int].
  - eexists; eexists; split; [reflexivity|].
    split; [reflexivity|split; discriminate].
  - destruct (to_uint_head p) as [Hnil _].
    destruct (Pos.to_uint p); try (now elim Hnil);
      (eexists; eexists; split; [reflexivity|];
       split; [reflexivity|split; discriminate]).
  - eexists; eexists; split; [reflexivity|].
    split; [reflexivity|split; discriminate].
Qed.

Lemma skip_ws_head (c : char) (t : pystr) :
  is_ws c = false -> skip_ws (c :: t) = c :: t.
Proof. intros H. simpl. now rewrite H. Qed.

Lemma skip_ws_dumps (v : PyVal) (rest : pystr) :
  skip_ws (json_dumps v ++ rest) = json_dumps v ++ rest.
Proof.
  destruct (json_dumps_head v) as [c [t [-> [H _]]]].
  now apply skip_ws_head.
Qed.

Lemma parse_value_number (fuel : nat) (c : char) (t : pystr) :
  is_digit c = true \/ c = 45 ->
  parse_value (S fuel) (c :: t)
  = match scan_number (c :: t) with
    | Some (z, r) => Some (PInt z, r)
    | None => None
    end.
Proof.
  intros Hc.
  assert (H : c <> 34 /\ c <> 123 /\ c <> 91 /\ c <> 110 /\ c <> 116
              /\ c <> 102).
  { destruct Hc as [Hc| ->]; [|repeat split; discriminate].
    unfold is_digit in Hc. apply andb_true_iff in Hc.
    destruct Hc as [H1 H2]. apply N.leb_le in H1, H2.
    repeat split; lia. }
  destruct H as [H1 [H2 [H3 [H4 [H5 H6]]]]].
  cbn [parse_value].
  destruct (N.eqb_spec c 34); [contradiction|].
  destruct (N.eqb_spec c 123); [contradiction|].
  destruct (N.eqb_spec c 91); [contradiction|].
  change (lit "null") with [110; 117; 108; 108].
  change (lit "true") with [116; 114; 117; 101].
  change (lit "false") with [102; 97; 108; 115; 101].
  cbn [py_startswith].
  destruct (N.eqb_spec 110 c); [now elim H4|].
  destruct (N.eqb_spec 116 c); [now elim H5|].
  destruct (N.eqb_spec 102 c); [now elim H6|].
  reflexivity.
Qed.

Lemma int_text_head (z : Z) :
  exists c t, int_text z = c :: t /\ (is_digit c = true \/ c = 45).
Proof.
  unfold int_text. destruct z as [|p|p]; cbn [Z.to_int].
  - eexists; eexists; split; [reflexivity|now left].
  - destruct (to_uint_head p) as [Hnil _].
    destruct (Pos.to_uint p); try (now elim Hnil);
      (eexists; eexists; split; [reflexivity|now left]).
  - eexists; eexists; split; [reflexivity|now right].
Qed.

Lemma dict_set_fresh (k : pystr) (v : PyVal) (m : dict) :
  ~ In k (dict_keys m) -> dict_set k v m = m ++ [(k, v)].
Proof.
  induction m as [|[k' v'] m IH]; simpl; [reflexivity|].
  intros H. rewrite pystr_eqb_neq by (intros ->; apply H; now left).
  f_equal. apply IH. intros Hin. apply H. now right.
Qed.

Lemma dict_of_pairs_wf (m : dict) : dict_wf m -> dict_of_pairs m = m.
Proof.
  unfold dict_of_pairs.
  enough (H : forall acc, dict_wf (acc ++ m) ->
            fold_left (fun d kv => dict_set (fst kv) (snd kv) d) m acc
            = acc ++ m) by (apply (H [])).
  induction m as [|[k v] m IH]; intros acc Hwf; simpl.
  - now rewrite app_nil_r.
  - rewrite dict_set_fresh.
    + rewrite IH; rewrite <- app_assoc; [reflexivity|exact Hwf].
    + unfold dict_wf, dict_keys in Hwf. rewrite map_app in Hwf. simpl in Hwf.
      apply NoDup_remove_2 in Hwf. intros Hin. apply Hwf.
      apply in_or_app. now left.
Qed.

Lemma json_dumps_list (l : list PyVal) :
  json_dumps (PList l) = 91 :: join_comma_space (map json_dumps l) ++ [93].
Proof. reflexivity. Qed.

Lemma json_dumps_dict (m : dict) :
  json_dumps (PDict m) = 123 :: join_comma_space (map member_text m) ++ [125].
Proof. reflexivity. Qed.

Lemma join_comma_space_cons (p : pystr) (q : pystr) (rest : list pystr) :
  join_comma_space (p :: q :: rest)
  = p ++ 44 :: 32 :: join_comma_space (q :: rest).
Proof. reflexivity. Qed.

Lemma parse_elems_encoded (l : list PyVal) :
  l <> [] ->
  Forall reads_back l ->
  forallb val_ok l = true ->
  forall (rest : pystr) (fuel : nat),
    (2 * List.length (join_comma_space (map json_dumps l) ++ 93%N :: rest) + 2
     <= fuel)%nat ->
    parse_elems fuel (join_comma_space (map json_dumps l) ++ 93 :: rest)
    = Some (l, rest).
Proof.
  induction l as [|x l IH]; [congruence|].
  intros _ Hall Hok rest fuel Hfuel.
  inversion Hall as [|? ? Hx Hl]; subst.
  cbn [forallb] in Hok. apply andb_true_iff in Hok. destruct Hok as [Hokx Hokl].
  destruct fuel as [|fuel]; [lia|].
  destruct l as [|y l].
  - cbn [map join_comma_space] in *. cbn [parse_elems].
    rewrite (Hx Hokx (93 :: rest) fuel); [reflexivity| |lia].
    repeat split; discriminate.
  - cbn [map] in *. rewrite join_comma_space_cons in *.
    rewrite <- app_assoc in *. cbn [app] in *.
    rewrite length_app in Hfuel. cbn [List.length] in Hfuel.
    cbn [parse_elems].
    rewrite (Hx Hokx _ fuel);
      [|repeat split; discriminate
       |rewrite length_app; cbn [List.length]; lia].
    cbn [skip_ws is_ws N.eqb Pos.eqb orb]. cbv iota.
    change (44 =? 93) with false. change (44 =? 44) with true. cbv iota.
    assert (Hskip :
      skip_ws (join_comma_space (json_dumps y :: map json_dumps l)
               ++ 93 :: rest)
      = join_comma_space (json_dumps y :: map json_dumps l) ++ 93 :: rest).
    { destruct l; cbn [map join_comma_space]; rewrite <- ?app_assoc;
        apply skip_ws_dumps. }
    rewrite Hskip.
    rewrite (IH ltac:(discriminate) Hl Hokl rest fuel); [reflexivity|].
    cbn [map]. lia.
Qed.

Lemma member_text_app (kv : pystr * PyVal) (tail : pystr) :
  member_text kv ++ tail
  = 34 :: flat_map json_escape_char (fst kv)
          ++ 34 :: 58 :: 32 :: json_dumps (snd kv) ++ tail.
Proof.
  unfold member_text, json_string, c_dquote, c_space.
  cbn [app]. rewrite <- !app_assoc. reflexivity.
Qed.

Lemma parse_members_step
    (k : pystr) (v : PyVal) (tail : pystr) (fuel : nat) :
  str_ok k = true -> reads_back v -> val_ok v = true ->
  number_ends tail ->
  (2 * List.length (member_text (k, v) ++ tail) + 1 <= fuel)%nat ->
  parse_members (S fuel) (member_text (k, v) ++ tail)
  = match skip_ws tail with
    | [] => None
    | c5 :: r5 =>
        if c5 =? 125 then Some ([(k, v)], r5)
        else if c5 =? 44 then
          match parse_members fuel (skip_ws r5) with
          | Some (kvs, r') => Some ((k, v) :: kvs, r')
          | None => None
          end
        else None
    end.
Proof.
  intros Hk Hv Hokv Hends Hfuel.
  rewrite member_text_app in *. cbn [fst snd] in *.
  cbn [List.length] in Hfuel. rewrite length_app in Hfuel.
  cbn [List.length] in Hfuel.
  cbn [parse_members]. change (34 =? 34) with true. cbv iota.
  rewrite scan_string_encoded;
    [|exact Hk|rewrite length_app; cbn [List.length]; lia].
  cbn [skip_ws is_ws N.eqb Pos.eqb orb]. cbv iota.
  change (58 =? 58) with true. cbv iota.
  rewrite skip_ws_dumps.
  rewrite (Hv Hokv tail fuel Hends); [reflexivity|lia].
Qed.

Lemma parse_members_encoded (m : dict) :
  m <> [] ->
  Forall (fun kv => reads_back (snd kv)) m ->
  forallb (fun kv => str_ok (fst kv) && val_ok (snd kv)) m = true ->
  forall (rest : pystr) (fuel : nat),
    (2 * List.length (join_comma_space (map member_text m) ++ 125%N :: rest) + 2
     <= fuel)%nat ->
    parse_members fuel (join_comma_space (map member_text m) ++ 125 :: rest)
    = Some (m, rest).
Proof.
  induction m as [|[k v] m IH]; [congruence|].
  intros _ Hall Hok rest fuel Hfuel.
  inversion Hall as [|? ? Hv Hm]; subst. cbn [snd] in Hv.
  cbn [forallb fst snd] in Hok.
  apply andb_true_iff in Hok. destruct Hok as [Hokkv Hokm].
  apply andb_true_iff in Hokkv. destruct Hokkv as [Hk Hokv].
  destruct fuel as [|fuel]; [lia|].
  destruct m as [|kv2 m].
  - cbn [map join_comma_space] in *.
    rewrite parse_members_step; try assumption; [reflexivity| |lia].
    repeat split; discriminate.
  - cbn [map] in *. rewrite join_comma_space_cons in *.
    rewrite <- app_assoc in *. cbn [app] in *.
    rewrite parse_members_step; try assumption;
      [|repeat split; discriminate|lia].
    cbn [skip_ws is_ws N.eqb Pos.eqb orb]. cbv iota.
    change (44 =? 125) with false. change (44 =? 44) with true. cbv iota.
    assert (Hskip :
      skip_ws (join_comma_space (member_text kv2 :: map member_text m)
               ++ 125 :: rest)
      = join_comma_space (member_text kv2 :: map member_text m)
        ++ 125 :: rest).
    { destruct m; cbn [map join_comma_space]; rewrite <- ?app_assoc;
        rewrite member_text_app; reflexivity. }
    rewrite Hskip.
    rewrite (IH ltac:(discriminate) Hm Hokm rest fuel); [reflexivity|].
    cbn [map]. rewrite length_app in Hfuel. cbn [List.length] in Hfuel. lia.
Qed.

(** Every value is read back from its encoding. *)
Lemma parse_value_encoded (v : PyVal) : reads_back v.
Proof.
  induction v as [| b | z | s | l IH | m IH] using PyVal_ind;
    intros Hok rest fuel Hends Hfuel;
    (destruct fuel as [|fuel]; [lia|]).
  - reflexivity.
  - destruct b; reflexivity.
  - cbn [json_dumps] in *.
    destruct (int_text_head z) as [c [t [E Hc]]].
    pose proof (scan_number_text z rest Hends) as Hscan.
    rewrite E in *. cbn [app] in *.
    now rewrite parse_value_number, Hscan.
  - cbn [json_dumps val_ok] in *. unfold json_string, c_dquote in *.
    cbn [app] in *. rewrite <- app_assoc. cbn [app].
    cbn [parse_value]. change (34 =? 34) with true. cbv iota.
    rewrite scan_string_encoded;
      [reflexivity|exact Hok|rewrite length_app; cbn [List.length]; lia].
  - rewrite json_dumps_list in *. cbn [val_ok] in Hok.
    cbn [app] in *. rewrite <- app_assoc in *. cbn [app] in *.
    cbn [List.length] in Hfuel.
    cbn [parse_value]. change (91 =? 34) with false.
    change (91 =? 123) with false. change (91 =? 91) with true. cbv iota.
    destruct l as [|x l]; [reflexivity|].
    assert (Hhead : exists c t,
      join_comma_space (map json_dumps (x :: l)) ++ 93 :: rest = c :: t
      /\ is_ws c = false /\ c <> 93).
    { destruct (json_dumps_head x) as [c [t [E [Hws [H93 _]]]]].
      destruct l; cbn [map join_comma_space]; rewrite E; cbn [app];
        eexists; eexists; (split; [reflexivity|now split]). }
    destruct Hhead as [c [t [E [Hws H93]]]].
    pose proof (parse_elems_encoded (x :: l) ltac:(discriminate) IH Hok
                  rest fuel) as Hel.
    rewrite E in Hel, Hfuel. rewrite E. rewrite (skip_ws_head c t Hws).
    destruct (N.eqb_spec c 93); [contradiction|].
    rewrite Hel; [reflexivity|lia].
  - rewrite json_dumps_dict in *. cbn [val_ok] in Hok.
    apply andb_true_iff in Hok. destruct Hok as [Hkeys Hok].
    cbn [app] in *. rewrite <- app_assoc in *. cbn [app] in *.
    cbn [List.length] in Hfuel.
    cbn [parse_value]. change (123 =? 34) with false.
    change (123 =? 123) with true. cbv iota.
    destruct m as [|kv m]; [reflexivity|].
    assert (Hhead : exists t,
      join_comma_space (map member_text (kv :: m)) ++ 125 :: rest = 34 :: t).
    { destruct m; cbn [map join_comma_space]; rewrite <- ?app_assoc;
        rewrite member_text_app; eexists; reflexivity. }
    destruct Hhead as [t E].
    pose proof (parse_members_encoded (kv :: m) ltac:(discriminate) IH Hok
                  rest fuel) as Hmem.
    rewrite E in Hmem, Hfuel. rewrite E.
    rewrite (skip_ws_head 34 t eq_refl).
    change (34 =? 125) with false. cbv iota.
    rewrite Hmem by lia.
    rewrite dict_of_pairs_wf; [reflexivity|].
    now apply keys_distinct_nodup.
Qed.

Lemma json_loads_dumps (v : PyVal) :
  val_ok v = true -> json_loads (json_dumps v) = Some v.
Proof.
  intros Hok. unfold json_loads.
  rewrite <- (app_nil_r (json_dumps v)), skip_ws_dumps.
  rewrite (parse_value_encoded v Hok [] _ I (le_n _)). reflexivity.
Qed.




(** ** The handlers at work *)

(** A PUT whose body is [null]: the normaliser returns it, the double
    star refuses it inside the [try], and the answer is 400 with no call
    made. *)
Example sync_put_null_body :
  sync_customer_tf Demo.builtin_text Demo.tf
    {| rq_rule := lit "/sync_customer_tf"; rq_method := lit "PUT";
       rq_args := []; rq_json := PNone |}
    (Demo.fresh [])
  = (Ok (json_response 400 (result_text (lit "TypeError"))), Demo.fresh []).
Proof. reflexivity. Qed.

(** A DELETE reads back after the record is gone. *)
Example sync_delete_reads_back :
  sync_customer_tf Demo.builtin_text Demo.tf
    {| rq_rule := lit "/sync_customer_tf"; rq_method := lit "DELETE";
       rq_args := [(lit "code", lit " ABC ")];
       rq_json := PDict [(lit "code", PStr (lit "ABC"))] |}
    (Demo.fresh [(lit "ABC", Demo.parcel)])
  = (Ok (json_response 200 (lit "{}")),
     {| backend := [];
        calls := [Call_client_tf (lit "delete_client")
                    [(lit "code", PStr (lit "ABC"))];
                  Call_client_tf (lit "get_client")
                    [(lit "code", PStr (lit "ABC"))]] |}).
Proof. reflexivity. Qed.

(** /deliveries with [csv] given as the word [Yes]: a header line and a
    line for the record. *)
Example deliveries_as_csv :
  fst (get_client_deliveries Demo.repr
         (Demo.getter (Ok []) (Ok ([Demo.parcel], None)))
         (Demo.post_at (lit "/deliveries")
            (PDict [(lit "client", PStr (lit "ABC"));
                    (lit "csv", PStr (lit " Yes "))]))
         (Demo.fresh tt))
  = Ok (csv_response 201
          (lit "id,state" ++ [c_cr; c_lf] ++ lit "1,sent" ++ [c_cr; c_lf])).
Proof. reflexivity. Qed.

(** * Further properties of the code *)

(** ** The argument normaliser *)

Lemma adjust_spec_keys (m : dict) :
  dict_keys (adjust_spec m) = dict_keys (filter kept_binding m).
Proof.
  induction m as [|[k v] m IH]; [reflexivity|].
  unfold adjust_spec, dict_keys in *. cbn [flat_map filter].
  rewrite map_app, IH. unfold adjust_entry, kept_binding. cbn [fst snd].
  destruct v as [| b | z | s | l | d]; try reflexivity.
  destruct (adjust_value s) as [|c t] eqn:E.
  - apply adjust_value_nil in E. now rewrite E.
  - destruct (py_strip s) eqn:Es; [|reflexivity].
    assert (H : adjust_value s = []) by now apply adjust_value_nil.
    rewrite H in E. discriminate E.
Qed.

(** X1: on a mapping the normaliser returns a mapping again (no key
    twice) whose keys are the keys of the bindings it keeps, those whose
    value is no blank string, in the order they had. *)
Theorem adjust_arguments_keys (m : dict) :
  dict_wf m ->
  exists m',
    _adjust_arguments (PDict m) = Ok (PDict m')
    /\ dict_wf m'
    /\ dict_keys m' = dict_keys (filter kept_binding m).
Proof.
  intros Hwf. exists (adjust_spec m). split; [|split].
  - now apply adjust_arguments_spec.
  - now apply adjust_spec_wf.
  - apply adjust_spec_keys.
Qed.

Lemma adjust_arguments_keys_witness :
  dict_wf Demo.untidy /\
  exists m',
    _adjust_arguments (PDict Demo.untidy) = Ok (PDict m')
    /\ dict_wf m'
    /\ dict_keys m' = dict_keys (filter kept_binding Demo.untidy).
Proof.
  assert (H : dict_wf Demo.untidy) by wf_by_computation.
  split; [exact H | exact (adjust_arguments_keys Demo.untidy H)].
Defined.

Lemma adjust_char_underscore (c : char) : adjust_char c = underscore c.
Proof.
  unfold adjust_char, underscore, c_tab, c_space.
  destruct (N.eqb_spec c 9) as [->|H9]; [reflexivity|].
  destruct (N.eqb_spec c 32); reflexivity.
Qed.

(** X2: every string of the mapping the normaliser returns comes from the
    string the key had, stripped and with each tab and space turned into
    an underscore; it is not empty and holds no space. *)
Theorem adjust_arguments_strings (m : dict) :
  dict_wf m ->
  exists m',
    _adjust_arguments (PDict m) = Ok (PDict m')
    /\ forall k s,
         dict_get k m' = Some (PStr s) ->
         exists s0,
           dict_get k m = Some (PStr s0)
           /\ s = map underscore (py_strip s0)
           /\ s <> [] /\ ~ In c_space s.
Proof.
  intros Hwf. exists (adjust_spec m).
  split; [now apply adjust_arguments_spec|].
  intros k s Hget. rewrite (adjust_spec_get m k Hwf) in Hget.
  destruct (dict_get k m) as [v|]; [|discriminate Hget].
  destruct v as [| b | z | s0 | l | d]; try discriminate Hget.
  destruct (adjust_value s0) as [|c t] eqn:E; [discriminate Hget|].
  injection Hget as <-. exists s0. split; [reflexivity|].
  rewrite <- E. split; [|split].
  - rewrite adjust_value_map. apply map_ext. apply adjust_char_underscore.
  - rewrite E. discriminate.
  - apply adjust_value_clean.
Qed.

Lemma adjust_arguments_strings_witness :
  dict_wf Demo.untidy /\
  exists m',
    _adjust_arguments (PDict Demo.untidy) = Ok (PDict m')
    /\ forall k s,
         dict_get k m' = Some (PStr s) ->
         exists s0,
           dict_get k Demo.untidy = Some (PStr s0)
           /\ s = map underscore (py_strip s0)
           /\ s <> [] /\ ~ In c_space s.
Proof.
  assert (H : dict_wf Demo.untidy) by wf_by_computation.
  split; [exact H | exact (adjust_arguments_strings Demo.untidy H)].
Defined.

(** ** The CSV encoder *)

Lemma dict_to_list_fits (fieldnames : list pystr) (row : PyVal) :
  (row_fits fieldnames row = true ->
   dict_to_list fieldnames row = Ok (row_fields fieldnames row))
  /\ (row_fits fieldnames row = false ->
      exists b, dict_to_list fieldnames row = Raise (Builtin b)).
Proof.
  unfold row_fits, dict_to_list, row_fields.
  destruct row as [| b | z | s | l | m];
    try (split; [discriminate|intros _; eexists; reflexivity]).
  split; intros ->; [reflexivity|eexists; reflexivity].
Qed.

Lemma csv_writerows_fits
    (py_repr : PyVal -> pystr) (fieldnames : list pystr) (rows : list PyVal) :
  (forallb (row_fits fieldnames) rows = true ->
   csv_writerows py_repr fieldnames rows
   = Ok (flat_map (fun row => csv_writerow py_repr (row_fields fieldnames row))
           rows))
  /\ (forallb (row_fits fieldnames) rows = false ->
      exists b, csv_writerows py_repr fieldnames rows = Raise (Builtin b)).
Proof.
  induction rows as [|row rows [IHok IHbad]]; cbn [forallb csv_writerows flat_map].
  - split; [reflexivity|discriminate].
  - destruct (dict_to_list_fits fieldnames row) as [Hok Hbad].
    destruct (row_fits fieldnames row); cbn [andb].
    + rewrite (Hok eq_refl). split.
      * intros H. now rewrite (IHok H).
      * intros H. destruct (IHbad H) as [b ->]. now exists b.
    + destruct (Hbad eq_refl) as [b ->].
      split; [discriminate|intros _; now exists b].
Qed.

Lemma response_csv_of_rows
    (py_repr : PyVal -> pystr) (code : Z) (m0 : dict) (rows : list PyVal) :
  (forallb (row_fits (dict_keys m0)) rows = true ->
   response_csv py_repr code (PList (PDict m0 :: rows))
   = Ok (csv_response code
           (csv_writeheader py_repr (dict_keys m0)
            ++ flat_map
                 (fun row => csv_writerow py_repr (row_fields (dict_keys m0) row))
                 (PDict m0 :: rows))))
  /\ (forallb (row_fits (dict_keys m0)) rows = false ->
      exists b,
        response_csv py_repr code (PList (PDict m0 :: rows))
        = Raise (Builtin b)).
Proof.
  assert (Hfirst : row_fits (dict_keys m0) (PDict m0) = true).
  { apply forallb_keys_self, incl_refl. }
  destruct (csv_writerows_fits py_repr (dict_keys m0) (PDict m0 :: rows))
    as [Hok Hbad].
  cbn [forallb] in Hok, Hbad. rewrite Hfirst in Hok, Hbad. cbn [andb] in *.
  unfold response_csv. cbn [py_truthy].
  split; intros H.
  - now rewrite (Hok H).
  - destruct (Hbad H) as [b ->]. now exists b.
Qed.



Lemma dict_get_some_in_keys (k : pystr) (v : PyVal) (m : dict) :
  dict_get k m = Some v -> In k (dict_keys m).
Proof.
  intros H. apply dict_get_in in H.
  apply in_map_iff. now exists (k, v).
Qed.

Lemma dict_get_of_in (k : pystr) (v : PyVal) (m : dict) :
  dict_wf m -> In (k, v) m -> dict_get k m = Some v.
Proof.
  unfold dict_wf. induction m as [|[k' v'] m IH]; simpl; [easy|].
  intros Hwf Hin. inversion Hwf as [|? ? Hnotin Hnd]; subst.
  destruct Hin as [[= -> ->]|Hin]; [now rewrite pystr_eqb_refl|].
  rewrite pystr_eqb_neq; [now apply IH|].
  intros ->. apply Hnotin. apply in_map_iff. now exists (k', v).
Qed.

Lemma dict_wf_perm (m1 m2 : dict) :
  Permutation m1 m2 -> dict_wf m1 -> dict_wf m2.
Proof.
  unfold dict_wf, dict_keys. intros Hp.
  apply Permutation_NoDup. now apply Permutation_map.
Qed.

Lemma dict_get_perm (k : pystr) (m1 m2 : dict) :
  Permutation m1 m2 -> dict_wf m1 -> dict_get k m1 = dict_get k m2.
Proof.
  intros Hp Hwf. pose proof (dict_wf_perm m1 m2 Hp Hwf) as Hwf2.
  destruct (dict_get k m1) as [v|] eqn:E1.
  - apply dict_get_in in E1. symmetry. apply dict_get_of_in; [exact Hwf2|].
    now apply (Permutation_in _ Hp).
  - destruct (dict_get k m2) as [v|] eqn:E2; [|reflexivity].
    apply dict_get_in in E2.
    apply (Permutation_in _ (Permutation_sym Hp)) in E2.
    apply (dict_get_of_in _ _ _ Hwf) in E2. congruence.
Qed.

Lemma same_record_row (fieldnames : list pystr) (a b : PyVal) :
  same_record a b ->
  row_fits fieldnames a = row_fits fieldnames b
  /\ row_fields fieldnames a = row_fields fieldnames b.
Proof.
  intros [m1 [m2 [-> [-> [Hwf Hp]]]]]. cbn [row_fits row_fields]. split.
  - apply eq_true_iff_eq. rewrite !forallb_forall.
    assert (Hk : Permutation (dict_keys m1) (dict_keys m2))
      by (unfold dict_keys; now apply Permutation_map).
    split; intros H k Hin; apply H.
    + now apply (Permutation_in _ (Permutation_sym Hk)).
    + now apply (Permutation_in _ Hk).
  - apply map_ext. intros k. unfold dict_get_or.
    now rewrite (dict_get_perm k m1 m2 Hp Hwf).
Qed.

(** X4: the columns are those of the first record: records that fit, put
    with their bindings in another order, give the same response. *)
Theorem response_csv_binding_order
    (py_repr : PyVal -> pystr) (code : Z) (m0 : dict)
    (rows1 rows2 : list PyVal) :
  Forall2 same_record rows1 rows2 ->
  forallb (row_fits (dict_keys m0)) rows1 = true ->
  response_csv py_repr code (PList (PDict m0 :: rows1))
  = response_csv py_repr code (PList (PDict m0 :: rows2)).
Proof.
  intros Hsame Hfit.
  assert (H : forallb (row_fits (dict_keys m0)) rows2 = true
              /\ flat_map (fun row => csv_writerow py_repr
                                        (row_fields (dict_keys m0) row)) rows1
                 = flat_map (fun row => csv_writerow py_repr
                                          (row_fields (dict_keys m0) row)) rows2).
  { induction Hsame as [|a b l1 l2 Hab _ IH]; [now split|].
    cbn [forallb flat_map] in *.
    apply andb_true_iff in Hfit. destruct Hfit as [Ha Hl].
    destruct (same_record_row (dict_keys m0) a b Hab) as [E1 E2].
    destruct (IH Hl) as [IH1 IH2].
    rewrite <- E1, Ha, IH1, E2, IH2. now split. }
  destruct H as [Hfit2 Hrows].
  rewrite (proj1 (response_csv_of_rows py_repr code m0 rows1) Hfit).
  rewrite (proj1 (response_csv_of_rows py_repr code m0 rows2) Hfit2).
  cbn [flat_map]. now rewrite Hrows.
Qed.

Lemma response_csv_binding_order_witness :
  response_csv Demo.repr 201
    (PList [Demo.parcel;
            PDict [(lit "id", PInt 2); (lit "state", PStr (lit "lost"))]])
  = response_csv Demo.repr 201
      (PList [Demo.parcel;
              PDict [(lit "state", PStr (lit "lost")); (lit "id", PInt 2)]]).
Proof.
  apply (response_csv_binding_order Demo.repr 201
           [(lit "id", PInt 1); (lit "state", PStr (lit "sent"))]
           [PDict [(lit "id", PInt 2); (lit "state", PStr (lit "lost"))]]
           [PDict [(lit "state", PStr (lit "lost")); (lit "id", PInt 2)]]).
  - constructor; [|constructor].
    exists [(lit "id", PInt 2); (lit "state", PStr (lit "lost"))],
           [(lit "state", PStr (lit "lost")); (lit "id", PInt 2)].
    split; [reflexivity|]. split; [reflexivity|].
    split; [wf_by_computation|apply perm_swap].
  - reflexivity.
Defined.

(** ** /clients and /rundeck/clients *)

(** X5: whatever the collaborator does, the handler of the client list
    raises nothing: it answers 200, 404 or 500 after exactly one call of
    [get_clients], and never 404 under a rule that holds [rundeck]. *)
Theorem client_list_always_answers
    (St : Type) (builtin_str : builtin_error -> pystr)
    (cg : ClientGetter St) (r : Request) (w : world St) :
  exists resp,
    get_client_list builtin_str cg r w
    = (Ok resp,
       {| backend := snd (get_clients cg (backend w));
          calls := calls w ++ [Call_get_clients] |})
    /\ (status resp = 200 \/ status resp = 404 \/ status resp = 500)%Z
    /\ (py_contains (lit "rundeck") (rq_rule r) = true ->
        status resp <> 404%Z).
Proof.
  unfold get_client_list, bind, try_except, invoke, ret.
  destruct (get_clients cg (backend w)) as [[l|e] s']; cbn [snd].
  - destruct (py_contains (lit "rundeck") (rq_rule r)); destruct l as [|x l];
      cbn [andb negb]; eexists; (split; [reflexivity|]);
      (split; [cbn; auto | cbn; intros; discriminate]).
  - eexists. split; [reflexivity|].
    split; [cbn; auto | cbn; intros; discriminate].
Qed.

Lemma client_list_always_answers_witness :
  exists resp,
    get_client_list Demo.builtin_text Demo.no_clients
      (Demo.get_at (lit "/rundeck/clients")) (Demo.fresh tt)
    = (Ok resp, {| backend := tt; calls := [Call_get_clients] |})
    /\ status resp <> 404%Z.
Proof.
  destruct (client_list_always_answers unit Demo.builtin_text Demo.no_clients
              (Demo.get_at (lit "/rundeck/clients")) (Demo.fresh tt))
    as [resp [Hrun [_ Hrundeck]]].
  exists resp. split; [exact Hrun | exact (Hrundeck eq_refl)].
Defined.

(** X6: when [get_clients] raises, both routes answer 500 with the text
    of the exception as [result]. *)
Theorem client_list_failure
    (St : Type) (builtin_str : builtin_error -> pystr)
    (cg : ClientGetter St) (r : Request) (w : world St) (e : exn) (s' : St) :
  get_clients cg (backend w) = (Raise e, s') ->
  fst (get_client_list builtin_str cg r w)
  = Ok (response_json 500 (result_body (exn_str builtin_str e))).
Proof.
  intros Hcall. run_handler. rewrite Hcall. reflexivity.
Qed.

Lemma client_list_failure_witness :
  fst (get_client_list Demo.builtin_text
         (Demo.getter (Raise Demo.missing_code) (Ok ([], None)))
         (Demo.get_at (lit "/rundeck/clients")) (Demo.fresh tt))
  = Ok (json_response 500 (result_text (lit "code is required"))).
Proof.
  exact (client_list_failure unit Demo.builtin_text
           (Demo.getter (Raise Demo.missing_code) (Ok ([], None)))
           (Demo.get_at (lit "/rundeck/clients")) (Demo.fresh tt)
           Demo.missing_code tt eq_refl).
Defined.

Lemma pystr_le_antisym (a b : pystr) : pystr_le a b -> pystr_le b a -> a = b.
Proof.
  unfold pystr_le, pystr_leb. rewrite (pystr_compare_antisym a b).
  destruct (pystr_compare a b) eqn:E; cbn; try discriminate.
  intros _ _. now apply pystr_compare_eq.
Qed.

(** Two ascending rearrangements of the same strings are the same list. *)
Lemma sorted_perm_unique (l1 l2 : list pystr) :
  StronglySorted pystr_le l1 -> StronglySorted pystr_le l2 ->
  Permutation l1 l2 -> l1 = l2.
Proof.
  revert l2. induction l1 as [|x l1 IH]; intros l2 H1 H2 Hp.
  - apply Permutation_nil in Hp. now subst.
  - destruct l2 as [|y l2].
    + apply Permutation_sym, Permutation_nil in Hp. discriminate.
    + apply StronglySorted_inv in H1. destruct H1 as [H1 Hx].
      apply StronglySorted_inv in H2. destruct H2 as [H2 Hy].
      assert (E : x = y).
      { assert (Hin1 : In x (y :: l2))
          by (apply (Permutation_in _ Hp); now left).
        assert (Hin2 : In y (x :: l1))
          by (apply (Permutation_in _ (Permutation_sym Hp)); now left).
        destruct Hin1 as [->|Hin1]; [reflexivity|].
        destruct Hin2 as [->|Hin2]; [reflexivity|].
        rewrite Forall_forall in Hx, Hy.
        apply pystr_le_antisym; [now apply Hx | now apply Hy]. }
      subst y. f_equal. apply IH; try assumption.
      now apply Permutation_cons_inv in Hp.
Qed.

Lemma list_sort_of_perm (l1 l2 : list pystr) :
  Permutation l1 l2 -> list_sort l1 = list_sort l2.
Proof.
  intros Hp. apply sorted_perm_unique; try apply list_sort_sorted.
  rewrite <- (list_sort_perm l1), <- (list_sort_perm l2). exact Hp.
Qed.

(** X7: under /rundeck/clients the answer does not depend on the order
    in which the collaborator gives the clients. *)
Theorem rundeck_order_independent
    (St : Type) (builtin_str : builtin_error -> pystr)
    (cg1 cg2 : ClientGetter St) (r : Request) (w1 w2 : world St)
    (l1 l2 : list pystr) (s1 s2 : St) :
  rq_rule r = lit "/rundeck/clients" ->
  get_clients cg1 (backend w1) = (Ok l1, s1) ->
  get_clients cg2 (backend w2) = (Ok l2, s2) ->
  Permutation l1 l2 ->
  fst (get_client_list builtin_str cg1 r w1)
  = fst (get_client_list builtin_str cg2 r w2).
Proof.
  intros Hrule H1 H2 Hp. run_handler. rewrite H1, H2, Hrule.
  change (py_contains (lit "rundeck") (lit "/rundeck/clients")) with true.
  cbn [negb andb fst]. rewrite andb_false_r, andb_false_r.
  replace (match l1 with [] => [] | _ :: _ => l1 end) with l1
    by (now destruct l1).
  replace (match l2 with [] => [] | _ :: _ => l2 end) with l2
    by (now destruct l2).
  now rewrite (list_sort_of_perm l1 l2 Hp).
Qed.

Lemma rundeck_order_independent_witness :
  fst (get_client_list Demo.builtin_text Demo.some_clients
         (Demo.get_at (lit "/rundeck/clients")) (Demo.fresh tt))
  = fst (get_client_list Demo.builtin_text
           (Demo.getter (Ok [lit "alpha"; lit "zeta"; lit "Beta"])
              (Ok ([], None)))
           (Demo.get_at (lit "/rundeck/clients")) (Demo.fresh tt)).
Proof.
  apply (rundeck_order_independent unit Demo.builtin_text
           Demo.some_clients
           (Demo.getter (Ok [lit "alpha"; lit "zeta"; lit "Beta"])
              (Ok ([], None)))
           (Demo.get_at (lit "/rundeck/clients")) (Demo.fresh tt)
           (Demo.fresh tt) Demo.three_clients
           [lit "alpha"; lit "zeta"; lit "Beta"] tt tt);
    try reflexivity.
  unfold Demo.three_clients.
  apply Permutation_sym.
  apply (perm_trans (perm_swap (lit "zeta") (lit "alpha") [lit "Beta"])).
  apply perm_skip. apply perm_swap.
Defined.

(** ** /deliveries and /v2/deliveries *)

(** X8: a body that is no mapping (a list, a string, a number, null) has
    no [get]: both handlers raise the AttributeError, uncaught, before
    any collaborator is called. *)
Theorem deliveries_body_not_a_mapping
    (St : Type) (py_repr : PyVal -> pystr) (cg : ClientGetter St)
    (r : Request) (w : world St) :
  (forall m, rq_json r <> PDict m) ->
  get_client_deliveries py_repr cg r w
  = (Raise (Builtin (NoAttribute (py_type_name (rq_json r)) (lit "get"))), w)
  /\ get_client_deliveries_v2 py_repr cg r w
     = (Raise (Builtin (NoAttribute (py_type_name (rq_json r)) (lit "get"))), w).
Proof.
  intros Hbody. run_handler.
  destruct (rq_json r) as [| b | z | s | l | m] eqn:E;
    try (split; reflexivity).
  now elim (Hbody m).
Qed.

Lemma deliveries_body_not_a_mapping_witness :
  get_client_deliveries Demo.repr Demo.some_clients
    (Demo.post_at (lit "/deliveries") (PList [PStr (lit "ABC")]))
    (Demo.fresh tt)
  = (Raise (Builtin (NoAttribute (lit "list") (lit "get"))), Demo.fresh tt).
Proof.
  apply (deliveries_body_not_a_mapping unit Demo.repr Demo.some_clients
           (Demo.post_at (lit "/deliveries") (PList [PStr (lit "ABC")]))
           (Demo.fresh tt)).
  intros m. discriminate.
Defined.

Lemma deliveries_reply_world
    (St : Type) (py_repr : PyVal -> pystr) (client : PyVal)
    (answer : list PyVal * option pystr) (success : PyVal -> M St Response)
    (w : world St) :
  (forall v w', snd (success v w') = w') ->
  snd (deliveries_reply py_repr client answer success w) = w.
Proof.
  intros Hs. unfold deliveries_reply, ret. destruct answer as [l err].
  repeat match goal with
         | |- context [if ?b then _ else _] => destruct b
         end; try reflexivity; apply Hs.
Qed.

Lemma py_or_get (k : pystr) (d : PyVal) (m : dict) :
  py_or (dict_get_or k PNone m) d
  = match dict_get k m with
    | Some v => if py_truthy v then v else d
    | None => d
    end.
Proof. unfold py_or, dict_get_or. now destruct (dict_get k m). Qed.

(** X9: for a body with a client, each handler calls its collaborator
    method once, whatever comes of it, with the client, with the search
    parameters of the body or else the empty mapping, and with the time
    zone of the body or else [Etc/UTC]; nothing else touches the
    backend. *)
Theorem deliveries_single_call
    (St : Type) (py_repr : PyVal -> pystr) (cg : ClientGetter St)
    (r : Request) (w : world St) (m : dict) (client : PyVal) :
  let search_params :=
    match dict_get (lit "search_params") m with
    | Some v => if py_truthy v then v else PDict []
    | None => PDict []
    end in
  let timezone :=
    match dict_get (lit "timezone") m with
    | Some v => if py_truthy v then v else PStr (lit "Etc/UTC")
    | None => PStr (lit "Etc/UTC")
    end in
  rq_json r = PDict m ->
  dict_get (lit "client") m = Some client ->
  py_truthy client = true ->
  snd (get_client_deliveries py_repr cg r w)
  = {| backend :=
         snd (get_deliveries cg client search_params timezone (backend w));
       calls := calls w ++ [Call_get_deliveries client search_params timezone] |}
  /\ snd (get_client_deliveries_v2 py_repr cg r w)
     = {| backend :=
            snd (get_deliveries_v2 cg client search_params timezone (backend w));
          calls :=
            calls w ++ [Call_get_deliveries_v2 client search_params timezone] |}.
Proof.
  intros search_params timezone Hjson Hclient Htrue.
  assert (Ec : dict_get_or (lit "client") PNone m = client)
    by (unfold dict_get_or; now rewrite Hclient).
  split.
  - unfold get_client_deliveries, json_get, bind, invoke, ret.
    rewrite Hjson, !py_or_get, Ec, Htrue. cbn [negb].
    fold search_params timezone.
    destruct (get_deliveries cg client search_params timezone (backend w))
      as [[answer|e] s']; [|reflexivity].
    cbn [snd]. apply deliveries_reply_world.
    intros v w'. unfold lift, ret.
    match goal with
    | |- context [if ?b then _ else _] => destruct b
    end; reflexivity.
  - unfold get_client_deliveries_v2, json_get, bind, invoke, ret.
    rewrite Hjson, !py_or_get, Ec, Htrue. cbn [negb].
    fold search_params timezone.
    destruct (get_deliveries_v2 cg client search_params timezone (backend w))
      as [[answer|e] s']; [|reflexivity].
    cbn [snd]. apply deliveries_reply_world. reflexivity.
Qed.

Lemma deliveries_single_call_witness :
  calls (snd (get_client_deliveries Demo.repr
                (Demo.getter (Ok []) (Ok ([Demo.parcel], None)))
                (Demo.post_at (lit "/deliveries")
                   (PDict [(lit "client", PStr (lit "ABC"));
                           (lit "timezone", PStr [])]))
                (Demo.fresh tt)))
  = [Call_get_deliveries (PStr (lit "ABC")) (PDict []) (PStr (lit "Etc/UTC"))].
Proof.
  exact (f_equal (@calls unit)
           (proj1 (deliveries_single_call unit Demo.repr
                     (Demo.getter (Ok []) (Ok ([Demo.parcel], None)))
                     (Demo.post_at (lit "/deliveries")
                        (PDict [(lit "client", PStr (lit "ABC"));
                                (lit "timezone", PStr [])]))
                     (Demo.fresh tt) _ (PStr (lit "ABC"))
                     eq_refl eq_refl eq_refl))).
Defined.

(** X10: neither handler catches what its collaborator raises: the
    exception leaves the handler, after the one call. *)
Theorem deliveries_collaborator_raises
    (St : Type) (py_repr : PyVal -> pystr) (cg : ClientGetter St)
    (r : Request) (w : world St) (m : dict) (e : exn) (s' : St) :
  let client := dict_get_or (lit "client") PNone m in
  let search_params :=
    py_or (dict_get_or (lit "search_params") PNone m) (PDict []) in
  let timezone :=
    py_or (dict_get_or (lit "timezone") PNone m) (PStr (lit "Etc/UTC")) in
  rq_json r = PDict m ->
  py_truthy client = true ->
  (get_deliveries cg client search_params timezone (backend w) = (Raise e, s') ->
   get_client_deliveries py_repr cg r w
   = (Raise e,
      {| backend := s';
         calls := calls w ++ [Call_get_deliveries client search_params timezone] |}))
  /\
  (get_deliveries_v2 cg client search_params timezone (backend w) = (Raise e, s') ->
   get_client_deliveries_v2 py_repr cg r w
   = (Raise e,
      {| backend := s';
         calls :=
           calls w ++ [Call_get_deliveries_v2 client search_params timezone] |})).
Proof.
  intros client search_params timezone Hjson Hclient.
  split; intros Hcall.
  - unfold get_client_deliveries, json_get, bind, invoke, ret.
    rewrite Hjson. fold client search_params timezone.
    rewrite Hclient. cbn [negb]. now rewrite Hcall.
  - unfold get_client_deliveries_v2, json_get, bind, invoke, ret.
    rewrite Hjson. fold client search_params timezone.
    rewrite Hclient. cbn [negb]. now rewrite Hcall.
Qed.

Lemma deliveries_collaborator_raises_witness :
  get_client_deliveries Demo.repr
    (Demo.getter (Ok []) (Raise Demo.missing_code))
    (Demo.post_at (lit "/deliveries") (PDict [(lit "client", PStr (lit "ABC"))]))
    (Demo.fresh tt)
  = (Raise Demo.missing_code,
     {| backend := tt;
        calls := [Call_get_deliveries (PStr (lit "ABC")) (PDict [])
                    (PStr (lit "Etc/UTC"))] |}).
Proof.
  exact (proj1 (deliveries_collaborator_raises unit Demo.repr
                  (Demo.getter (Ok []) (Raise Demo.missing_code))
                  (Demo.post_at (lit "/deliveries")
                     (PDict [(lit "client", PStr (lit "ABC"))]))
                  (Demo.fresh tt) _ Demo.missing_code tt eq_refl eq_refl)
           eq_refl).
Defined.

Lemma dict_get_set_same (k : pystr) (v : PyVal) (m : dict) :
  dict_get k (dict_set k v m) = Some v.
Proof.
  induction m as [|[k' v'] m IH]; simpl; [now rewrite pystr_eqb_refl|].
  destruct (pystr_eqb k k') eqn:E; simpl; rewrite E; [reflexivity|exact IH].
Qed.

Lemma dict_get_set_other (k k' : pystr) (v : PyVal) (m : dict) :
  k' <> k -> dict_get k' (dict_set k v m) = dict_get k' m.
Proof.
  intros Hne. induction m as [|[k1 v1] m IH]; simpl.
  - now rewrite (pystr_eqb_neq _ _ Hne).
  - destruct (pystr_eqb k k1) eqn:E; simpl.
    + apply pystr_eqb_eq in E. subst k1.
      now rewrite (pystr_eqb_neq _ _ Hne).
    + destruct (pystr_eqb k' k1); [reflexivity|exact IH].
Qed.

(** /deliveries reads four keys of the body, and of [csv] only whether
    [need_csv] is true. *)
Lemma deliveries_same_fields
    (St : Type) (py_repr : PyVal -> pystr) (cg : ClientGetter St)
    (r1 r2 : Request) (w : world St) (m1 m2 : dict) :
  rq_json r1 = PDict m1 ->
  rq_json r2 = PDict m2 ->
  (forall k, k <> lit "csv" -> dict_get k m1 = dict_get k m2) ->
  py_truthy (need_csv_of m1) = py_truthy (need_csv_of m2) ->
  get_client_deliveries py_repr cg r1 w = get_client_deliveries py_repr cg r2 w.
Proof.
  intros H1 H2 Hkeys Hflag.
  unfold get_client_deliveries, json_get, bind, ret.
  rewrite H1, H2. cbv zeta.
  change (match dict_get_or (lit "csv") (PBool true) m1 with
          | PStr s =>
              PBool (existsb (pystr_eqb (py_lower (py_strip s)))
                       [lit ""; lit "yes"; lit "true"])
          | _ => dict_get_or (lit "csv") (PBool true) m1
          end) with (need_csv_of m1).
  change (match dict_get_or (lit "csv") (PBool true) m2 with
          | PStr s =>
              PBool (existsb (pystr_eqb (py_lower (py_strip s)))
                       [lit ""; lit "yes"; lit "true"])
          | _ => dict_get_or (lit "csv") (PBool true) m2
          end) with (need_csv_of m2).
  rewrite Hflag.
  unfold dict_get_or.
  rewrite !(Hkeys (lit "timezone")), !(Hkeys (lit "client")),
    !(Hkeys (lit "search_params")) by discriminate.
  reflexivity.
Qed.

(** X11: a [csv] flag given as a string counts by its word, stripped and
    in lower case: with the empty word, [yes] or [true] the request is
    handled as with [true], with any other word as with [false]. *)
Theorem deliveries_csv_word
    (St : Type) (py_repr : PyVal -> pystr) (cg : ClientGetter St)
    (r1 r2 : Request) (w : world St) (m : dict) (s : pystr) (b : bool) :
  rq_json r1 = PDict (dict_set (lit "csv") (PStr s) m) ->
  rq_json r2 = PDict (dict_set (lit "csv") (PBool b) m) ->
  (b = true <->
   csv_word s = [] \/ csv_word s = lit "yes" \/ csv_word s = lit "true") ->
  get_client_deliveries py_repr cg r1 w = get_client_deliveries py_repr cg r2 w.
Proof.
  intros H1 H2 Hb.
  apply (deliveries_same_fields St py_repr cg r1 r2 w _ _ H1 H2).
  - intros k Hk. now rewrite !dict_get_set_other.
  - unfold need_csv_of, dict_get_or. rewrite !dict_get_set_same.
    cbn [py_truthy existsb]. fold (csv_word s).
    destruct b.
    + destruct (proj1 Hb eq_refl) as [E|[E|E]]; rewrite E; reflexivity.
    + destruct (pystr_eqb (csv_word s) (lit "")) eqn:E1;
        [apply pystr_eqb_eq in E1;
         assert (Hf : false = true) by (apply Hb; now left);
         discriminate Hf|].
      destruct (pystr_eqb (csv_word s) (lit "yes")) eqn:E2;
        [apply pystr_eqb_eq in E2;
         assert (Hf : false = true) by (apply Hb; right; now left);
         discriminate Hf|].
      destruct (pystr_eqb (csv_word s) (lit "true")) eqn:E3;
        [apply pystr_eqb_eq in E3;
         assert (Hf : false = true) by (apply Hb; right; now right);
         discriminate Hf|].
      reflexivity.
Qed.

Lemma deliveries_csv_word_witness :
  get_client_deliveries Demo.repr
    (Demo.getter (Ok []) (Ok ([Demo.parcel], None)))
    (Demo.post_at (lit "/deliveries")
       (PDict [(lit "client", PStr (lit "ABC")); (lit "csv", PStr (lit " YES "))]))
    (Demo.fresh tt)
  = get_client_deliveries Demo.repr
      (Demo.getter (Ok []) (Ok ([Demo.parcel], None)))
      (Demo.post_at (lit "/deliveries")
         (PDict [(lit "client", PStr (lit "ABC")); (lit "csv", PBool true)]))
      (Demo.fresh tt).
Proof.
  apply (deliveries_csv_word unit Demo.repr
           (Demo.getter (Ok []) (Ok ([Demo.parcel], None)))
           (Demo.post_at (lit "/deliveries")
              (PDict [(lit "client", PStr (lit "ABC"));
                      (lit "csv", PStr (lit " YES "))]))
           (Demo.post_at (lit "/deliveries")
              (PDict [(lit "client", PStr (lit "ABC")); (lit "csv", PBool true)]))
           (Demo.fresh tt)
           [(lit "client", PStr (lit "ABC"))] (lit " YES ") true);
    try reflexivity.
  split; [intros _; right; left; reflexivity | reflexivity].
Defined.

(** X12: a body without [csv] is handled as with [csv] true, and a body
    whose [csv] is null as with [csv] false. *)
Theorem deliveries_csv_default
    (St : Type) (py_repr : PyVal -> pystr) (cg : ClientGetter St)
    (r1 r2 : Request) (w : world St) (m : dict) :
  (dict_get (lit "csv") m = None ->
   rq_json r1 = PDict m ->
   rq_json r2 = PDict (dict_set (lit "csv") (PBool true) m) ->
   get_client_deliveries py_repr cg r1 w = get_client_deliveries py_repr cg r2 w)
  /\
  (rq_json r1 = PDict (dict_set (lit "csv") PNone m) ->
   rq_json r2 = PDict (dict_set (lit "csv") (PBool false) m) ->
   get_client_deliveries py_repr cg r1 w = get_client_deliveries py_repr cg r2 w).
Proof.
  split.
  - intros Hnone H1 H2.
    apply (deliveries_same_fields St py_repr cg r1 r2 w _ _ H1 H2).
    + intros k Hk. now rewrite dict_get_set_other.
    + unfold need_csv_of, dict_get_or.
      now rewrite dict_get_set_same, Hnone.
  - intros H1 H2.
    apply (deliveries_same_fields St py_repr cg r1 r2 w _ _ H1 H2).
    + intros k Hk. now rewrite !dict_get_set_other.
    + unfold need_csv_of, dict_get_or. now rewrite !dict_get_set_same.
Qed.

Lemma deliveries_csv_default_witness :
  get_client_deliveries Demo.repr
    (Demo.getter (Ok []) (Ok ([Demo.parcel], None)))
    (Demo.post_at (lit "/deliveries") (PDict [(lit "client", PStr (lit "ABC"))]))
    (Demo.fresh tt)
  = get_client_deliveries Demo.repr
      (Demo.getter (Ok []) (Ok ([Demo.parcel], None)))
      (Demo.post_at (lit "/deliveries")
         (PDict [(lit "client", PStr (lit "ABC")); (lit "csv", PBool true)]))
      (Demo.fresh tt).
Proof.
  exact (proj1 (deliveries_csv_default unit Demo.repr
                  (Demo.getter (Ok []) (Ok ([Demo.parcel], None)))
                  (Demo.post_at (lit "/deliveries")
                     (PDict [(lit "client", PStr (lit "ABC"))]))
                  (Demo.post_at (lit "/deliveries")
                     (PDict [(lit "client", PStr (lit "ABC"));
                             (lit "csv", PBool true)]))
                  (Demo.fresh tt) [(lit "client", PStr (lit "ABC"))])
           eq_refl eq_refl eq_refl).
Defined.

Lemma deliveries_reply_ext
    (St : Type) (py_repr : PyVal -> pystr) (client : PyVal)
    (answer : list PyVal * option pystr)
    (f g : PyVal -> M St Response) (w1 w2 : world St) :
  (forall v, fst (f v w1) = fst (g v w2)) ->
  fst (deliveries_reply py_repr client answer f w1)
  = fst (deliveries_reply py_repr client answer g w2).
Proof.
  intros H. unfold deliveries_reply, ret. destruct answer as [l err].
  repeat match goal with
         | |- context [if ?b then _ else _] => destruct b
         end; try reflexivity; apply H.
Qed.

(** X13: the two delivery handlers agree: without a client both answer
    the same 400, and when [csv] is false and the two collaborator
    methods behave alike, they give the same answer and leave the same
    backend. *)
Theorem deliveries_versions_agree
    (St : Type) (py_repr : PyVal -> pystr) (cg : ClientGetter St)
    (r : Request) (w : world St) (m : dict) :
  rq_json r = PDict m ->
  (py_truthy (dict_get_or (lit "client") PNone m) = false ->
   get_client_deliveries py_repr cg r w = get_client_deliveries_v2 py_repr cg r w)
  /\
  ((forall c sp tz s, get_deliveries cg c sp tz s = get_deliveries_v2 cg c sp tz s) ->
   py_truthy (need_csv_of m) = false ->
   fst (get_client_deliveries py_repr cg r w)
   = fst (get_client_deliveries_v2 py_repr cg r w)
   /\ backend (snd (get_client_deliveries py_repr cg r w))
      = backend (snd (get_client_deliveries_v2 py_repr cg r w))).
Proof.
  intros Hjson. split.
  - intros Hclient.
    unfold get_client_deliveries, get_client_deliveries_v2, json_get, bind, ret.
    rewrite Hjson, Hclient. reflexivity.
  - intros Hsame Hflag.
    unfold get_client_deliveries, get_client_deliveries_v2, json_get, bind,
      invoke, ret.
    rewrite Hjson. cbv zeta.
    change (match dict_get_or (lit "csv") (PBool true) m with
            | PStr s =>
                PBool (existsb (pystr_eqb (py_lower (py_strip s)))
                         [lit ""; lit "yes"; lit "true"])
            | _ => dict_get_or (lit "csv") (PBool true) m
            end) with (need_csv_of m).
    rewrite Hflag.
    destruct (py_truthy (dict_get_or (lit "client") PNone m)); cbn [negb];
      [|now split].
    rewrite Hsame.
    destruct (get_deliveries_v2 cg _ _ _ (backend w)) as [[answer|e] s'];
      [|now split].
    split.
    + now apply deliveries_reply_ext.
    + now rewrite !deliveries_reply_world.
Qed.

Lemma deliveries_versions_agree_witness :
  fst (get_client_deliveries Demo.repr
         (Demo.getter (Ok []) (Ok ([Demo.parcel], None)))
         (Demo.post_at (lit "/deliveries")
            (PDict [(lit "client", PStr (lit "ABC")); (lit "csv", PStr (lit "no"))]))
         (Demo.fresh tt))
  = fst (get_client_deliveries_v2 Demo.repr
           (Demo.getter (Ok []) (Ok ([Demo.parcel], None)))
           (Demo.post_at (lit "/deliveries")
              (PDict [(lit "client", PStr (lit "ABC"));
                      (lit "csv", PStr (lit "no"))]))
           (Demo.fresh tt)).
Proof.
  exact (proj1 (proj2 (deliveries_versions_agree unit Demo.repr
                         (Demo.getter (Ok []) (Ok ([Demo.parcel], None)))
                         (Demo.post_at (lit "/deliveries")
                            (PDict [(lit "client", PStr (lit "ABC"));
                                    (lit "csv", PStr (lit "no"))]))
                         (Demo.fresh tt) _ eq_refl)
                  (fun _ _ _ _ => eq_refl) eq_refl)).
Defined.

(** ** /sync_customer_tf *)

(** X14: under PUT or DELETE a body that is true and no mapping (a list
    that is not empty, a string, a number) makes the normaliser raise
    the AttributeError outside the [try]: it leaves the handler, and no
    collaborator is called. *)
Theorem sync_body_not_a_mapping
    (St : Type) (builtin_repr : builtin_error -> pystr) (tf : ClientTF St)
    (r : Request) (w : world St) :
  mutating_method (rq_method r) ->
  py_truthy (rq_json r) = true ->
  (forall m, rq_json r <> PDict m) ->
  sync_customer_tf builtin_repr tf r w
  = (Raise (Builtin (NoAttribute (py_type_name (rq_json r)) (lit "keys"))), w).
Proof.
  intros Hmethod Htrue Hbody.
  destruct (adjust_arguments_total
              (map (fun kv => (fst kv, PStr (snd kv))) (rq_args r)))
    as [qa Hqa].
  unfold sync_customer_tf, args_to_dict, bind, lift. rewrite Hqa.
  assert (Hmut : existsb (pystr_eqb (rq_method r)) [lit "PUT"; lit "DELETE"]
                 = true)
    by (destruct Hmethod as [-> | ->]; reflexivity).
  rewrite Hmut. unfold _adjust_arguments. rewrite Htrue. cbn [negb].
  destruct (rq_json r) as [| b | z | s | l | m] eqn:E; try reflexivity.
  now elim (Hbody m).
Qed.

Lemma sync_body_not_a_mapping_witness :
  sync_customer_tf Demo.builtin_text Demo.tf
    {| rq_rule := lit "/sync_customer_tf"; rq_method := lit "DELETE";
       rq_args := []; rq_json := PList [PStr (lit "ABC")] |}
    (Demo.fresh [])
  = (Raise (Builtin (NoAttribute (lit "list") (lit "keys"))), Demo.fresh []).
Proof.
  apply (sync_body_not_a_mapping dict Demo.builtin_text Demo.tf
           {| rq_rule := lit "/sync_customer_tf"; rq_method := lit "DELETE";
              rq_args := []; rq_json := PList [PStr (lit "ABC")] |}
           (Demo.fresh [])).
  - right. reflexivity.
  - reflexivity.
  - intros m. discriminate.
Defined.

(** X15: under PUT or DELETE a body that is false and no mapping (null,
    false, zero, the empty string, the empty list) is refused by the
    double star inside the [try]: the answer is 400 with the [repr] of
    the TypeError, and no collaborator is called. *)
Theorem sync_body_false
    (St : Type) (builtin_repr : builtin_error -> pystr) (tf : ClientTF St)
    (r : Request) (w : world St) :
  mutating_method (rq_method r) ->
  py_truthy (rq_json r) = false ->
  rq_json r <> PDict [] ->
  sync_customer_tf builtin_repr tf r w
  = (Ok (response_json 400
           (result_body
              (builtin_repr
                 (KwargsNotMapping (py_lower (rq_method r) ++ lit "_client")
                    (rq_json r))))),
     w).
Proof.
  intros Hmethod Hfalse Hbody.
  destruct (adjust_arguments_total
              (map (fun kv => (fst kv, PStr (snd kv))) (rq_args r)))
    as [qa Hqa].
  unfold sync_customer_tf, args_to_dict, bind, lift. rewrite Hqa.
  assert (Hmut : existsb (pystr_eqb (rq_method r)) [lit "PUT"; lit "DELETE"]
                 = true)
    by (destruct Hmethod as [-> | ->]; reflexivity).
  rewrite Hmut. unfold _adjust_arguments. rewrite Hfalse. cbn [negb].
  unfold try_except, bind, getattr_client_tf, call_kwargs, ret, raise.
  destruct (rq_json r) as [| b | z | s | l | m] eqn:E;
    try (destruct Hmethod as [-> | ->]; reflexivity).
  destruct m; [now elim Hbody|discriminate Hfalse].
Qed.

Lemma sync_body_false_witness :
  sync_customer_tf Demo.builtin_text Demo.tf
    {| rq_rule := lit "/sync_customer_tf"; rq_method := lit "PUT";
       rq_args := []; rq_json := PList [] |}
    (Demo.fresh [])
  = (Ok (json_response 400 (result_text (lit "TypeError"))), Demo.fresh []).
Proof.
  apply (sync_body_false dict Demo.builtin_text Demo.tf
           {| rq_rule := lit "/sync_customer_tf"; rq_method := lit "PUT";
              rq_args := []; rq_json := PList [] |}
           (Demo.fresh [])).
  - left. reflexivity.
  - reflexivity.
  - discriminate.
Defined.

(** X16: what [get_client] raises is not caught: it leaves the handler.
    After a PUT or a DELETE whose mutation returned, the backend is the
    one the mutation and the failed lookup left: the mutation stays. *)
Theorem sync_lookup_raises
    (St : Type) (builtin_repr : builtin_error -> pystr) (tf : ClientTF St)
    (r : Request) (w : world St) (qa : dict) (e : exn) :
  _adjust_arguments (args_to_dict r) = Ok (PDict qa) ->
  (~ mutating_method (rq_method r) ->
   forall s',
     get_client tf qa (backend w) = (Raise e, s') ->
     sync_customer_tf builtin_repr tf r w
     = (Raise e,
        {| backend := s';
           calls := calls w ++ [Call_client_tf (lit "get_client") qa] |}))
  /\
  (forall name f,
     (rq_method r = lit "PUT" /\ name = lit "put_client" /\ f = put_client tf)
     \/ (rq_method r = lit "DELETE" /\ name = lit "delete_client"
         /\ f = delete_client tf) ->
     forall kw x s1 s2,
       _adjust_arguments (rq_json r) = Ok (PDict kw) ->
       f kw (backend w) = (Ok x, s1) ->
       get_client tf qa s1 = (Raise e, s2) ->
       sync_customer_tf builtin_repr tf r w
       = (Raise e,
          {| backend := s2;
             calls := calls w ++ [Call_client_tf name kw;
                                  Call_client_tf (lit "get_client") qa] |})).
Proof.
  intros Hqa. split.
  - intros Hnot s' Hget.
    unfold sync_customer_tf, bind, lift. rewrite Hqa. cbn [existsb].
    rewrite (pystr_eqb_neq (rq_method r) (lit "PUT"))
      by (intros E; apply Hnot; now left).
    rewrite (pystr_eqb_neq (rq_method r) (lit "DELETE"))
      by (intros E; apply Hnot; now right).
    unfold call_kwargs, invoke, ret. simpl. now rewrite Hget.
  - intros name f Hmethod kw x s1 s2 Hjson Hmut Hget.
    unfold sync_customer_tf, bind, lift. rewrite Hqa, Hjson.
    destruct Hmethod as [[-> [-> ->]] | [-> [-> ->]]];
      cbv beta iota;
      unfold try_except, bind, getattr_client_tf, call_kwargs, invoke, ret;
      simpl; rewrite Hmut; simpl; rewrite Hget, <- app_assoc; reflexivity.
Qed.

Lemma sync_lookup_raises_witness :
  sync_customer_tf Demo.builtin_text
    {| get_client := fun _ s => (Raise Demo.missing_code, s);
       put_client := put_client Demo.tf;
       delete_client := delete_client Demo.tf |}
    Demo.put_with_code (Demo.fresh [])
  = (Raise Demo.missing_code,
     {| backend :=
          [(lit "ABC", PDict [(lit "code", PStr (lit "ABC"));
                              (lit "name", PStr (lit "Acme__Ltd"))])];
        calls :=
          [Call_client_tf (lit "put_client")
             [(lit "code", PStr (lit "ABC"));
              (lit "name", PStr (lit "Acme__Ltd"))];
           Call_client_tf (lit "get_client")
             [(lit "code", PStr (lit "ABC"))]] |}).
Proof.
  exact (proj2 (sync_lookup_raises dict Demo.builtin_text
                  {| get_client := fun _ s => (Raise Demo.missing_code, s);
                     put_client := put_client Demo.tf;
                     delete_client := delete_client Demo.tf |}
                  Demo.put_with_code (Demo.fresh [])
                  [(lit "code", PStr (lit "ABC"))] Demo.missing_code eq_refl)
           (lit "put_client") (put_client Demo.tf)
           (or_introl (conj eq_refl (conj eq_refl eq_refl)))
           _ PNone _ _ eq_refl eq_refl eq_refl).
Defined.

(** X17: a request that is neither PUT nor DELETE never reads the body
    and never mutates: its outcome depends on the query arguments alone,
    and the one call it makes is [get_client]. *)
Theorem sync_get_reads_no_body
    (St : Type) (builtin_repr : builtin_error -> pystr) (tf : ClientTF St)
    (r1 r2 : Request) (w : world St) :
  ~ mutating_method (rq_method r1) ->
  ~ mutating_method (rq_method r2) ->
  rq_args r1 = rq_args r2 ->
  sync_customer_tf builtin_repr tf r1 w = sync_customer_tf builtin_repr tf r2 w
  /\ exists qa,
       calls (snd (sync_customer_tf builtin_repr tf r1 w))
       = calls w ++ [Call_client_tf (lit "get_client") qa].
Proof.
  intros Hn1 Hn2 Hargs.
  destruct (adjust_arguments_total
              (map (fun kv => (fst kv, PStr (snd kv))) (rq_args r1)))
    as [qa Hqa].
  assert (H : forall r,
            ~ mutating_method (rq_method r) -> rq_args r = rq_args r1 ->
            sync_customer_tf builtin_repr tf r w
            = (let (o, s) := get_client tf qa (backend w) in
               (match o with
                | Ok found => Ok (response_json 200 found)
                | Raise e => Raise e
                end,
                {| backend := s;
                   calls := calls w ++ [Call_client_tf (lit "get_client") qa] |}))).
  { intros r Hn Ha.
    unfold sync_customer_tf, args_to_dict, bind, lift. rewrite Ha, Hqa.
    cbn [existsb].
    rewrite (pystr_eqb_neq (rq_method r) (lit "PUT"))
      by (intros E; apply Hn; now left).
    rewrite (pystr_eqb_neq (rq_method r) (lit "DELETE"))
      by (intros E; apply Hn; now right).
    unfold call_kwargs, invoke, ret. simpl.
    now destruct (get_client tf qa (backend w)) as [[v|e] s]. }
  split.
  - rewrite (H r1 Hn1 eq_refl), (H r2 Hn2 (eq_sym Hargs)). reflexivity.
  - exists qa. rewrite (H r1 Hn1 eq_refl).
    now destruct (get_client tf qa (backend w)) as [[v|e] s].
Qed.

Lemma sync_get_reads_no_body_witness :
  sync_customer_tf Demo.builtin_text Demo.tf
    {| rq_rule := lit "/sync_customer_tf"; rq_method := lit "GET";
       rq_args := [(lit "code", lit "ABC")]; rq_json := PNone |}
    (Demo.fresh [])
  = sync_customer_tf Demo.builtin_text Demo.tf
      {| rq_rule := lit "/sync_customer_tf"; rq_method := lit "GET";
         rq_args := [(lit "code", lit "ABC")];
         rq_json := PList [PInt 1] |}
      (Demo.fresh []).
Proof.
  apply (sync_get_reads_no_body dict Demo.builtin_text Demo.tf
           {| rq_rule := lit "/sync_customer_tf"; rq_method := lit "GET";
              rq_args := [(lit "code", lit "ABC")]; rq_json := PNone |}
           {| rq_rule := lit "/sync_customer_tf"; rq_method := lit "GET";
              rq_args := [(lit "code", lit "ABC")];
              rq_json := PList [PInt 1] |}
           (Demo.fresh [])).
  - intros [H | H]; discriminate H.
  - intros [H | H]; discriminate H.
  - reflexivity.
Defined.

(** ** /client_lang, /get_client_data and /client_counterparty *)


(** A string of plain characters is written between quotes as it is. *)
Lemma json_string_plain (s : pystr) :
  forallb plain_char s = true -> json_string s = quoted s.
Proof.
  intros H. unfold json_string, quoted. do 2 f_equal.
  induction s as [|c t IH]; [reflexivity|].
  cbn [forallb] in H. apply andb_true_iff in H. destruct H as [Hc Ht].
  cbn [flat_map]. rewrite (IH Ht).
  unfold plain_char in Hc.
  apply andb_true_iff in Hc. destruct Hc as [Hc H92].
  apply andb_true_iff in Hc. destruct Hc as [Hc H34].
  apply andb_true_iff in Hc. destruct Hc as [Hlo Hhi].
  apply negb_true_iff in H92, H34.
  apply N.leb_le in Hlo, Hhi.
  unfold json_escape_char. rewrite H34, H92.
  destruct (N.eqb_spec c 10); [lia|]. destruct (N.eqb_spec c 13); [lia|].
  destruct (N.eqb_spec c 9); [lia|]. destruct (N.eqb_spec c 8); [lia|].
  destruct (N.eqb_spec c 12); [lia|].
  destruct (N.leb_spec 32 c); [|lia]. destruct (N.leb_spec c 126); [|lia].
  reflexivity.
Qed.

Lemma uint_digits_plain (u : Decimal.uint) :
  forallb plain_char (uint_digits u) = true.
Proof. induction u; cbn [uint_digits forallb]; try rewrite IHu; reflexivity. Qed.

Lemma int_text_plain (z : Z) : forallb plain_char (int_text z) = true.
Proof.
  unfold int_text. destruct (Z.to_int z); cbn [forallb];
    now rewrite uint_digits_plain.
Qed.

(** X19: /get_client_data raises nothing and calls [get_client_data]
    once with the number of the path: it answers 500 with the text of
    the exception when the call raises, 200 with the data when they are
    true, and otherwise 404 with the body
    [{"result": "Client not found (id=[n])"}], [n] in decimal. *)
Theorem client_data_contract
    (St : Type) (builtin_str : builtin_error -> pystr)
    (g : Collaborator.Getter St) (client_id : Z) (d : desk St) :
  exists resp,
    get_client_data builtin_str g client_id d
    = (Ok resp,
       {| store := snd (Collaborator.get_client_data g client_id (store d));
          lookups := lookups d ++ [Lookup_client_data client_id] |})
    /\ (forall e,
          fst (Collaborator.get_client_data g client_id (store d)) = Raise e ->
          resp = response_json 500 (result_body (exn_str builtin_str e)))
    /\ (forall v,
          fst (Collaborator.get_client_data g client_id (store d)) = Ok v ->
          resp = if py_truthy v then response_json 200 v
                 else json_response 404
                        (result_text
                           (lit "Client not found (id=["
                            ++ int_text client_id ++ lit "])"))).
Proof.
  assert (Hbody :
    response_json 404 (result_body (client_data_missing client_id))
    = json_response 404
        (result_text
           (lit "Client not found (id=[" ++ int_text client_id ++ lit "])"))).
  { unfold response_json, json_response, result_body, result_text. f_equal.
    cbn [json_dumps map join_comma_space fst snd].
    rewrite (json_string_plain (client_data_missing client_id)).
    - reflexivity.
    - unfold client_data_missing. rewrite !forallb_app, int_text_plain.
      reflexivity. }
  unfold get_client_data, l_bind, l_try, l_invoke, l_ret.
  destruct (Collaborator.get_client_data g client_id (store d))
    as [[v|e] s']; cbn [fst snd].
  - destruct (py_truthy v) eqn:E; cbn [negb]; eexists;
      (split; [reflexivity|]); (split; [discriminate|]);
      intros v' [= <-]; rewrite E; [reflexivity|exact Hbody].
  - eexists. split; [reflexivity|].
    split; [now intros e' [= <-]|discriminate].
Qed.


Lemma client_data_contract_witness :
  fst (get_client_data Demo.builtin_text DemoLookups.getter 1 DemoLookups.fresh)
  = Ok (response_json 200 (PDict [(lit "code", PStr (lit "ABC"))]))
  /\
  fst (get_client_data Demo.builtin_text DemoLookups.getter 42 DemoLookups.fresh)
  = Ok (json_response 404 (result_text (lit "Client not found (id=[42])"))).
Proof.
  split.
  - destruct (client_data_contract unit Demo.builtin_text DemoLookups.getter
                1 DemoLookups.fresh) as [resp [Hrun [_ Hok]]].
    rewrite Hrun. cbn [fst]. f_equal. exact (Hok _ eq_refl).
  - destruct (client_data_contract unit Demo.builtin_text DemoLookups.getter
                42 DemoLookups.fresh) as [resp [Hrun [_ Hok]]].
    rewrite Hrun. cbn [fst]. f_equal. exact (Hok _ eq_refl).
Defined.



(** ** The JSON encoder *)

Ltac ascii_chars :=
  repeat (apply Forall_cons;
          [unfold printable_ascii, c_comma, c_space, c_dquote; lia|]);
  apply Forall_nil.

Lemma hex_digit_ascii (n : N) : printable_ascii (hex_digit (n mod 16)).
Proof.
  assert (H : n mod 16 < 16) by (apply N.mod_lt; discriminate).
  generalize dependent (n mod 16). intros x H.
  unfold printable_ascii, hex_digit.
  destruct (N.ltb_spec x 10); lia.
Qed.

Lemma u_escape_ascii (n : N) : Forall printable_ascii (u_escape n).
Proof.
  unfold u_escape.
  repeat (constructor; [first [apply hex_digit_ascii
                              | unfold printable_ascii; lia]|]).
  constructor.
Qed.

Lemma json_escape_char_ascii (c : char) :
  Forall printable_ascii (json_escape_char c).
Proof.
  unfold json_escape_char.
  repeat match goal with
         | |- context [?x =? ?k] =>
             destruct (N.eqb_spec x k);
             [ascii_chars|]
         end.
  destruct (N.leb_spec 32 c); destruct (N.leb_spec c 126); cbn [andb];
    try ascii_chars;
    (destruct (c <? 65536);
     [apply u_escape_ascii
     |apply Forall_app; split; apply u_escape_ascii]).
Qed.

Lemma json_string_ascii (s : pystr) : Forall printable_ascii (json_string s).
Proof.
  unfold json_string. constructor; [unfold printable_ascii, c_dquote; lia|].
  apply Forall_app. split.
  - induction s as [|c t IH]; cbn [flat_map]; [constructor|].
    apply Forall_app. split; [apply json_escape_char_ascii|exact IH].
  - ascii_chars.
Qed.

Lemma plain_char_ascii (s : pystr) :
  forallb plain_char s = true -> Forall printable_ascii s.
Proof.
  intros H. apply Forall_forall. intros c Hin.
  rewrite forallb_forall in H. specialize (H c Hin).
  unfold plain_char in H.
  apply andb_true_iff in H. destruct H as [H _].
  apply andb_true_iff in H. destruct H as [H _].
  apply andb_true_iff in H. destruct H as [H1 H2].
  apply N.leb_le in H1, H2. split; assumption.
Qed.

Lemma join_comma_space_ascii (parts : list pystr) :
  Forall (Forall printable_ascii) parts ->
  Forall printable_ascii (join_comma_space parts).
Proof.
  induction 1 as [|p rest Hp Hrest IH]; [constructor|].
  destruct rest as [|q rest]; [exact Hp|].
  change (join_comma_space (p :: q :: rest))
    with (p ++ [c_comma; c_space] ++ join_comma_space (q :: rest)).
  apply Forall_app. split; [exact Hp|].
  apply Forall_app. split; [|exact IH].
  ascii_chars.
Qed.

Lemma json_dumps_ascii (v : PyVal) : Forall printable_ascii (json_dumps v).
Proof.
  induction v as [| b | z | s | l IH | m IH] using PyVal_ind.
  - apply plain_char_ascii. reflexivity.
  - destruct b; apply plain_char_ascii; reflexivity.
  - apply plain_char_ascii, int_text_plain.
  - apply json_string_ascii.
  - rewrite json_dumps_list.
    constructor; [unfold printable_ascii; lia|].
    apply Forall_app. split.
    + apply join_comma_space_ascii. apply Forall_map. exact IH.
    + ascii_chars.
  - rewrite json_dumps_dict.
    constructor; [unfold printable_ascii; lia|].
    apply Forall_app. split.
    + apply join_comma_space_ascii. apply Forall_map.
      eapply Forall_impl; [|exact IH].
      intros [k v] Hv. unfold member_text. cbn [fst snd] in *.
      apply Forall_app. split; [apply json_string_ascii|].
      apply Forall_app. split; [|exact Hv].
      ascii_chars.
    + ascii_chars.
Qed.

(** X21: for a payload that is no string, the body the JSON encoder
    sends holds printable ASCII only, whatever characters the strings of
    the payload hold. *)
Theorem response_json_ascii (code : Z) (v : PyVal) :
  is_str v = false ->
  Forall printable_ascii (response (response_json code v)).
Proof.
  intros Hstr.
  replace (response (response_json code v)) with (json_dumps v)
    by (destruct v; try reflexivity; discriminate Hstr).
  apply json_dumps_ascii.
Qed.

Lemma response_json_ascii_witness :
  Forall printable_ascii (response (response_json 200 Demo.assorted)).
Proof. exact (response_json_ascii 200 Demo.assorted eq_refl). Defined.

(** ** Payloads at the edges *)

(** X22: the CSV encoder gives the empty body for every payload that is
    false (null, false, zero, the empty string, list or mapping), and
    raises the AttributeError for a payload whose first record, or
    itself when it is no list, is no mapping. *)
Theorem response_csv_edges
    (py_repr : PyVal -> pystr) (code : Z) (data : PyVal) :
  (py_truthy data = false ->
   response_csv py_repr code data = Ok (csv_response code []))
  /\
  (forall first,
     (exists rest, data = PList (first :: rest))
     \/ (data = first /\ py_truthy data = true
         /\ forall l, data <> PList l) ->
     (forall m, first <> PDict m) ->
     response_csv py_repr code data
     = Raise (Builtin (NoAttribute (py_type_name first) (lit "keys")))).
Proof.
  split.
  - intros Hfalse. unfold response_csv. now rewrite Hfalse.
  - intros first Hshape Hfirst. unfold response_csv.
    destruct Hshape as [[rest ->] | [<- [Htrue Hlist]]].
    + cbn [py_truthy].
      destruct first as [| b | z | s | l | m]; try reflexivity.
      now elim (Hfirst m).
    + rewrite Htrue.
      destruct data as [| b | z | s | l | m]; try reflexivity.
      * now elim (Hlist l).
      * now elim (Hfirst m).
Qed.

Lemma response_csv_edges_witness :
  response_csv Demo.repr 201 (PInt 0) = Ok (csv_response 201 [])
  /\ response_csv Demo.repr 201 (PList [PStr (lit "ABC"); Demo.parcel])
     = Raise (Builtin (NoAttribute (lit "str") (lit "keys"))).
Proof.
  split.
  - exact (proj1 (response_csv_edges Demo.repr 201 (PInt 0)) eq_refl).
  - apply (proj2 (response_csv_edges Demo.repr 201
                    (PList [PStr (lit "ABC"); Demo.parcel]))
             (PStr (lit "ABC"))).
    + left. exists [Demo.parcel]. reflexivity.
    + intros m. discriminate.
Defined.

(** X23: when the collaborator returns deliveries and no error (null or
    the empty string), /v2/deliveries answers 201 with the list as JSON,
    and /deliveries answers 201 with the list as JSON when [need_csv] is
    false and otherwise what the CSV encoder makes of the list with the
    code 201: its response, or the exception it raises. *)
Theorem deliveries_success
    (St : Type) (py_repr : PyVal -> pystr) (cg : ClientGetter St)
    (r : Request) (w : world St) (m : dict)
    (l : list PyVal) (err : option pystr) (s' : St) :
  let client := dict_get_or (lit "client") PNone m in
  let search_params :=
    py_or (dict_get_or (lit "search_params") PNone m) (PDict []) in
  let timezone :=
    py_or (dict_get_or (lit "timezone") PNone m) (PStr (lit "Etc/UTC")) in
  rq_json r = PDict m ->
  py_truthy client = true ->
  l <> [] ->
  error_void err ->
  (get_deliveries cg client search_params timezone (backend w)
   = (Ok (l, err), s') ->
   fst (get_client_deliveries py_repr cg r w)
   = if py_truthy (need_csv_of m) then response_csv py_repr 201 (PList l)
     else Ok (response_json 201 (PList l)))
  /\
  (get_deliveries_v2 cg client search_params timezone (backend w)
   = (Ok (l, err), s') ->
   fst (get_client_deliveries_v2 py_repr cg r w)
   = Ok (response_json 201 (PList l))).
Proof.
  intros client search_params timezone Hjson Hclient Hne Hvoid.
  destruct l as [|x l]; [contradiction|].
  split; intros Hcall.
  - unfold get_client_deliveries, json_get, bind, invoke, ret.
    rewrite Hjson. cbv zeta.
    change (match dict_get_or (lit "csv") (PBool true) m with
            | PStr s =>
                PBool (existsb (pystr_eqb (py_lower (py_strip s)))
                         [lit ""; lit "yes"; lit "true"])
            | _ => dict_get_or (lit "csv") (PBool true) m
            end) with (need_csv_of m).
    fold client search_params timezone.
    rewrite Hclient. cbn [negb]. rewrite Hcall.
    rewrite deliveries_reply_void by exact Hvoid.
    unfold lift, ret. now destruct (py_truthy (need_csv_of m)).
  - unfold get_client_deliveries_v2, json_get, bind, invoke, ret.
    rewrite Hjson. fold client search_params timezone.
    rewrite Hclient. cbn [negb]. rewrite Hcall.
    now rewrite deliveries_reply_void by exact Hvoid.
Qed.

Lemma deliveries_success_witness :
  fst (get_client_deliveries Demo.repr
         (Demo.getter (Ok []) (Ok ([Demo.parcel], Some [])))
         (Demo.post_at (lit "/deliveries")
            (PDict [(lit "client", PStr (lit "ABC")); (lit "csv", PInt 0)]))
         (Demo.fresh tt))
  = Ok (response_json 201 (PList [Demo.parcel]))
  /\
  fst (get_client_deliveries_v2 Demo.repr
         (Demo.getter (Ok []) (Ok ([Demo.parcel], Some [])))
         (Demo.post_at (lit "/v2/deliveries")
            (PDict [(lit "client", PStr (lit "ABC"))]))
         (Demo.fresh tt))
  = Ok (response_json 201 (PList [Demo.parcel])).
Proof.
  assert (Hne : [Demo.parcel] <> []) by discriminate.
  assert (Hvoid : error_void (Some [])) by (now right).
  split.
  - exact (proj1 (deliveries_success unit Demo.repr
                    (Demo.getter (Ok []) (Ok ([Demo.parcel], Some [])))
                    (Demo.post_at (lit "/deliveries")
                       (PDict [(lit "client", PStr (lit "ABC"));
                               (lit "csv", PInt 0)]))
                    (Demo.fresh tt) _ [Demo.parcel] (Some []) tt
                    eq_refl eq_refl Hne Hvoid)
             eq_refl).
  - exact (proj2 (deliveries_success unit Demo.repr
                    (Demo.getter (Ok []) (Ok ([Demo.parcel], Some [])))
                    (Demo.post_at (lit "/v2/deliveries")
                       (PDict [(lit "client", PStr (lit "ABC"))]))
                    (Demo.fresh tt) _ [Demo.parcel] (Some []) tt
                    eq_refl eq_refl Hne Hvoid)
             eq_refl).
Defined.
